(** * Conversation state machine, session store, intent classifier and
      freight engine of the shipping-quote bot: a shallow embedding.

    Conventions of the embedding.
    - A JavaScript [number] is a rational ([Q]) that is a binary64
      value; [NaN] and the infinities are not represented.  Where the
      source computes a number that is stored or returned (a weight, a
      price, a margin), the operation is the one of binary64: the exact
      result rounded to the nearest value, ties to even ([Num]).  In the
      comparators handed to [sort] only the sign matters, and that of
      the rounded difference is that of the exact one.  The scores of
      the ranking engine are exact rationals; what is stated of them is
      their order.  Timestamps ([Date.now()]) are [Z].
    - A JavaScript string is a Rocq [string] holding its UTF-8 bytes.  All
      the patterns of the source ([\d], [\D], [\b], [\w]) are ASCII
      classes, so matching on bytes agrees with matching on code units.
    - A thrown error is a value of [BaseError]; a function that can throw
      returns [Result].
    - Mutable objects live in an explicit heap; asynchronous functions are
      modelled by their sequential result. *)

From Stdlib Require Import QArith Qabs Qpower Qround ZArith String Ascii List Lia Lqa Bool Permutation Sorted.
From Stdlib Require SpecFloat.
From stdpp Require Import gmap strings pretty.
Import ListNotations.

Local Open Scope string_scope.
Local Open Scope list_scope.

(** ** infra/errors.ts *)

Module Errors.

Inductive ErrorCode :=
| REDIS_CONNECTION_ERROR | REDIS_OPERATION_ERROR | INTERNAL_ERROR
| TWILIO_API_ERROR | MELHORENVIO_API_ERROR | MELHORENVIO_TIMEOUT | TABELA_CSV_ERROR
| INVALID_CEP | INVALID_QUANTITY | INVALID_PHONE_NUMBER
| SESSION_NOT_FOUND | SESSION_EXPIRED | INVALID_STATE_TRANSITION
| NO_FREIGHT_OPTIONS | FREIGHT_CALCULATION_ERROR
| UNKNOWN_ERROR | VALIDATION_ERROR.

(** The three subclasses of [BaseError]; [NativeError] stands for a thrown
    value that is not a [BaseError] at all (a [TypeError], say). *)
Inductive ErrorClass := InfrastructureError | ProviderError | BusinessError | NativeError.

Record BaseError := mkError {
  err_class : ErrorClass;
  err_code : ErrorCode;
  err_message : string;
  err_retryable : bool
}.

(** [new BusinessError(code, message, ctx)]: never retryable. *)
Definition businessError (c : ErrorCode) (m : string) : BaseError :=
  mkError BusinessError c m false.

(** [new InfrastructureError(code, message, ctx)]: always retryable. *)
Definition infrastructureError (c : ErrorCode) (m : string) : BaseError :=
  mkError InfrastructureError c m true.

(** [new ProviderError(code, message, ctx, isRetryable = true)]. *)
Definition providerError (c : ErrorCode) (m : string) (r : bool) : BaseError :=
  mkError ProviderError c m r.

(** [error instanceof BusinessError]. *)
Definition isBusinessError (e : BaseError) : bool :=
  match err_class e with BusinessError => true | _ => false end.

Definition isInfrastructureError (e : BaseError) : bool :=
  match err_class e with InfrastructureError => true | _ => false end.

(** The spec's names for the rejections of the state machine. *)
Definition isStateError (e : BaseError) : Prop :=
  err_class e = BusinessError /\ err_code e = INVALID_STATE_TRANSITION.

Definition isValidationError (e : BaseError) : Prop :=
  err_class e = BusinessError /\ err_code e = VALIDATION_ERROR.

Definition isNoOptionsError (e : BaseError) : Prop :=
  err_class e = BusinessError /\ err_code e = NO_FREIGHT_OPTIONS.

(** Outcome of a call that either returns or throws. *)
Inductive Result (A : Type) :=
| Ok (a : A)
| Throw (e : BaseError).
Arguments Ok {A} a.
Arguments Throw {A} e.

End Errors.
Import Errors.

(** ** Effects: state passing with exceptions

    A computation over a store [S] returns the store it leaves behind and
    either a value or the error it threw.  Writes made before a throw
    stay in the store, as in the source. *)

Module Eff.

Definition M (S A : Type) : Type := S -> S * Result A.

Definition ret {S A} (a : A) : M S A := fun s => (s, Ok a).

Definition throw {S A} (e : BaseError) : M S A := fun s => (s, Throw e).

Definition bind {S A B} (m : M S A) (k : A -> M S B) : M S B :=
  fun s =>
    match m s with
    | (s', Ok a) => k a s'
    | (s', Throw e) => (s', Throw e)
    end.

(** [try { m } catch (error) { handler(error) }] *)
Definition try_catch {S A} (m : M S A) (handler : BaseError -> M S A) : M S A :=
  fun s =>
    match m s with
    | (s', Ok a) => (s', Ok a)
    | (s', Throw e) => handler e s'
    end.

Definition gets {S A} (f : S -> A) : M S A := fun s => (s, Ok (f s)).

Definition modify {S} (f : S -> S) : M S unit := fun s => (f s, Ok tt).

End Eff.
Import Eff.

Declare Scope eff_scope.
Delimit Scope eff_scope with eff.
Notation "x <- c1 ;; c2" := (bind c1 (fun x => c2))
  (at level 100, c1 at next level, right associativity) : eff_scope.
Notation "c1 ;;; c2" := (bind c1 (fun _ => c2))
  (at level 100, right associativity) : eff_scope.

(** ** Strings: the ASCII character classes the source's patterns use *)

Module Chars.

(** [\d] *)
Definition is_digit (c : ascii) : bool :=
  let n := nat_of_ascii c in (48 <=? n)%nat && (n <=? 57)%nat.

(** [\w] = [A-Za-z0-9_] *)
Definition is_word (c : ascii) : bool :=
  let n := nat_of_ascii c in
  ((48 <=? n)%nat && (n <=? 57)%nat) || ((65 <=? n)%nat && (n <=? 90)%nat)
  || ((97 <=? n)%nat && (n <=? 122)%nat) || (n =? 95)%nat.

Fixpoint chars (s : string) : list ascii :=
  match s with
  | EmptyString => []
  | String c r => c :: chars r
  end.

Fixpoint of_chars (l : list ascii) : string :=
  match l with
  | [] => EmptyString
  | c :: r => String c (of_chars r)
  end.

(** [s.replace(/\D/g, '')] *)
Definition strip_non_digits (s : string) : string :=
  of_chars (filter is_digit (chars s)).

(** [/^\d{8}$/.test(s)] *)
Definition is_cep8 (s : string) : bool :=
  (String.length s =? 8)%nat && forallb is_digit (chars s).

End Chars.

(** ** Numbers: the arithmetic of binary64 *)

Module Num.

(** [floor (log2 (n / d))] *)
Definition floor_log2 (n d : positive) : Z :=
  let e := (Z.log2 (Zpos n) - Z.log2 (Zpos d))%Z in
  if Qle_bool (2 ^ e) (Zpos n # d) then e else (e - 1)%Z.

(** The integer nearest to [y], ties to even. *)
Definition nearest_even (y : Q) : Z :=
  let q := (Qnum y / Zpos (Qden y))%Z in
  match (2 * (Qnum y mod Zpos (Qden y)) ?= Zpos (Qden y))%Z with
  | Lt => q
  | Gt => (q + 1)%Z
  | Eq => if Z.even q then q else (q + 1)%Z
  end.

(** The exponent of the unit in the last place of the binary64 values
    around [n / d]: 53 bits of precision, and no exponent under -1074
    (the subnormal values). *)
Definition ulp_exponent (n d : positive) : Z := Z.max (floor_log2 n d - 52) (-1074).

Definition round_pos (n d : positive) : Q :=
  let e := ulp_exponent n d in
  Qred (inject_Z (nearest_even ((Zpos n # d) / 2 ^ e)) * 2 ^ e).

(** The binary64 value nearest to [x], ties to even.  A result of
    magnitude 2^1024 or more stands for an infinity, which is outside
    the model. *)
Definition round (x : Q) : Q :=
  match Qnum x with
  | Z0 => 0
  | Zpos n => round_pos n (Qden x)
  | Zneg n => - round_pos n (Qden x)
  end.

(** A decimal literal of the source: [lit (3 # 10)] is the number [0.3]. *)
Definition lit (x : Q) : Q := round x.

(** [a * b], [a + b], [a - b] and [a / b] on binary64 values.  A
    quotient by zero ([NaN] or an infinity) is outside the model. *)
Definition mul (a b : Q) : Q := round (a * b).
Definition add (a b : Q) : Q := round (a + b).
Definition sub (a b : Q) : Q := round (a - b).
Definition div (a b : Q) : Q := round (a / b).

(** The least normal value and half the distance from 1 to the next
    value. *)
Definition min_normal : Q := 2 ^ (-1022).
Definition epsilon : Q := 2 ^ (-53).

End Num.

(** The same operations in the standard library's specification of
    IEEE 754 ([SpecFloat], at 53 bits of precision and a maximal
    exponent of 1024), for cross-checking [Num] on binary64 values. *)
Module Binary64Reference.
Local Open Scope Q_scope.

Definition of_Q (x : Q) : SpecFloat.spec_float :=
  let y := Qred x in
  SpecFloat.binary_normalize 53 1024 (Qnum y) (- Z.log2 (Zpos (Qden y))) false.

Definition to_Q (f : SpecFloat.spec_float) : Q :=
  match f with
  | SpecFloat.S754_finite s m e =>
      Qred ((if s then - inject_Z (Zpos m) else inject_Z (Zpos m)) * 2 ^ e)
  | _ => 0
  end.

Definition agree (a b : Q) : bool :=
  Qeq_bool (Num.mul a b) (to_Q (SpecFloat.SFmul 53 1024 (of_Q a) (of_Q b)))
  && Qeq_bool (Num.add a b) (to_Q (SpecFloat.SFadd 53 1024 (of_Q a) (of_Q b)))
  && Qeq_bool (Num.sub a b) (to_Q (SpecFloat.SFsub 53 1024 (of_Q a) (of_Q b)))
  && Qeq_bool (Num.div a b) (to_Q (SpecFloat.SFdiv 53 1024 (of_Q a) (of_Q b))).

(** Pairs of binary64 values: decimals, integers beyond 2^53, subnormal
    and very large values. *)
Definition samples : list (Q * Q) :=
  [(3, Num.lit (3 # 10)); (Num.lit (3 # 10), 51); (Num.lit (355 # 10), Num.lit (2 # 10));
   (Num.lit (1 # 10), Num.lit (2 # 10)); (1, 3); (- Num.lit (201 # 10), Num.lit (502 # 10));
   (Num.lit (15299999999999999 # 1000000000000000), 5 # 2);
   (2 ^ (-1074), 3); (2 ^ (-1060) * 5, 2 ^ (-20) * 7); (2 ^ 1000 * 3, 2 ^ 20 * 5);
   (9007199254740994, 3); (Num.lit (1 # 3), Num.lit (2 # 3)); (2 ^ 53, 3);
   (Num.lit (123456789 # 1000), Num.lit (-987654321 # 100000));
   (2 ^ (-1022), 2 ^ (-1)); (2 ^ (-1022) * 3, 2 ^ (-3) * 5)].

End Binary64Reference.

(** ** core/conversation/state-machine.ts *)

Module StateMachine.

Inductive ConversationState :=
| IDLE | AWAITING_CEP | AWAITING_QUANTITY | CALCULATING | COMPLETED | ERROR.

Inductive ConversationEvent :=
| START_FREIGHT_QUERY | CEP_PROVIDED | QUANTITY_PROVIDED
| CALCULATION_SUCCESS | CALCULATION_ERROR | RESET | EV_ERROR.

#[export] Instance ConversationState_eq_dec : EqDecision ConversationState.
Proof. solve_decision. Defined.

#[export] Instance ConversationEvent_eq_dec : EqDecision ConversationEvent.
Proof. solve_decision. Defined.

(** The string value of each enum member, as interpolated in messages. *)
Definition state_name (s : ConversationState) : string :=
  match s with
  | IDLE => "IDLE" | AWAITING_CEP => "AWAITING_CEP"
  | AWAITING_QUANTITY => "AWAITING_QUANTITY" | CALCULATING => "CALCULATING"
  | COMPLETED => "COMPLETED" | ERROR => "ERROR"
  end.

Definition event_name (e : ConversationEvent) : string :=
  match e with
  | START_FREIGHT_QUERY => "START_FREIGHT_QUERY" | CEP_PROVIDED => "CEP_PROVIDED"
  | QUANTITY_PROVIDED => "QUANTITY_PROVIDED"
  | CALCULATION_SUCCESS => "CALCULATION_SUCCESS"
  | CALCULATION_ERROR => "CALCULATION_ERROR" | RESET => "RESET"
  | EV_ERROR => "ERROR"
  end.

(** [interface ConversationContext]; an optional field is an [option]. *)
Record ConversationContext := mkContext {
  phoneNumber : string;
  currentState : ConversationState;
  cep : option string;
  quantity : option Q;
  totalWeight : option Q;
  lastMessage : option string;
  errorCount : option Z;
  metadata : option (list (string * string))
}.

Definition set_currentState (c : ConversationContext) (s : ConversationState) :=
  mkContext (phoneNumber c) s (cep c) (quantity c) (totalWeight c)
            (lastMessage c) (errorCount c) (metadata c).

Definition set_totalWeight (c : ConversationContext) (w : option Q) :=
  mkContext (phoneNumber c) (currentState c) (cep c) (quantity c) w
            (lastMessage c) (errorCount c) (metadata c).

(** [interface StateTransition].  An action receives the context object
    and returns nothing: whatever it does, it does by writing fields of
    that object, so it is a transformer of the object's contents. *)
Record StateTransition := mkTransition {
  from : ConversationState;
  event : ConversationEvent;
  to : ConversationState;
  guard : option (ConversationContext -> bool);
  action : option (ConversationContext -> ConversationContext)
}.

(** [isValidCEP]: absent or empty is invalid; otherwise the digits that
    remain after [replace(/\D/g, '')] must be exactly eight. *)
Definition isValidCEP (c : option string) : bool :=
  match c with
  | None => false
  | Some s =>
      if (String.length s =? 0)%nat then false
      else (String.length (Chars.strip_non_digits s) =? 8)%nat
  end.

(** [isValidQuantity]: [typeof quantity === 'number' && quantity > 0]. *)
Definition isValidQuantity (q : option Q) : bool :=
  match q with
  | None => false
  | Some n => negb (Qle_bool n 0)
  end.

(** [ctx.quantity || 0] *)
Definition quantity_or_zero (q : option Q) : Q :=
  match q with
  | None => 0%Q
  | Some n => if Qeq_bool n 0 then 0%Q else n
  end.

(** The unit weight written in the action ([const unitWeight = 0.3]). *)
Definition unitWeight : Q := Num.lit (3 # 10).

(** The action of the QUANTITY_PROVIDED row:
    [ctx.totalWeight = (ctx.quantity || 0) * unitWeight]. *)
Definition quantity_action (ctx : ConversationContext) : ConversationContext :=
  set_totalWeight ctx (Some (Num.mul (quantity_or_zero (quantity ctx)) unitWeight)).

Definition row (f : ConversationState) (e : ConversationEvent) (t : ConversationState) :=
  mkTransition f e t None None.

(** [defineTransitions], in source order. *)
Definition transitions : list StateTransition :=
  [ row IDLE START_FREIGHT_QUERY AWAITING_CEP;
    mkTransition AWAITING_CEP CEP_PROVIDED AWAITING_QUANTITY
                 (Some (fun ctx => isValidCEP (cep ctx))) None;
    mkTransition AWAITING_QUANTITY QUANTITY_PROVIDED CALCULATING
                 (Some (fun ctx => isValidQuantity (quantity ctx)))
                 (Some quantity_action);
    row CALCULATING CALCULATION_SUCCESS COMPLETED;
    row CALCULATING CALCULATION_ERROR ERROR;
    row AWAITING_CEP RESET IDLE;
    row AWAITING_QUANTITY RESET IDLE;
    row CALCULATING RESET IDLE;
    row COMPLETED RESET IDLE;
    row ERROR RESET IDLE;
    row AWAITING_CEP EV_ERROR ERROR;
    row AWAITING_QUANTITY EV_ERROR ERROR ].

Definition matches (s : ConversationState) (e : ConversationEvent) (t : StateTransition) : bool :=
  bool_decide (from t = s) && bool_decide (event t = e).

(** [this.transitions.find(t => t.from === currentState && t.event === event)] *)
Definition find_transition (s : ConversationState) (e : ConversationEvent) : option StateTransition :=
  List.find (matches s e) transitions.

(** [canTransition]: the pair has an entry in the table. *)
Definition canTransition (s : ConversationState) (e : ConversationEvent) : bool :=
  existsb (matches s e) transitions.

(** Context objects are heap allocated; a [ConversationContext] value in
    the source is a reference into this heap. *)
Abbreviation loc := positive.
Abbreviation heap := (gmap positive ConversationContext).

Definition invalid_transition_message (s : ConversationState) (e : ConversationEvent) : string :=
  "Invalid transition from " ++ state_name s ++ " with event " ++ event_name e.

(** [transition(context, event)].  [r] is the caller's reference.  The
    result is the heap after the call and either the reference of the
    freshly allocated [newContext] or the error thrown.  [None] only for a
    dangling reference, which no caller can hold. *)
Definition transition (h : heap) (r : loc) (ev : ConversationEvent)
  : option (heap * Result loc) :=
  match h !! r with
  | None => None
  | Some context =>
      let cur := currentState context in
      match find_transition cur ev with
      | None =>
          Some (h, Throw (businessError INVALID_STATE_TRANSITION
                                        (invalid_transition_message cur ev)))
      | Some t =>
          let guard_ok :=
            match guard t with Some g => g context | None => true end in
          if negb guard_ok then
            Some (h, Throw (businessError VALIDATION_ERROR
                                          "Transition guard condition not met"))
          else
            (* await transition.action(context): runs on the caller's object *)
            let context1 :=
              match action t with
              | Some a => a context
              | None => context
              end in
            let h1 :=
              match action t with
              | Some _ => <[r := context1]> h
              | None => h
              end in
            (* { ...context, currentState: transition.to }: a new object *)
            let r' := fresh (dom h1) in
            Some (<[r' := set_currentState context1 (to t)]> h1, Ok r')
      end
  end.

End StateMachine.

(** ** config/app.config.ts *)

Module Config.

Inductive Env := development | production | test.

#[export] Instance Env_eq_dec : EqDecision Env.
Proof. solve_decision. Defined.

(** The fields of [appConfig] the modelled code reads.  Their values come
    from the process environment, so they are parameters here. *)
Record AppConfig := mkConfig {
  env : Env;
  session_ttlMs : Z;
  freight_defaultUnitWeight : Q;
  freight_maxOptionsToReturn : Z
}.

(** [Math.ceil(ms / 1000)] on integers. *)
Definition ceil_div_1000 (ms : Z) : Z := (- ((- ms) / 1000))%Z.

End Config.
Import Config.

(** ** infra/redis.client.ts *)

Module Redis.

Section Client.
Context {V : Type}.

(** A key held by the server, with the [EX] seconds it was written with. *)
Record Entry := mkEntry { value : V; ex_seconds : Z }.

(** The client and the server it talks to.
    [connected]: [isConnected && config !== null].
    [answering]: the server accepts and answers the commands sent to
    it; when it does not (network failure, error reply), [execute]
    returns [null] after its retries.
    Modelled from the spec: the server is the Key-Value Backend of the
    external interfaces ([get], [set] with a per-key TTL, [delete]); it
    is not part of the repository.  A key whose TTL has run out is simply
    absent from [store]. *)
Record State := mkState {
  connected : bool;
  answering : bool;
  store : gmap string Entry
}.

Definition isAvailable (r : State) : bool := connected r.

Definition reachable (r : State) : bool := connected r && answering r.

(** [get<T>(key)]: [null] when the command fails or the key is absent. *)
Definition get (r : State) (key : string) : option V :=
  if reachable r then value <$> (store r !! key) else None.

(** [set(key, value, ttlSeconds)]: [ttlSeconds || ceil(ttlMs / 1000)];
    returns [result === 'OK']. *)
Definition set (cfg : AppConfig) (r : State) (key : string) (v : V) (ttlSeconds : Z)
  : State * bool :=
  let ttl := if (ttlSeconds =? 0)%Z then ceil_div_1000 (session_ttlMs cfg) else ttlSeconds in
  if reachable r then
    (mkState (connected r) (answering r) (<[key := mkEntry v ttl]> (store r)), true)
  else (r, false).

(** [delete(key)]: returns [result === 1]. *)
Definition delete (r : State) (key : string) : State * bool :=
  if reachable r then
    match store r !! key with
    | Some _ => (mkState (connected r) (answering r) (base.delete key (store r)), true)
    | None => (r, false)
    end
  else (r, false).

End Client.
Arguments Entry : clear implicits.
Arguments State : clear implicits.

End Redis.

(** ** core/conversation/session-manager.ts (tenant-scoped version) *)

Module SessionManager.
Import StateMachine.

(** [interface SessionData extends ConversationContext]. *)
Record SessionData := mkSession {
  context : ConversationContext;
  tenantId : string;
  createdAt : Z;
  updatedAt : Z;
  expiresAt : Z
}.

(** The manager's stores: the Redis client and the [InMemorySessionStore]
    map, keyed by phone number. *)
Record Stores := mkStores {
  redis : Redis.State SessionData;
  memoryStore : gmap string SessionData
}.

Definition with_redis (s : Stores) (r : Redis.State SessionData) : Stores :=
  mkStores r (memoryStore s).

Definition with_memory (s : Stores) (m : gmap string SessionData) : Stores :=
  mkStores (redis s) m.

(** [getKey]: [session:${tenantId}:${phoneNumber}] *)
Definition getKey (tenant phone : string) : string :=
  "session:" ++ tenant ++ ":" ++ phone.

(** [getOldKey]: [session:${phoneNumber}] *)
Definition getOldKey (phone : string) : string := "session:" ++ phone.

(** [InMemorySessionStore.get]: an expired entry is deleted and reported
    absent. *)
Definition memory_get (now : Z) (phone : string) : M Stores (option SessionData) :=
  fun s =>
    match memoryStore s !! phone with
    | None => (s, Ok None)
    | Some session =>
        if (expiresAt session <? now)%Z
        then (with_memory s (base.delete phone (memoryStore s)), Ok None)
        else (s, Ok (Some session))
    end.

Definition redis_get (key : string) : M Stores (option SessionData) :=
  gets (fun s => Redis.get (redis s) key).

Definition redis_delete (key : string) : M Stores bool :=
  fun s => let '(r, b) := Redis.delete (redis s) key in (with_redis s r, Ok b).

Definition redis_set (cfg : AppConfig) (key : string) (v : SessionData) (ttl : Z)
  : M Stores bool :=
  fun s => let '(r, b) := Redis.set cfg (redis s) key v ttl in (with_redis s r, Ok b).

Definition redis_available : M Stores bool :=
  gets (fun s => Redis.isAvailable (redis s)).

Local Open Scope eff_scope.

(** [getSession(tenantId, phoneNumber)] at time [now]. *)
Definition getSession (cfg : AppConfig) (now : Z) (tenant phone : string)
  : M Stores (option SessionData) :=
  if (String.length tenant =? 0)%nat then
    throw (businessError VALIDATION_ERROR "tenant_id is required to get session")
  else
    try_catch
      (avail <- redis_available ;;
       if avail then
         let newKey := getKey tenant phone in
         session <- redis_get newKey ;;
         match session with
         | Some s => ret (Some s)
         | None =>
             (* Compatibility layer: check old key format *)
             let oldKey := getOldKey phone in
             old <- redis_get oldKey ;;
             match old with
             | Some _ => redis_delete oldKey ;;; ret None
             | None => ret None
             end
         end
       else if bool_decide (env cfg = production) then
         throw (infrastructureError INTERNAL_ERROR
                  "Redis unavailable in production — cannot retrieve session")
       else memory_get now phone)
      (fun error => if isInfrastructureError error then throw error else ret None).

(** [saveSession(tenantId, phoneNumber, session)]. *)
Definition saveSession (cfg : AppConfig) (tenant phone : string) (session : SessionData)
  : M Stores unit :=
  let ttlSeconds := ceil_div_1000 (session_ttlMs cfg) in
  (avail <- redis_available ;;
   (if avail then
      success <- redis_set cfg (getKey tenant phone) session ttlSeconds ;;
      if success then ret tt
      else if bool_decide (env cfg = production) then
        throw (infrastructureError INTERNAL_ERROR
                 "Failed to save session to Redis in production")
      else ret tt
    else if bool_decide (env cfg = production) then
      throw (infrastructureError INTERNAL_ERROR
               "Redis unavailable in production — cannot save session")
    else ret tt) ;;;
   (if bool_decide (env cfg = production) then ret tt
    else modify (fun s => with_memory s (<[phone := session]> (memoryStore s))))).

(** The record [createSession] builds. *)
Definition fresh_session (cfg : AppConfig) (now : Z) (tenant phone : string) : SessionData :=
  mkSession (mkContext phone IDLE None None None None (Some 0%Z) None)
            tenant now now (now + session_ttlMs cfg)%Z.

(** [createSession(tenantId, phoneNumber)] at time [now]. *)
Definition createSession (cfg : AppConfig) (now : Z) (tenant phone : string)
  : M Stores SessionData :=
  if (String.length tenant =? 0)%nat then
    throw (businessError VALIDATION_ERROR "tenant_id is required to create session")
  else
    let session := fresh_session cfg now tenant phone in
    saveSession cfg tenant phone session ;;; ret session.

End SessionManager.

(** ** core/conversation/intent-classifier.ts *)

Module IntentClassifier.
Import Chars.

Inductive UserIntent :=
| FREIGHT_QUERY | PROVIDE_CEP | PROVIDE_QUANTITY | RESET | HELP | CANCEL
| TRACK_ORDER | PAYMENT_STATUS | HUMAN_SUPPORT | UNKNOWN.

Record ExtractedData := mkExtracted {
  ex_cep : option string;
  ex_quantity : option Q
}.

Record IntentResult := mkIntent {
  intent : UserIntent;
  confidence : Q;
  extractedData : option ExtractedData
}.

(** [s] starts with [kw]. *)
Fixpoint starts_with (kw s : list ascii) : bool :=
  match kw, s with
  | [], _ => true
  | _ :: _, [] => false
  | k :: kw', c :: s' => if Ascii.eqb k c then starts_with kw' s' else false
  end.

Fixpoint includes_chars (s kw : list ascii) : bool :=
  starts_with kw s ||
  match s with
  | [] => false
  | _ :: s' => includes_chars s' kw
  end.

(** [message.includes(kw)] *)
Definition includes (message kw : string) : bool :=
  includes_chars (chars message) (chars kw).

(** [keywords.some((kw) => message.includes(kw))] *)
Definition some_keyword (keywords : list string) (message : string) : bool :=
  existsb (includes message) keywords.

Definition freight_keywords : list string :=
  ["frete"; "cotacao"; "cotação"; "envio"; "entrega"; "shipping"; "freight";
   "quanto custa"; "valor do frete"; "calcular frete"].

Definition reset_keywords : list string :=
  ["reiniciar"; "recomecar"; "restart"; "reset"; "voltar"; "comecar de novo"].

Definition cancel_keywords : list string :=
  ["cancelar"; "cancel"; "sair"; "parar"; "stop"].

Definition help_keywords : list string :=
  ["ajuda"; "help"; "socorro"; "como funciona"; "nao entendi"; "não entendi"].

Definition tracking_keywords : list string :=
  ["rastrear"; "rastreio"; "tracking"; "onde esta"; "onde está"; "status do pedido"].

Definition payment_keywords : list string :=
  ["pagamento"; "payment"; "boleto"; "pix"; "pagar"; "segunda via"].

Definition human_keywords : list string :=
  ["atendente"; "humano"; "pessoa"; "falar com alguem"; "falar com alguém";
   "human"; "agent"].

Definition isFreightQuery := some_keyword freight_keywords.
Definition isResetIntent := some_keyword reset_keywords.
Definition isCancelIntent := some_keyword cancel_keywords.
Definition isHelpIntent := some_keyword help_keywords.
Definition isTrackingQuery := some_keyword tracking_keywords.
Definition isPaymentQuery := some_keyword payment_keywords.
Definition isHumanSupportRequest := some_keyword human_keywords.

Definition is_word_opt (c : option ascii) : bool :=
  match c with Some a => is_word a | None => false end.

(** [\b] between the character before and the character after a
    position (none at either end of the text). *)
Definition word_boundary (prev next : option ascii) : bool :=
  xorb (is_word_opt prev) (is_word_opt next).

(** Exactly [n] digits at the head of [l]: the digits and what follows. *)
Fixpoint take_digits (n : nat) (l : list ascii) : option (list ascii * list ascii) :=
  match n with
  | O => Some ([], l)
  | S n' =>
      match l with
      | c :: r =>
          if is_digit c then
            match take_digits n' r with
            | Some (ds, rest) => Some (c :: ds, rest)
            | None => None
            end
          else None
      | [] => None
      end
  end.

(** [-?]: the hyphen is taken when present.  Giving it back cannot help,
    because a digit must follow at the same place. *)
Definition skip_hyphen (l : list ascii) : list ascii :=
  match l with
  | c :: r => if Ascii.eqb c "-"%char then r else l
  | [] => []
  end.

(** [/\b(\d{5})-?(\d{3})\b/] tried at one position; [prev] is the
    character before it.  Returns [match[1] + match[2]]. *)
Definition match_cep_at (prev : option ascii) (l : list ascii) : option (list ascii) :=
  if word_boundary prev (head l) then
    match take_digits 5 l with
    | Some (d5, r1) =>
        match take_digits 3 (skip_hyphen r1) with
        | Some (d3, r3) =>
            if word_boundary (last d3) (head r3)
            then Some (d5 ++ d3) else None
        | None => None
        end
    | None => None
    end
  else None.

(** The leftmost position where the pattern matches. *)
Fixpoint scan_cep (prev : option ascii) (l : list ascii) : option (list ascii) :=
  match match_cep_at prev l with
  | Some d => Some d
  | None =>
      match l with
      | [] => None
      | c :: r => scan_cep (Some c) r
      end
  end.

(** [extractCEP(message)] *)
Definition extractCEP (message : string) : option string :=
  of_chars <$> scan_cep None (chars message).

(** Up to [n] digits at the head of [l], as many as there are. *)
Fixpoint span_digits (n : nat) (l : list ascii) : list ascii * list ascii :=
  match n with
  | O => ([], l)
  | S n' =>
      match l with
      | c :: r =>
          if is_digit c then let '(ds, rest) := span_digits n' r in (c :: ds, rest)
          else ([], l)
      | [] => ([], [])
      end
  end.

(** [/\b(\d{1,4})\b/] tried at one position.  [\d{1,4}] is greedy; a
    shorter run is always followed by a digit, where [\b] fails, so only
    the longest run can match. *)
Definition match_quantity_at (prev : option ascii) (l : list ascii) : option (list ascii) :=
  if word_boundary prev (head l) then
    match span_digits 4 l with
    | ([], _) => None
    | (ds, rest) =>
        if word_boundary (last ds) (head rest) then Some ds else None
    end
  else None.

Fixpoint scan_quantity (prev : option ascii) (l : list ascii) : option (list ascii) :=
  match match_quantity_at prev l with
  | Some d => Some d
  | None =>
      match l with
      | [] => None
      | c :: r => scan_quantity (Some c) r
      end
  end.

(** [parseInt(digits, 10)] on a string of digits. *)
Definition parse_digits (ds : list ascii) : Z :=
  fold_left (fun acc c => (acc * 10 + (Z.of_nat (nat_of_ascii c) - 48))%Z) ds 0%Z.

(** [extractQuantity(message)] *)
Definition extractQuantity (message : string) : option Q :=
  match scan_quantity None (chars message) with
  | Some ds =>
      let quantity := parse_digits ds in
      if (0 <? quantity)%Z && (quantity <? 10000)%Z then Some (inject_Z quantity) else None
  | None => None
  end.

(** [toLowerCase] and [trim] on the ASCII range. *)
Definition lower (c : ascii) : ascii :=
  let n := nat_of_ascii c in
  if (65 <=? n)%nat && (n <=? 90)%nat then ascii_of_nat (n + 32) else c.

Definition is_space (c : ascii) : bool :=
  let n := nat_of_ascii c in ((9 <=? n)%nat && (n <=? 13)%nat) || (n =? 32)%nat.

Fixpoint trim_start (l : list ascii) : list ascii :=
  match l with
  | c :: r => if is_space c then trim_start r else l
  | [] => []
  end.

Definition trim (l : list ascii) : list ascii :=
  rev (trim_start (rev (trim_start l))).

(** [normalize] restricted to ASCII messages, where [normalize('NFD')]
    and the removal of combining marks change nothing. *)
Definition normalize_ascii (message : string) : string :=
  of_chars (trim (map lower (chars message))).

Section Classify.

(** [normalize(message)]:
    [toLowerCase().trim().normalize('NFD')] followed by the removal of the
    combining marks U+0300 to U+036F.
    The Unicode tables behind it belong to the runtime, so the classifier
    is stated over any normaliser. *)
Variable normalize : string -> string.

(** [classify(message, currentState?)]; [currentState] is only logged. *)
Definition classify (message : string) : IntentResult :=
  let normalized := normalize message in
  if isResetIntent normalized then mkIntent RESET 1 None
  else if isCancelIntent normalized then mkIntent CANCEL 1 None
  else if isHelpIntent normalized then mkIntent HELP 1 None
  else
    match extractCEP normalized with
    | Some c => mkIntent PROVIDE_CEP 1 (Some (mkExtracted (Some c) None))
    | None =>
        match extractQuantity normalized with
        | Some q => mkIntent PROVIDE_QUANTITY 1 (Some (mkExtracted None (Some q)))
        | None =>
            if isFreightQuery normalized then mkIntent FREIGHT_QUERY (9 # 10) None
            else if isTrackingQuery normalized then mkIntent TRACK_ORDER (8 # 10) None
            else if isPaymentQuery normalized then mkIntent PAYMENT_STATUS (8 # 10) None
            else if isHumanSupportRequest normalized then mkIntent HUMAN_SUPPORT (9 # 10) None
            else mkIntent UNKNOWN 0 None
        end
    end.

End Classify.

End IntentClassifier.

(** ** Arrays: [sort] with a comparator and [slice] *)

Module JsArray.

Section Sort.
Context {A : Type}.

(** The comparator answers a number: negative puts its first argument
    first.  [Array.prototype.sort] is stable, and for a comparator that
    orders the elements consistently every stable sort gives the same
    array; insertion from the right is one. *)
Variable cmp : A -> A -> Q.

Fixpoint insert_by (x : A) (l : list A) : list A :=
  match l with
  | [] => [x]
  | y :: r => if Qle_bool (cmp x y) 0 then x :: l else y :: insert_by x r
  end.

Definition sort_by (l : list A) : list A := fold_right insert_by [] l.

(** The comparator lets [a] stand before [b]. *)
Definition before_eq (a b : A) : Prop := Qle_bool (cmp a b) 0 = true.

End Sort.

(** [l.slice(0, n)]: a negative [n] counts from the end. *)
Definition slice0 {A} (n : Z) (l : list A) : list A :=
  if (n <? 0)%Z then firstn (Z.to_nat (Z.of_nat (length l) + n)) l
  else firstn (Z.to_nat n) l.

End JsArray.

(** ** lib/engine/ranking.ts and types/freight.ts *)

Module Ranking.
Import JsArray.
Local Open Scope Q_scope.

Inductive FreightSource := melhor_envio | tabela | manual.

Record EconomicMetrics := mkMetrics {
  netRevenue : Q;
  profit : Q;
  marginPercent : Q
}.

Record FreightOption := mkOption {
  id : string;
  carrier : string;
  service : string;
  price : Q;
  deliveryDays : Q;
  source : FreightSource;
  economics : option EconomicMetrics
}.

Record EconomicContext := mkEconomic {
  priceWeight : Q;
  timeWeight : Q;
  marginWeight : Q;
  productCost : Q;
  sellingPrice : Q;
  operationalCost : option Q
}.

Record RankingStrategy := mkStrategy {
  s_priceWeight : Q;
  s_timeWeight : Q;
  s_marginWeight : option Q
}.

Definition DEFAULT_STRATEGY : RankingStrategy :=
  mkStrategy (6 # 10) (4 # 10) (Some 0%Q).

(** [{ ...opt, score }] *)
Record ScoredOption := mkScored {
  option_of : FreightOption;
  score : Q
}.

(** A value stored in a field of the returned ranking. *)
Inductive RankingValue :=
| VRanked (l : list ScoredOption)
| VScored (o : ScoredOption)
| VOption (o : FreightOption).

(** The returned object literal: its fields in the order written. *)
Definition FreightRanking := list (string * RankingValue).

Fixpoint get_field (name : string) (r : FreightRanking) : option RankingValue :=
  match r with
  | [] => None
  | (k, v) :: rest => if String.eqb k name then Some v else get_field name rest
  end.

Definition field_names (r : FreightRanking) : list string := map fst r.

Definition set_economics (o : FreightOption) (e : EconomicMetrics) : FreightOption :=
  mkOption (id o) (carrier o) (service o) (price o) (deliveryDays o) (source o) (Some e).

(** [x || d] on a number. *)
Definition or_default (x d : Q) : Q := if Qeq_bool x 0 then d else x.

(** The body of the [map] of step 0. *)
Definition with_economics (context : EconomicContext) (opt : FreightOption) : FreightOption :=
  let operationalCost := match operationalCost context with
                         | Some c => or_default c 0
                         | None => 0
                         end in
  let netRevenue := Num.sub (sellingPrice context) (price opt) in
  let profit := Num.sub (Num.sub netRevenue (productCost context)) operationalCost in
  let marginPercent :=
    if negb (Qle_bool (sellingPrice context) 0)
    then Num.mul (Num.div profit (sellingPrice context)) 100
    else 0 in
  set_economics opt (mkMetrics netRevenue profit marginPercent).

(** [opt.economics?.marginPercent || 0] *)
Definition margin_or_zero (o : FreightOption) : Q :=
  match economics o with
  | Some e => or_default (marginPercent e) 0
  | None => 0
  end.

Definition by_price (a b : FreightOption) : Q := price a - price b.
Definition by_time (a b : FreightOption) : Q := deliveryDays a - deliveryDays b.
Definition by_margin_desc (a b : FreightOption) : Q := margin_or_zero b - margin_or_zero a.
Definition by_score (a b : ScoredOption) : Q := score a - score b.

(** [strategy.marginWeight] when it is truthy. *)
Definition truthy_weight (w : option Q) : option Q :=
  match w with
  | Some m => if Qeq_bool m 0 then None else Some m
  | None => None
  end.

(** The body of the [map] of step 2.  A quotient by zero, which the
    runtime answers with an infinity or [NaN], is outside the model.
    The quotients, products and sums of the score are exact here, where
    the runtime rounds each of them: rounding is monotone, so it can
    merge two scores that are close, never swap them. *)
Definition score_option (strategy : RankingStrategy) (context : option EconomicContext)
           (minPrice minTime maxMargin : Q) (opt : FreightOption) : ScoredOption :=
  let priceScore := (price opt / minPrice) * s_priceWeight strategy in
  let timeScore := (deliveryDays opt / minTime) * s_timeWeight strategy in
  let marginScore :=
    match context, truthy_weight (s_marginWeight strategy), economics opt with
    | Some _, Some w, Some e =>
        let relativeMargin := marginPercent e / maxMargin in
        (1 - relativeMargin) * w
    | _, _, _ => 0
    end in
  mkScored opt (priceScore + timeScore + marginScore).

(** Step 0: [workingOptions], the options with their economics when a
    context is given. *)
Definition working_options (options : list FreightOption) (context : option EconomicContext)
  : list FreightOption :=
  match context with
  | Some c => map (with_economics c) options
  | None => options
  end.

(** [calculateRanking(options, strategy, context?)] *)
Definition calculateRanking (options : list FreightOption) (strategy : RankingStrategy)
           (context : option EconomicContext) : FreightRanking :=
  match options with
  | [] => [("options", VRanked [])]
  | _ :: _ =>
      let workingOptions := working_options options context in
      let sortedByPrice := sort_by by_price workingOptions in
      let sortedByTime := sort_by by_time workingOptions in
      match sortedByPrice, sortedByTime with
      | cheapest :: _, fastest :: _ =>
          let bestMarginOption :=
            match context with
            | Some _ => head (sort_by by_margin_desc workingOptions)
            | None => None
            end in
          let minPrice := price cheapest in
          let minTime := deliveryDays fastest in
          let maxMargin :=
            match bestMarginOption with
            | Some b => match economics b with
                        | Some e => or_default (marginPercent e) 1
                        | None => 1
                        end
            | None => 1
            end in
          let scoredOptions :=
            map (score_option strategy context minPrice minTime maxMargin) workingOptions in
          let ranked := sort_by by_score scoredOptions in
          match ranked with
          | bestOption :: _ =>
              [("options", VRanked ranked);
               ("bestOption", VScored bestOption);
               ("cheapestOption", VOption cheapest);
               ("fastestOption", VOption fastest);
               ("bestCostBenefit", VScored bestOption)]
          | [] => [("options", VRanked ranked)]
          end
      (* not reached: sorting a non-empty array leaves it non-empty *)
      | _, _ => [("options", VRanked [])]
      end
  end.

(** Typed readers of the result's fields. *)
Definition cheapestOption (r : FreightRanking) : option FreightOption :=
  match get_field "cheapestOption" r with Some (VOption o) => Some o | _ => None end.

Definition fastestOption (r : FreightRanking) : option FreightOption :=
  match get_field "fastestOption" r with Some (VOption o) => Some o | _ => None end.

Definition bestOption (r : FreightRanking) : option ScoredOption :=
  match get_field "bestOption" r with Some (VScored o) => Some o | _ => None end.

Definition ranked_options (r : FreightRanking) : list ScoredOption :=
  match get_field "options" r with Some (VRanked l) => l | _ => [] end.

End Ranking.

(** ** modules/freight/freight.types.ts and freight.service.ts *)

Module Freight.
Import JsArray.
Local Open Scope Q_scope.

Inductive Source := melhorenvio | tabela.

Record FreightOption := mkOption {
  id : string;
  carrier : string;
  service : string;
  price : Q;
  deliveryTime : Q;
  source : Source
}.

Record Dimensions := mkDimensions { width : Q; height : Q; length : Q }.

Record FreightRequest := mkRequest {
  destinationCep : string;
  quantity : Q;
  unitWeight : option Q;
  dimensions : option Dimensions
}.

Record FreightResult := mkResult {
  success : bool;
  options : list FreightOption;
  totalWeight : Q;
  request : FreightRequest;
  calculatedAt : Z
}.

Inductive FreightStrategy := MELHORENVIO_ONLY | BOTH | TABELA_ONLY.

Record WeightDecision := mkDecision {
  wd_totalWeight : Q;
  strategy : FreightStrategy;
  reason : string
}.

(** The request the Melhor Envio provider receives. *)
Record ShippingQuoteRequest := mkQuoteRequest {
  sq_destinationCep : string;
  sq_totalWeight : Q;
  sq_quantity : Q;
  sq_dimensions : option Dimensions
}.

(** A row handed to [simulationRepository.saveSimulation]; the numbers
    the source renders with [toString()] are kept as numbers. *)
Record SimulationRow := mkRow {
  row_id : string;
  row_cep : string;
  row_weight : Q;
  row_quantity : Q;
  row_bestCarrier : string;
  row_bestService : string;
  row_bestPrice : Q;
  row_bestMargin : Q;
  row_strategy : FreightStrategy
}.

(** What a call of the service can read and write: the quote cache behind
    the Redis client, the simulations table, whether the database accepts
    the insert, the clock and the next [randomUUID()]. *)
Record World := mkWorld {
  cache : Redis.State FreightResult;
  simulations : list SimulationRow;
  database_up : bool;
  now : Z;
  next_uuid : string
}.

Definition with_cache (w : World) (c : Redis.State FreightResult) : World :=
  mkWorld c (simulations w) (database_up w) (now w) (next_uuid w).

Definition with_simulations (w : World) (l : list SimulationRow) : World :=
  mkWorld (cache w) l (database_up w) (now w) (next_uuid w).

(** [TabelaProvider.calculateShipping(totalWeight)] *)
Definition tabela_calculateShipping (totalWeight : Q) : list FreightOption :=
  if Qle_bool totalWeight 30 then
    [mkOption "tabela-1" "Transportadora Local" "Rodoviário"
              (Num.add 45 (Num.mul totalWeight (Num.lit (25 # 10)))) 5 tabela]
  else [].

(** [validateRequest]: [/^\d{8}$/] on the destination, then the bounds
    of the quantity. *)
Definition validateRequest {S} (req : FreightRequest) : M S unit :=
  if negb (Chars.is_cep8 (destinationCep req)) then
    throw (businessError INVALID_CEP "Invalid CEP format")
  else if Qle_bool (quantity req) 0 || negb (Qle_bool (quantity req) 9999) then
    throw (businessError INVALID_QUANTITY "Invalid quantity")
  else ret tt.

(** [decideStrategy(totalWeight)] *)
Definition decideStrategy (totalWeight : Q) : WeightDecision :=
  if Qle_bool totalWeight 10 then
    mkDecision totalWeight MELHORENVIO_ONLY "Weight ≤10kg: Using Melhor Envio only"
  else if negb (Qle_bool totalWeight 10) && Qle_bool totalWeight 15 then
    mkDecision totalWeight BOTH "Weight 10-15kg: Using both Melhor Envio and Tabela"
  else
    mkDecision totalWeight TABELA_ONLY "Weight >15kg: Using Tabela only".

(** The two conditions of [fetchQuotes] on the strategy. *)
Definition queries_melhorenvio (s : FreightStrategy) : bool :=
  match s with MELHORENVIO_ONLY | BOTH => true | TABELA_ONLY => false end.

Definition queries_tabela (s : FreightStrategy) : bool :=
  match s with TABELA_ONLY | BOTH => true | MELHORENVIO_ONLY => false end.

(** The comparator of [sortAndLimitOptions]. *)
Definition by_price_then_time (a b : FreightOption) : Q :=
  if negb (Qeq_bool (price a) (price b)) then price a - price b
  else deliveryTime a - deliveryTime b.

(** [request.unitWeight || appConfig.freight.defaultUnitWeight] *)
Definition effective_unitWeight (cfg : AppConfig) (req : FreightRequest) : Q :=
  match unitWeight req with
  | Some u => if Qeq_bool u 0 then freight_defaultUnitWeight cfg else u
  | None => freight_defaultUnitWeight cfg
  end.

Definition total_weight (cfg : AppConfig) (req : FreightRequest) : Q :=
  Num.mul (effective_unitWeight cfg req) (quantity req).

Section Service.

Variable cfg : AppConfig.

(** [melhorEnvioProvider.calculateShipping]: the quotes the remote API
    answers with, or the error the provider throws after its retries. *)
Variable melhorEnvio : ShippingQuoteRequest -> Result (list FreightOption).

(** The decimal text of a number in a template string; it belongs to
    the runtime. *)
Variable numberToString : Q -> string.

Local Open Scope eff_scope.

(** [v1:freight:${destinationCep}:${totalWeight}:${quantity}] *)
Definition cache_key (req : FreightRequest) (totalWeight : Q) : string :=
  ("v1:freight:" ++ destinationCep req ++ ":" ++ numberToString totalWeight
     ++ ":" ++ numberToString (quantity req))%string.

(** [sortAndLimitOptions]: [sort] reorders the array it is given and
    [slice] copies the head of it. *)
Definition sortAndLimitOptions (options : list FreightOption) : list FreightOption :=
  slice0 (freight_maxOptionsToReturn cfg) (sort_by by_price_then_time options).

(** [fetchQuotes(request, totalWeight, strategy)] *)
Definition fetchQuotes (req : FreightRequest) (totalWeight : Q) (s : FreightStrategy)
  : M World (list FreightOption) :=
  try_catch
    (meQuotes <-
       (if queries_melhorenvio s then
          match melhorEnvio (mkQuoteRequest (destinationCep req) totalWeight
                                            (quantity req) (dimensions req)) with
          | Ok qs => ret qs
          | Throw e => throw e
          end
        else ret []) ;;
     let tabelaQuotes :=
       if queries_tabela s then tabela_calculateShipping totalWeight else [] in
     let options := (meQuotes ++ tabelaQuotes)%list in
     match options with
     | [] => throw (businessError NO_FREIGHT_OPTIONS
                      "No freight options available for this destination")
     | _ :: _ => ret options
     end)
    (fun error =>
       if isBusinessError error then throw error
       else throw (businessError FREIGHT_CALCULATION_ERROR "Failed to fetch freight quotes")).

(** [getCachedResult(request)] *)
Definition getCachedResult (req : FreightRequest) : M World (option FreightResult) :=
  gets (fun w => Redis.get (cache w) (cache_key req (total_weight cfg req))).

(** [cacheResult(request, totalWeight, options)]: ten minutes of TTL; the
    answer of [set] is not looked at. *)
Definition cacheResult (req : FreightRequest) (totalWeight : Q) (options : list FreightOption)
  : M World unit :=
  fun w =>
    let result := mkResult true (sortAndLimitOptions options) totalWeight req (now w) in
    let '(c, _) := Redis.set cfg (cache w) (cache_key req totalWeight) result 600 in
    (with_cache w c, Ok tt).

(** [simulationRepository.saveSimulation(record)]: the insert, or the
    error of a database that cannot be reached. *)
Definition saveSimulation (r : SimulationRow) : M World unit :=
  fun w =>
    if database_up w then (with_simulations w (simulations w ++ [r])%list, Ok tt)
    else (w, Throw (infrastructureError INTERNAL_ERROR "Database connection verification failed")).

(** [persistSimulation(data)] *)
Definition persistSimulation (r : SimulationRow) : M World unit :=
  try_catch (saveSimulation r)
    (fun _ => throw (businessError FREIGHT_CALCULATION_ERROR
                       "Failed to persist simulation result")).

(** [calculateFreight(request)] *)
Definition calculateFreight (req : FreightRequest) : M World FreightResult :=
  try_catch
    (validateRequest req ;;;
     cached <- getCachedResult req ;;
     match cached with
     | Some c => ret c
     | None =>
         let totalWeight := total_weight cfg req in
         let decision := decideStrategy totalWeight in
         options <- fetchQuotes req totalWeight (strategy decision) ;;
         (* the first sort leaves [options] itself sorted *)
         let options_sorted := sort_by by_price_then_time options in
         let sortedOptions := sortAndLimitOptions options in
         match sortedOptions with
         | [] =>
             (* bestOption is undefined: reading its price is a TypeError *)
             throw (mkError NativeError UNKNOWN_ERROR "TypeError" false)
         | bestOption :: _ =>
             let bestMargin := Num.mul (price bestOption) (Num.lit (2 # 10)) in
             uuid <- gets next_uuid ;;
             persistSimulation
               (mkRow uuid (destinationCep req) totalWeight (quantity req)
                      (carrier bestOption) (service bestOption) (price bestOption)
                      bestMargin (strategy decision)) ;;;
             cacheResult req totalWeight options_sorted ;;;
             calculatedAt <- gets now ;;
             ret (mkResult true sortedOptions totalWeight req calculatedAt)
         end
     end)
    (fun error =>
       if isBusinessError error then throw error
       else throw (businessError FREIGHT_CALCULATION_ERROR "Failed to calculate freight")).

End Service.

End Freight.

(** ** Vocabulary of the statements *)

Module Spec.
Import StateMachine.

(** The pair [(s, e)] has an entry in the transition table. *)
Definition in_table (s : ConversationState) (e : ConversationEvent) : Prop :=
  exists t, In t transitions /\ from t = s /\ event t = e.

(** The quantity guard as the specification words it: a positive integer
    within the upper bound 9999. *)
Definition spec_valid_quantity (q : option Q) : Prop :=
  exists n : Z, q = Some (inject_Z n) /\ (1 <= n <= 9999)%Z.

(** A context as the tests build them. *)
Definition sample_context (s : ConversationState) (q : option Q) : ConversationContext :=
  mkContext "5511999999999" s (Some "01001000") q None None None None.

(** The pattern [\d{5}-?\d{3}] read at the head of [l]: five digits, an
    optional hyphen, three digits, and what follows them. *)
Definition cep_shape (l d5 hy d3 post : list ascii) : Prop :=
  l = (d5 ++ hy ++ d3 ++ post)%list
  /\ List.length d5 = 5%nat /\ forallb Chars.is_digit d5 = true
  /\ (hy = [] \/ hy = ["-"%char])
  /\ List.length d3 = 3%nat /\ forallb Chars.is_digit d3 = true.

(** The pattern occurs somewhere in the text, as the specification words
    it: no condition on what surrounds the digits. *)
Definition cep_pattern_occurs (text : string) : Prop :=
  exists pre d5 hy d3 post rest,
    Chars.chars text = (pre ++ rest)%list /\ cep_shape rest d5 hy d3 post.

(** The pattern occurs after the prefix [pre] with no word character
    (letter, digit, underscore) right before or right after it; [code]
    is its eight digits. *)
Definition cep_delimited_at (text : string) (pre : list ascii) (code : string) : Prop :=
  exists d5 hy d3 post rest,
    Chars.chars text = (pre ++ rest)%list /\ cep_shape rest d5 hy d3 post
    /\ IntentClassifier.is_word_opt (last pre) = false
    /\ IntentClassifier.is_word_opt (head post) = false
    /\ code = Chars.of_chars (d5 ++ d3).

(** [code] is the leftmost delimited occurrence. *)
Definition leftmost_cep (text : string) (code : string) : Prop :=
  exists pre,
    cep_delimited_at text pre code
    /\ forall pre' code',
         cep_delimited_at text pre' code' -> (List.length pre <= List.length pre')%nat.

(** The character before the position reached after the prefix [pre]. *)
Definition before (prev : option ascii) (pre : list ascii) : option ascii :=
  match last pre with Some c => Some c | None => prev end.

(** A store that holds one session, written before tenants existed,
    under the legacy key of a phone number. *)
Definition legacy_session (phone : string) : SessionManager.SessionData :=
  SessionManager.mkSession
    (mkContext phone AWAITING_QUANTITY (Some "01001000") None None None (Some 0%Z) None)
    "" 1000 2000 21601000.

Definition legacy_stores (connected answering : bool) (phone : string)
  : SessionManager.Stores :=
  SessionManager.mkStores
    (Redis.mkState connected answering
       {[SessionManager.getOldKey phone := Redis.mkEntry (legacy_session phone) 21600%Z]})
    ∅.

Definition dev_config : AppConfig := mkConfig development 21600000 (Num.lit (3 # 10)) 3.

(** The candidates of the ranking scenario, and an economic context. *)
Definition sample_candidates : list Ranking.FreightOption :=
  [Ranking.mkOption "a" "Carrier A" "Economy" 20 10 Ranking.melhor_envio None;
   Ranking.mkOption "b" "Carrier B" "Express" 40 3 Ranking.melhor_envio None;
   Ranking.mkOption "c" "Carrier C" "Standard" 25 8 Ranking.tabela None].

Definition sample_economics : Ranking.EconomicContext :=
  Ranking.mkEconomic (6 # 10) (4 # 10) 0 50 100 (Some 5%Q).

(** Ascending price, ties by ascending delivery time. *)
Definition price_then_time (a b : Freight.FreightOption) : Prop :=
  (Freight.price a < Freight.price b)%Q
  \/ ((Freight.price a == Freight.price b)%Q
      /\ (Freight.deliveryTime a <= Freight.deliveryTime b)%Q).

(** What the Melhor Envio provider answers when the strategy queries
    it, and nothing when it does not. *)
Definition melhorenvio_answer
           (melhorEnvio : Freight.ShippingQuoteRequest -> Result (list Freight.FreightOption))
           (req : Freight.FreightRequest) (totalWeight : Q) (s : Freight.FreightStrategy)
  : Result (list Freight.FreightOption) :=
  if Freight.queries_melhorenvio s then
    melhorEnvio (Freight.mkQuoteRequest (Freight.destinationCep req) totalWeight
                                        (Freight.quantity req) (Freight.dimensions req))
  else Ok [].

(** What the table provider answers when the strategy queries it. *)
Definition tabela_answer (totalWeight : Q) (s : Freight.FreightStrategy)
  : list Freight.FreightOption :=
  if Freight.queries_tabela s then Freight.tabela_calculateShipping totalWeight else [].

(** A freight option seen as a candidate of the ranking engine. *)
Definition as_candidate (o : Freight.FreightOption) : Ranking.FreightOption :=
  Ranking.mkOption (Freight.id o) (Freight.carrier o) (Freight.service o)
                   (Freight.price o) (Freight.deliveryTime o)
                   (match Freight.source o with
                    | Freight.melhorenvio => Ranking.melhor_envio
                    | Freight.tabela => Ranking.tabela
                    end) None.

(** The ids of the first [n] candidates in the order of the ranking
    engine's weighted score. *)
Definition top_by_score (n : nat) (candidates : list Freight.FreightOption) : list string :=
  map (fun o => Ranking.id (Ranking.option_of o))
      (firstn n (Ranking.ranked_options
                   (Ranking.calculateRanking (map as_candidate candidates)
                                             Ranking.DEFAULT_STRATEGY None))).

(** Four quotes of the remote provider: the dearest is the fastest. *)
Definition sample_quotes : list Freight.FreightOption :=
  [Freight.mkOption "q-c" "Carrier C" "Standard" 22 8 Freight.melhorenvio;
   Freight.mkOption "q-d" "Carrier D" "Express" 40 1 Freight.melhorenvio;
   Freight.mkOption "q-a" "Carrier A" "Economy" 20 10 Freight.melhorenvio;
   Freight.mkOption "q-b" "Carrier B" "Economy" 21 9 Freight.melhorenvio].

Definition sample_provider (quotes : list Freight.FreightOption)
  : Freight.ShippingQuoteRequest -> Result (list Freight.FreightOption) :=
  fun _ => Ok quotes.

(** A stand-in for the runtime's rendering of a number. *)
Definition sample_numberToString (q : Q) : string :=
  pretty (Qnum (Qred q)) ++ "/" ++ pretty (Zpos (Qden (Qred q))).

(** A world with an empty, reachable cache and a database that is up. *)
Definition sample_world : Freight.World :=
  Freight.mkWorld (Redis.mkState true true ∅) [] true 1700000000000 "uuid-1".

Definition sample_world_database_down : Freight.World :=
  Freight.mkWorld (Redis.mkState true true ∅) [] false 1700000000000 "uuid-1".

Definition sample_request (quantity : Q) : Freight.FreightRequest :=
  Freight.mkRequest "01001000" quantity None None.

End Spec.

(** ** core/conversation/state-machine.ts: the remaining queries *)

Module StateMachineQueries.
Import StateMachine.

(** [getPossibleEvents(state)] *)
Definition getPossibleEvents (s : ConversationState) : list ConversationEvent :=
  map event (List.filter (fun t => bool_decide (from t = s)) transitions).

End StateMachineQueries.

(** ** core/conversation/session-manager.ts: the remaining operations *)

Module SessionOperations.
Import StateMachine SessionManager.
Local Open Scope eff_scope.

(** [Partial<ConversationContext>]: a key may be absent ([None]); a key
    of an optional field may be present and hold [undefined]
    ([Some None]). *)
Record ContextUpdates := mkUpdates {
  u_phoneNumber : option string;
  u_currentState : option ConversationState;
  u_cep : option (option string);
  u_quantity : option (option Q);
  u_totalWeight : option (option Q);
  u_lastMessage : option (option string);
  u_errorCount : option (option Z);
  u_metadata : option (option (list (string * string)))
}.

Definition no_updates : ContextUpdates :=
  mkUpdates None None None None None None None None.




(** [deleteSession(tenantId, phoneNumber)] *)
Definition deleteSession (tenant phone : string) : M Stores unit :=
  if (String.length tenant =? 0)%nat then
    throw (businessError VALIDATION_ERROR "tenant_id is required to delete session")
  else
    avail <- redis_available ;;
    (if avail then redis_delete (getKey tenant phone) ;;; ret tt else ret tt) ;;;
    modify (fun s => with_memory s (base.delete phone (memoryStore s))).

(** [sessionExists(tenantId, phoneNumber)] *)
Definition sessionExists (cfg : AppConfig) (now : Z) (tenant phone : string) : M Stores bool :=
  session <- getSession cfg now tenant phone ;;
  ret (match session with Some _ => true | None => false end).

Definition set_expiresAt (s : SessionData) (t : Z) : SessionData :=
  mkSession (context s) (tenantId s) (createdAt s) (updatedAt s) t.

(** [extendSession(tenantId, phoneNumber)]; [now_extend] is the clock
    read for the new expiry. *)
Definition extendSession (cfg : AppConfig) (now_get now_extend : Z) (tenant phone : string)
  : M Stores unit :=
  found <- getSession cfg now_get tenant phone ;;
  match found with
  | None =>
      throw (businessError SESSION_NOT_FOUND "Cannot extend session: session not found")
  | Some session =>
      saveSession cfg tenant phone
                  (set_expiresAt session (now_extend + session_ttlMs cfg)%Z)
  end.

(** [InMemorySessionStore.cleanup()] at time [now]: every entry with
    [now > expiresAt] is deleted. *)
Definition cleanup (now : Z) : M Stores unit :=
  modify (fun s => with_memory s
            (filter (fun kv : string * SessionData => (now <= expiresAt kv.2)%Z)
                    (memoryStore s))).

End SessionOperations.

(** ** providers/melhorenvio.provider.ts and config/melhorenvio.config.ts *)

Module MelhorEnvioProvider.
Import Freight.
Local Open Scope eff_scope.

Record MelhorEnvioConfig := mkMEConfig {
  timeout : Z;
  maxRetries : Z;
  retryDelay : Z
}.

(** An item of the API's answer. *)
Record MelhorEnvioAPIResponse := mkItem {
  item_id : string;
  item_name : string;
  item_price : Q;
  item_delivery_time : Q;
  item_error : option bool;
  item_error_message : option string
}.

(** The body built by [buildPayload]. *)
Record Payload := mkPayload {
  from_postal_code : string;
  to_postal_code : string;
  product_width : Q;
  product_height : Q;
  product_length : Q;
  product_weight : Q;
  product_quantity : Q
}.

(** What one [fetch] comes to: a response with its status and, when the
    body is read as JSON, the value parsed ([None] when it does not
    parse); the abort of [AbortSignal.timeout]; or any other failure of
    the network. *)
Inductive FetchOutcome (T : Type) :=
| Responded (status : Z) (json : option T)
| TimedOut
| NetworkFailure.
Arguments Responded {T} status json.
Arguments TimedOut {T}.
Arguments NetworkFailure {T}.

(** What the process does to the outside, in order. *)
Inductive IoEvent :=
| Fetched (attempt : nat)
| Slept (ms : Z).

Definition log (e : IoEvent) : M (list IoEvent) unit :=
  modify (fun l => (l ++ [e])%list).

(** [response.ok] *)
Definition response_ok (status : Z) : bool := (200 <=? status)%Z && (status <=? 299)%Z.

(** [error instanceof ProviderError] *)
Definition isProviderError (e : BaseError) : bool :=
  match err_class e with ProviderError => true | _ => false end.

(** The error thrown for a response that is not ok; only a server error
    is marked retryable. *)
Definition api_error (status : Z) : BaseError :=
  providerError MELHORENVIO_API_ERROR
                ("Melhor Envio API error: " ++ pretty status) (500 <=? status)%Z.

Definition timeout_error : BaseError :=
  providerError MELHORENVIO_TIMEOUT "Melhor Envio API request timed out" true.

(** A value thrown that is no [BaseError]: a failure of [fetch], a body
    that is not JSON, or the [null] of a loop that never ran. *)
Definition native_error (what : string) : BaseError :=
  mkError NativeError UNKNOWN_ERROR what false.

(** [buildPayload(request)]: the origin comes from the application
    configuration; the dimensions default to 11 cm each. *)
Definition buildPayload (originCep : string) (request : ShippingQuoteRequest) : Payload :=
  let d := default (mkDimensions 11 11 11) (sq_dimensions request) in
  mkPayload originCep (sq_destinationCep request)
            (width d) (height d) (Freight.length d) (sq_totalWeight request) 1.

(** [name.split(' - ')[0]]: the text before the first separator. *)
Fixpoint before_separator (sep s : list ascii) : list ascii :=
  if IntentClassifier.starts_with sep s then []
  else match s with
       | [] => []
       | c :: r => c :: before_separator sep r
       end.

(** [item.name.split(' - ')[0] || item.name] *)
Definition carrier_of (name : string) : string :=
  match before_separator (Chars.chars " - ") (Chars.chars name) with
  | [] => name
  | c :: r => Chars.of_chars (c :: r)
  end.

(** [parseResponse(response)] *)
Definition parseResponse (response : list MelhorEnvioAPIResponse) : list FreightOption :=
  map (fun item => mkOption (item_id item) (carrier_of (item_name item)) (item_name item)
                            (item_price item) (item_delivery_time item) melhorenvio)
      (List.filter (fun item => negb (default false (item_error item))) response).

Section Request.
Context {T : Type}.
Variable config : MelhorEnvioConfig.

(** The outcome of the fetch of each attempt. *)
Variable net : nat -> FetchOutcome T.

(** The loop of [makeRequest], entered at [attempt] with [fuel]
    iterations left before [attempt <= maxRetries] fails. *)
Fixpoint request_loop (maxRetries : Z) (fuel attempt : nat) (lastError : option BaseError)
  : M (list IoEvent) T :=
  match fuel with
  | O => throw (default (native_error "null") lastError)
  | S fuel' =>
      (* the catch block, for an error that is not a timeout *)
      let caught (error : BaseError) : M (list IoEvent) T :=
        if (Z.of_nat attempt <? maxRetries)%Z && isProviderError error && err_retryable error
        then
          log (Slept (retryDelay config * 2 ^ Z.of_nat attempt)%Z) ;;;
          request_loop maxRetries fuel' (S attempt) (Some error)
        else throw error in
      log (Fetched attempt) ;;;
      match net attempt with
      | TimedOut => throw timeout_error
      | Responded status json =>
          if response_ok status then
            match json with
            | Some data => ret data
            | None => caught (native_error "SyntaxError")
            end
          else caught (api_error status)
      | NetworkFailure => caught (native_error "fetch failed")
      end
  end.

(** [makeRequest(endpoint, method, body, maxRetries)] *)
Definition makeRequest (maxRetries : Z) : M (list IoEvent) T :=
  request_loop maxRetries (Z.to_nat (maxRetries + 1)) 0 None.

(** [healthCheck()]: one attempt, no retries. *)
Definition healthCheck : M (list IoEvent) bool :=
  try_catch (makeRequest 0 ;;; ret true) (fun _ => ret false).

End Request.

(** [calculateShipping(request)]; the answers of the network may depend
    on the payload sent. *)
Definition calculateShipping (config : MelhorEnvioConfig) (originCep : string)
           (net : Payload -> nat -> FetchOutcome (list MelhorEnvioAPIResponse))
           (request : ShippingQuoteRequest) : M (list IoEvent) (list FreightOption) :=
  let payload := buildPayload originCep request in
  try_catch
    (response <- makeRequest config (net payload) (maxRetries config) ;;
     ret (parseResponse response))
    (fun error =>
       if isProviderError error then throw error
       else throw (providerError MELHORENVIO_API_ERROR "Failed to calculate shipping" true)).

(** The provider as the freight service sees it: the result of a call
    that starts with an empty log. *)
Definition provider (config : MelhorEnvioConfig) (originCep : string)
           (net : Payload -> nat -> FetchOutcome (list MelhorEnvioAPIResponse))
  : ShippingQuoteRequest -> Result (list FreightOption) :=
  fun request => snd (calculateShipping config originCep net request []).

End MelhorEnvioProvider.

(** ** lib/validation.ts: [validateCEP] *)

Module Validation.

Definition quote_char : string := String (ascii_of_nat 34) EmptyString.

(** [validateCEP(cep)]: the digits of the input, when there are eight of
    them and not all are zero. *)
Definition validateCEP (cep : string) : Result string :=
  let cleaned := Chars.strip_non_digits cep in
  if negb (Chars.is_cep8 cleaned) then
    Throw (businessError VALIDATION_ERROR
             ("Invalid CEP format: " ++ quote_char ++ cep ++ quote_char
                ++ ". Expected 8 digits (e.g., 01001000)."))
  else if String.eqb cleaned "00000000" then
    Throw (businessError VALIDATION_ERROR
             "Invalid CEP: 00000000 is not a valid postal code.")
  else Ok cleaned.

End Validation.

(** ** Vocabulary of the further statements *)

Module Vocabulary.
Import SessionManager.

(** The stores are reached: the client is connected and the server
    answers. *)
Definition reached (s : Stores) : Prop :=
  Redis.connected (redis s) = true /\ Redis.answering (redis s) = true.

(** The memory map after [saveSession]: written in every profile but
    production. *)
Definition memory_after_save (cfg : AppConfig) (phone : string) (session : SessionData)
           (mem : gmap string SessionData) : gmap string SessionData :=
  if bool_decide (env cfg = production) then mem else <[phone := session]> mem.

(** The keyword begins with a character that is not a digit. *)
Definition starts_non_digit (kw : string) : bool :=
  match Chars.chars kw with
  | k :: _ => negb (Chars.is_digit k)
  | [] => false
  end.

(** What [classify] answers for a text made of digits only. *)
Definition digits_intent (ds : list ascii) : IntentClassifier.IntentResult :=
  if (List.length ds =? 8)%nat then
    IntentClassifier.mkIntent IntentClassifier.PROVIDE_CEP 1
      (Some (IntentClassifier.mkExtracted (Some (Chars.of_chars ds)) None))
  else if (1 <=? List.length ds)%nat && (List.length ds <=? 4)%nat
          && (0 <? IntentClassifier.parse_digits ds)%Z then
    IntentClassifier.mkIntent IntentClassifier.PROVIDE_QUANTITY 1
      (Some (IntentClassifier.mkExtracted
               None (Some (inject_Z (IntentClassifier.parse_digits ds)))))
  else IntentClassifier.mkIntent IntentClassifier.UNKNOWN 0 None.

(** The error codes the freight service itself throws. *)
Definition freight_error_code (c : ErrorCode) : bool :=
  match c with
  | INVALID_CEP | INVALID_QUANTITY | NO_FREIGHT_OPTIONS | FREIGHT_CALCULATION_ERROR => true
  | _ => false
  end.

(** The only quote of the table provider for a weight. *)
Definition table_quote (totalWeight : Q) : Freight.FreightOption :=
  Freight.mkOption "tabela-1" "Transportadora Local" "Rodoviário"
                   (Num.add 45 (Num.mul totalWeight (Num.lit (25 # 10)))) 5 Freight.tabela.

(** The row persisted for an answer whose first option is [best]. *)
Definition simulation_row (cfg : AppConfig) (w : Freight.World) (req : Freight.FreightRequest)
           (best : Freight.FreightOption) : Freight.SimulationRow :=
  Freight.mkRow (Freight.next_uuid w) (Freight.destinationCep req)
                (Freight.total_weight cfg req) (Freight.quantity req)
                (Freight.carrier best) (Freight.service best) (Freight.price best)
                (Num.mul (Freight.price best) (Num.lit (2 # 10)))
                (Freight.strategy (Freight.decideStrategy (Freight.total_weight cfg req))).

(** The trace of [k] retried attempts and a last one, counted from
    [attempt]: each retry is a fetch and the wait that follows it. *)
Fixpoint schedule_from (retryDelay : Z) (attempt k : nat)
  : list MelhorEnvioProvider.IoEvent :=
  match k with
  | O => [MelhorEnvioProvider.Fetched attempt]
  | S k' =>
      MelhorEnvioProvider.Fetched attempt
        :: MelhorEnvioProvider.Slept (retryDelay * 2 ^ Z.of_nat attempt)%Z
        :: schedule_from retryDelay (S attempt) k'
  end.

(** The time spent waiting in a trace. *)
Definition total_sleep (l : list MelhorEnvioProvider.IoEvent) : Z :=
  fold_right (fun e acc => match e with
                           | MelhorEnvioProvider.Slept ms => (ms + acc)%Z
                           | MelhorEnvioProvider.Fetched _ => acc
                           end) 0%Z l.

(** The fetch was answered with a status of 500 or more. *)
Definition is_server_error {T} (o : MelhorEnvioProvider.FetchOutcome T) : bool :=
  match o with
  | MelhorEnvioProvider.Responded status _ => (500 <=? status)%Z
  | _ => false
  end.

(** The fetch was answered with an ok status and a body that parses. *)
Definition is_answer {T} (o : MelhorEnvioProvider.FetchOutcome T) : bool :=
  match o with
  | MelhorEnvioProvider.Responded status (Some _) => MelhorEnvioProvider.response_ok status
  | _ => false
  end.

End Vocabulary.

(** ** Inputs of the examples *)

Module Samples.
Import StateMachine Spec.

Definition sample_me_config : MelhorEnvioProvider.MelhorEnvioConfig :=
  MelhorEnvioProvider.mkMEConfig 15000 2 1000.

Definition sample_items : list MelhorEnvioProvider.MelhorEnvioAPIResponse :=
  [MelhorEnvioProvider.mkItem "1" "Correios - PAC" 20 10 None None;
   MelhorEnvioProvider.mkItem "2" "Correios - SEDEX" 40 3 (Some false) None;
   MelhorEnvioProvider.mkItem "3" "Jadlog" 25 8 (Some true) (Some "unavailable")].

(** Two server errors, then an answer. *)
Definition flaky_net : nat -> MelhorEnvioProvider.FetchOutcome
                                (list MelhorEnvioProvider.MelhorEnvioAPIResponse) :=
  fun attempt =>
    match attempt with
    | 0%nat => MelhorEnvioProvider.Responded 503 None
    | 1%nat => MelhorEnvioProvider.Responded 500 None
    | _ => MelhorEnvioProvider.Responded 200 (Some sample_items)
    end.

Definition prod_config : AppConfig := mkConfig production 21600000 (Num.lit (3 # 10)) 3.

(** Stores with nothing in Redis and nothing in memory. *)
Definition empty_stores (connected answering : bool) : SessionManager.Stores :=
  SessionManager.mkStores (Redis.mkState connected answering ∅) ∅.

(** A session stored for a tenant, and stores whose server holds it
    under the tenant's key. *)
Definition stored_session : SessionManager.SessionData :=
  SessionManager.mkSession
    (mkContext "5511999999999" AWAITING_QUANTITY (Some "01001000") None None None
               (Some 0%Z) None)
    "tenant-a" 1000 2000 21601000.

Definition session_stores (connected answering : bool) : SessionManager.Stores :=
  SessionManager.mkStores
    (Redis.mkState connected answering
       {[SessionManager.getKey "tenant-a" "5511999999999"
         := Redis.mkEntry stored_session 21600%Z]})
    ∅.

(** A record of the memory map that expires at [t]. *)
Definition memory_session (phone : string) (t : Z) : SessionManager.SessionData :=
  SessionManager.mkSession
    (mkContext phone AWAITING_CEP None None None None (Some 0%Z) None) "tenant-a" 1000 1000 t.

(** Stores without a client whose memory map holds a record that expires
    at 4000 and one that expires at 9000. *)
Definition memory_stores : SessionManager.Stores :=
  SessionManager.mkStores
    (Redis.mkState false true ∅)
    (<["5511000000001" := memory_session "5511000000001" 4000]>
       {["5511000000002" := memory_session "5511000000002" 9000]}).

(** A quote priced 35.5. *)
Definition decimal_quote : Freight.FreightOption :=
  Freight.mkOption "q-e" "Carrier E" "Express" (71 # 2) 4 Freight.melhorenvio.

(** A provider whose every call times out. *)
Definition failing_provider
  : Freight.ShippingQuoteRequest -> Result (list Freight.FreightOption) :=
  fun _ => Throw (providerError MELHORENVIO_TIMEOUT "Melhor Envio API request timed out" true).

Definition sample_result : Freight.FreightResult :=
  Freight.mkResult true (firstn 2 sample_quotes) (3 # 2) (sample_request 5) 1699999999000.

(** A world whose cache already holds an answer for five units. *)
Definition sample_world_cached : Freight.World :=
  Freight.mkWorld
    (Redis.mkState true true
       {[Freight.cache_key sample_numberToString (sample_request 5)
                           (Freight.total_weight dev_config (sample_request 5))
         := Redis.mkEntry sample_result 600%Z]})
    [] true 1700000000000 "uuid-1".

End Samples.

(** * Properties of the arithmetic *)

Section NumProperties.
Import Num.
Local Open Scope Q_scope.

Lemma pow2_pos (z : Z) : 0 < 2 ^ z.
Proof. apply Qpower_0_lt. reflexivity. Qed.

Lemma pow2_succ (z : Z) : 2 ^ (z + 1) == 2 * 2 ^ z.
Proof. rewrite Qpower_plus by discriminate. rewrite Qpower_1_r. ring. Qed.

Lemma pow2_log2 (n : positive) :
  2 ^ Z.log2 (Zpos n) <= inject_Z (Zpos n) /\ inject_Z (Zpos n) < 2 ^ (Z.log2 (Zpos n) + 1).
Proof.
  destruct (Z.log2_spec (Zpos n)) as [H1 H2]; [lia|].
  pose proof (Z.log2_nonneg (Zpos n)) as H0.
  split.
  - rewrite <- (Zpower_Qpower 2) by lia. rewrite <- Zle_Qle. exact H1.
  - rewrite <- (Zpower_Qpower 2) by lia. rewrite <- Zlt_Qlt.
    replace (Z.log2 (Z.pos n) + 1)%Z with (Z.succ (Z.log2 (Z.pos n))) by lia. exact H2.
Qed.

Lemma Qmake_div (n : Z) (d : positive) : n # d == inject_Z n / inject_Z (Zpos d).
Proof. rewrite Qmake_Qdiv. reflexivity. Qed.

(** [floor_log2] brackets the ratio between two consecutive powers of 2. *)
Lemma floor_log2_spec (n d : positive) :
  2 ^ floor_log2 n d <= Zpos n # d /\ Zpos n # d < 2 ^ (floor_log2 n d + 1).
Proof.
  unfold floor_log2.
  set (e := (Z.log2 (Zpos n) - Z.log2 (Zpos d))%Z).
  destruct (pow2_log2 n) as [Hn1 Hn2]. destruct (pow2_log2 d) as [Hd1 Hd2].
  assert (Hd0 : 0 < inject_Z (Zpos d)) by reflexivity.
  pose proof (pow2_pos (Z.log2 (Zpos d))) as Pd.
  pose proof (pow2_pos e) as Pe.
  assert (He : 2 ^ Z.log2 (Zpos n) == 2 ^ e * 2 ^ Z.log2 (Zpos d)).
  { rewrite <- Qpower_plus by discriminate. apply Qpower_comp; [reflexivity|]. unfold e. lia. }
  assert (Hx : (Zpos n # d) * inject_Z (Zpos d) == inject_Z (Zpos n)).
  { rewrite Qmake_div. field. intros E. rewrite E in Hd0. apply (Qlt_irrefl 0). exact Hd0. }
  rewrite pow2_succ in Hn2, Hd2.
  destruct (Qle_bool (2 ^ e) (Zpos n # d)) eqn:T.
  - apply Qle_bool_iff in T. split; [exact T|].
    rewrite pow2_succ.
    apply (Qmult_lt_r _ _ (inject_Z (Zpos d))); [exact Hd0|]. rewrite Hx.
    eapply Qlt_le_trans; [exact Hn2|]. rewrite He.
    nra.
  - assert (T' : Zpos n # d < 2 ^ e).
    { apply Qnot_le_lt. intros H. apply Qle_bool_iff in H. congruence. }
    replace (e - 1 + 1)%Z with e by lia. split; [|exact T'].
    assert (Hm : 2 ^ e == 2 * 2 ^ (e - 1)).
    { rewrite <- pow2_succ. apply Qpower_comp; [reflexivity | lia]. }
    pose proof (pow2_pos (e - 1)) as Pm.
    apply Qlt_le_weak.
    apply (Qmult_lt_r _ _ (inject_Z (Zpos d))); [exact Hd0|]. rewrite Hx.
    eapply Qlt_le_trans; [|exact Hn1]. rewrite He, Hm. nra.
Qed.

(** Rounding to the nearest integer moves by at most a half. *)
Lemma nearest_even_error (y : Q) : Qabs (inject_Z (nearest_even y) - y) <= 1 # 2.
Proof.
  destruct y as [num den]. unfold nearest_even. simpl Qnum. simpl Qden.
  pose proof (Z.div_mod num (Zpos den) ltac:(lia)) as Hdm.
  pose proof (Z.mod_pos_bound num (Zpos den) ltac:(lia)) as Hr.
  set (q := (num / Zpos den)%Z) in *. set (r := (num mod Zpos den)%Z) in *.
  apply Qabs_Qle_condition.
  assert (Hcase : forall m : Z,
             (- Zpos den <= 2 * (m * Zpos den - num) <= Zpos den)%Z ->
             - (1 # 2) <= inject_Z m - (num # den) <= 1 # 2).
  { intros m Hm. unfold Qle, Qminus, Qplus, Qopp, inject_Z. simpl. split; nia. }
  destruct (Z.compare_spec (2 * r) (Zpos den)) as [E | L | G].
  - destruct (Z.even q); apply Hcase; nia.
  - apply Hcase; nia.
  - apply Hcase; nia.
Qed.

(** The value rounded and the value differ by at most half a unit in the
    last place. *)
Lemma round_pos_error (n d : positive) :
  Qabs (round_pos n d - (Zpos n # d)) <= 2 ^ ulp_exponent n d * (1 # 2).
Proof.
  unfold round_pos. set (e := ulp_exponent n d). rewrite Qred_correct.
  pose proof (pow2_pos e) as Pe.
  pose proof (nearest_even_error ((Zpos n # d) / 2 ^ e)) as H.
  set (m := inject_Z (nearest_even ((Zpos n # d) / 2 ^ e))) in *.
  assert (E : m * 2 ^ e - (Zpos n # d) == (m - (Zpos n # d) / 2 ^ e) * 2 ^ e).
  { field. intros Z. rewrite Z in Pe. apply (Qlt_irrefl 0), Pe. }
  rewrite E, Qabs_Qmult, (Qabs_pos (2 ^ e)) by (apply Qlt_le_weak, Pe).
  rewrite (Qmult_comm (2 ^ e)). apply Qmult_le_compat_r; [exact H | apply Qlt_le_weak, Pe].
Qed.

(** In the normal range the relative error is at most 2^-53. *)
Lemma round_pos_relative (n d : positive) :
  min_normal <= Zpos n # d ->
  Qabs (round_pos n d - (Zpos n # d)) <= (Zpos n # d) * epsilon.
Proof.
  intros Hmin. eapply Qle_trans; [apply round_pos_error|].
  destruct (floor_log2_spec n d) as [Hlo Hhi].
  assert (HE : (-1022 <= floor_log2 n d)%Z).
  { assert (H : 2 ^ (-1022) < 2 ^ (floor_log2 n d + 1)).
    { eapply Qle_lt_trans; [exact Hmin | exact Hhi]. }
    apply Qpower_lt_compat_l_inv in H; [lia | reflexivity]. }
  unfold ulp_exponent. rewrite Z.max_l by lia.
  unfold epsilon.
  assert (E : 2 ^ (floor_log2 n d - 52) * (1 # 2) == 2 ^ floor_log2 n d * 2 ^ (-53)).
  { replace (floor_log2 n d - 52)%Z with (floor_log2 n d + (-53) + 1)%Z by lia.
    rewrite pow2_succ, Qpower_plus by discriminate. field. }
  rewrite E. apply Qmult_le_compat_r; [exact Hlo | apply Qlt_le_weak, pow2_pos].
Qed.

Lemma round_relative (x : Q) :
  min_normal <= Qabs x -> Qabs (round x - x) <= Qabs x * epsilon.
Proof.
  destruct x as [[|n|n] d]; unfold round; simpl Qnum; simpl Qden.
  - intros H. exfalso. revert H. apply Qlt_not_le. reflexivity.
  - intros H. change (Qabs (Zpos n # d)) with (Zpos n # d) in *. apply round_pos_relative, H.
  - intros H. change (Qabs (Zneg n # d)) with (Zpos n # d) in *.
    assert (E : - round_pos n d - (Z.neg n # d) == - (round_pos n d - (Zpos n # d))).
    { change (Z.neg n # d) with (- (Zpos n # d)). ring. }
    rewrite E, Qabs_opp. apply round_pos_relative, H.
Qed.

(** The integer nearest to a number does not depend on the fraction that
    represents it. *)
Lemma nearest_even_compat (a b : Q) : a == b -> nearest_even a = nearest_even b.
Proof.
  intros E. unfold nearest_even.
  assert (Hq : (Qnum a / Zpos (Qden a) = Qnum b / Zpos (Qden b))%Z).
  { pose proof (Qfloor_comp a b E) as F. destruct a, b. exact F. }
  rewrite <- Hq. set (q := (Qnum a / Zpos (Qden a))%Z) in *.
  assert (Ra : (Qnum a mod Zpos (Qden a) = Qnum a - Zpos (Qden a) * q)%Z).
  { unfold q. pose proof (Z.div_mod (Qnum a) (Zpos (Qden a)) ltac:(lia)). lia. }
  assert (Rb : (Qnum b mod Zpos (Qden b) = Qnum b - Zpos (Qden b) * q)%Z).
  { rewrite Hq. pose proof (Z.div_mod (Qnum b) (Zpos (Qden b)) ltac:(lia)). lia. }
  rewrite Ra, Rb. unfold Qeq in E.
  destruct (Z.compare_spec (2 * (Qnum a - Zpos (Qden a) * q)) (Zpos (Qden a)));
    destruct (Z.compare_spec (2 * (Qnum b - Zpos (Qden b) * q)) (Zpos (Qden b)));
    try reflexivity; exfalso; nia.
Qed.

Lemma nearest_even_Z (z : Z) : nearest_even (inject_Z z) = z.
Proof.
  unfold nearest_even, inject_Z. simpl. rewrite Z.mod_1_r, Z.div_1_r. reflexivity.
Qed.

(** Rounding to the nearest integer is monotone. *)
Lemma nearest_even_mono (a b : Q) : a <= b -> (nearest_even a <= nearest_even b)%Z.
Proof.
  intros Hab.
  destruct (Z_le_gt_dec (nearest_even a) (nearest_even b)) as [H | H]; [exact H|].
  exfalso.
  pose proof (nearest_even_error a) as Ha. pose proof (nearest_even_error b) as Hb.
  apply Qabs_Qle_condition in Ha, Hb.
  assert (Hz : inject_Z (nearest_even b) + 1 <= inject_Z (nearest_even a)).
  { change 1 with (inject_Z 1). rewrite <- inject_Z_plus, <- Zle_Qle. lia. }
  assert (E : a == b) by lra.
  apply nearest_even_compat in E. lia.
Qed.

Lemma floor_log2_mono (n d n' d' : positive) :
  Zpos n # d <= Zpos n' # d' -> (floor_log2 n d <= floor_log2 n' d')%Z.
Proof.
  intros H. destruct (floor_log2_spec n d) as [Hlo _].
  destruct (floor_log2_spec n' d') as [_ Hhi].
  assert (Hp : 2 ^ floor_log2 n d < 2 ^ (floor_log2 n' d' + 1)).
  { eapply Qle_lt_trans; [exact Hlo|]. eapply Qle_lt_trans; [exact H | exact Hhi]. }
  apply Qpower_lt_compat_l_inv in Hp; [lia | reflexivity].
Qed.

Lemma pow2_Z (k : Z) : (0 <= k)%Z -> inject_Z (2 ^ k) == 2 ^ k.
Proof. intros H. apply (Zpower_Qpower 2 k H). Qed.

Lemma pow2_nonzero (z : Z) : ~ 2 ^ z == 0.
Proof. intros E. pose proof (pow2_pos z) as P. rewrite E in P. apply (Qlt_irrefl 0), P. Qed.

(** Rounding is monotone on the positive numbers. *)
Lemma round_pos_mono (n d n' d' : positive) :
  Zpos n # d <= Zpos n' # d' -> round_pos n d <= round_pos n' d'.
Proof.
  intros H. unfold round_pos. rewrite !Qred_correct.
  pose proof (floor_log2_mono n d n' d' H) as HE.
  destruct (floor_log2_spec n d) as [_ Hxhi].
  destruct (floor_log2_spec n' d') as [Hylo _].
  set (x := Zpos n # d) in *. set (y := Zpos n' # d') in *.
  set (Ex := floor_log2 n d) in *. set (Ey := floor_log2 n' d') in *.
  unfold ulp_exponent. fold Ex Ey.
  set (ex := Z.max (Ex - 52) (-1074)). set (ey := Z.max (Ey - 52) (-1074)).
  pose proof (pow2_pos ex) as Pex. pose proof (pow2_pos ey) as Pey.
  destruct (Z.eq_dec ex ey) as [Heq | Hne].
  - rewrite <- Heq. apply Qmult_le_compat_r; [|apply Qlt_le_weak, Pex].
    rewrite <- Zle_Qle. apply nearest_even_mono.
    unfold Qdiv. apply Qmult_le_compat_r; [exact H|].
    apply Qlt_le_weak, Qinv_lt_0_compat, Pex.
  - assert (Hlt : (ex < ey)%Z) by lia.
    assert (Hey : ey = (Ey - 52)%Z) by lia.
    assert (HEE : (Ex + 1 <= Ey)%Z) by lia.
    apply (Qle_trans _ (2 ^ Ey)).
    + (* the smaller one stays under the power of two between them *)
      assert (Hk : (0 <= Ey - ex)%Z) by lia.
      assert (Hx : x / 2 ^ ex <= inject_Z (2 ^ (Ey - ex))).
      { rewrite pow2_Z by exact Hk. rewrite Qpower_minus by discriminate.
        unfold Qdiv. apply Qmult_le_compat_r;
          [|apply Qlt_le_weak, Qinv_lt_0_compat, Pex].
        apply Qlt_le_weak. eapply Qlt_le_trans; [exact Hxhi|].
        apply Qpower_le_compat_l; [lia | discriminate]. }
      apply nearest_even_mono in Hx. rewrite nearest_even_Z in Hx.
      rewrite Zle_Qle, pow2_Z in Hx by exact Hk.
      assert (E : 2 ^ Ey == 2 ^ (Ey - ex) * 2 ^ ex).
      { rewrite <- Qpower_plus by discriminate. apply Qpower_comp; [reflexivity | lia]. }
      rewrite E. apply Qmult_le_compat_r; [exact Hx | apply Qlt_le_weak, Pex].
    + assert (Hy : inject_Z (2 ^ 52) <= y / 2 ^ ey).
      { rewrite pow2_Z by lia.
        assert (E : 2 ^ 52 == 2 ^ Ey / 2 ^ ey).
        { rewrite <- Qpower_minus by discriminate. apply Qpower_comp; [reflexivity | lia]. }
        rewrite E. unfold Qdiv. apply Qmult_le_compat_r; [exact Hylo|].
        apply Qlt_le_weak, Qinv_lt_0_compat, Pey. }
      apply nearest_even_mono in Hy. rewrite nearest_even_Z in Hy.
      rewrite Zle_Qle, pow2_Z in Hy by lia.
      assert (E : 2 ^ Ey == 2 ^ 52 * 2 ^ ey).
      { rewrite <- Qpower_plus by discriminate. apply Qpower_comp; [reflexivity | lia]. }
      rewrite E. apply Qmult_le_compat_r; [exact Hy | apply Qlt_le_weak, Pey].
Qed.

Lemma round_pos_nonneg (n d : positive) : 0 <= round_pos n d.
Proof.
  unfold round_pos. rewrite Qred_correct.
  apply Qmult_le_0_compat; [|apply Qlt_le_weak, pow2_pos].
  change 0 with (inject_Z 0). rewrite <- Zle_Qle, <- (nearest_even_Z 0).
  apply nearest_even_mono. apply Qmult_le_0_compat; [discriminate|].
  apply Qlt_le_weak, Qinv_lt_0_compat, pow2_pos.
Qed.

(** Rounding to binary64 is monotone. *)
Lemma round_mono (x y : Q) : x <= y -> round x <= round y.
Proof.
  destruct x as [[|n|n] d], y as [[|n'|n'] d']; unfold round; simpl Qnum; simpl Qden;
    intros H.
  - apply Qle_refl.
  - apply round_pos_nonneg.
  - exfalso. revert H. apply Qlt_not_le. reflexivity.
  - exfalso. revert H. apply Qlt_not_le. reflexivity.
  - apply round_pos_mono, H.
  - exfalso. revert H. apply Qlt_not_le. reflexivity.
  - clear H. pose proof (round_pos_nonneg n d) as P.
    apply (Qopp_le_compat 0) in P. exact P.
  - clear H. pose proof (round_pos_nonneg n d) as P.
    apply (Qopp_le_compat 0) in P.
    eapply Qle_trans; [exact P | apply round_pos_nonneg].
  - apply Qopp_le_compat. apply round_pos_mono.
    unfold Qle in *. simpl in *. lia.
Qed.

Lemma round_comp (x y : Q) : x == y -> round x == round y.
Proof. intros E. apply Qle_antisym; apply round_mono; rewrite E; apply Qle_refl. Qed.

(** On the sample values, product, sum, difference and quotient are
    those of the reference. *)
Example agrees_with_reference :
  forallb (fun p => Binary64Reference.agree (fst p) (snd p)) Binary64Reference.samples = true.
Proof. vm_compute. reflexivity. Qed.

(** The values the runtime prints for some products and differences. *)
Example binary64_values :
  mul 3 (lit (3 # 10)) = lit (8999999999999999 # 10000000000000000)
  /\ mul 3 (lit (3 # 10)) <> lit (9 # 10)
  /\ mul 5 (lit (3 # 10)) = 3 # 2
  /\ mul (lit (3 # 10)) 51 = lit (15299999999999999 # 1000000000000000)
  /\ mul (lit (355 # 10)) (lit (2 # 10)) = lit (71000000000000005 # 10000000000000000)
  /\ add 45 (mul (mul (lit (3 # 10)) 51) (lit (25 # 10))) = 333 # 4
  /\ mul (333 # 4) (lit (2 # 10)) = lit (16650000000000002 # 1000000000000000)
  /\ sub (sub (sub 0 (lit (201 # 10))) (lit (502 # 10))) 0
     = lit (-7030000000000001 # 100000000000000).
Proof. vm_compute. repeat split; congruence. Qed.

(** The product of a quantity and the literal [0.3], against the exact
    product: three parts in 10^16 at most, for a quantity that is not
    so small that the product is subnormal. *)
Lemma mul_unit_weight_error (q : Q) :
  (1 # 10 ^ 307) <= q ->
  Qabs (mul q (lit (3 # 10)) - q * (3 # 10)) <= q * (1 # 10 ^ 16).
Proof.
  intros Hq. unfold mul.
  set (l := lit (3 # 10)).
  assert (Hl : (1 # 4) <= l) by (vm_compute; discriminate).
  assert (Hmin : min_normal <= (1 # 10 ^ 307) * (1 # 4)) by (vm_compute; discriminate).
  assert (Hc : l * epsilon + Qabs (l - (3 # 10)) <= 1 # 10 ^ 16) by (vm_compute; discriminate).
  assert (Hq0 : 0 < q) by (eapply Qlt_le_trans; [|exact Hq]; reflexivity).
  assert (Hx : min_normal <= Qabs (q * l)).
  { rewrite Qabs_pos by nra. eapply Qle_trans; [exact Hmin|].
    apply Qmult_le_compat_nonneg; split; try assumption; discriminate. }
  pose proof (round_relative (q * l) Hx) as Hr.
  rewrite (Qabs_pos (q * l)) in Hr by nra.
  assert (E : round (q * l) - q * (3 # 10) == (round (q * l) - q * l) + q * (l - (3 # 10)))
    by ring.
  rewrite E. eapply Qle_trans; [apply Qabs_triangle|].
  rewrite Qabs_Qmult, (Qabs_pos q) by lra.
  set (a := Qabs (l - (3 # 10))) in *. set (k := 1 # 10 ^ 16) in *.
  set (eps := epsilon) in *.
  assert (q * l * eps + q * a == q * (l * eps + a)) as E2 by ring.
  eapply Qle_trans; [apply Qplus_le_l; exact Hr|]. rewrite E2.
  apply Qmult_le_l; [exact Hq0 | exact Hc].
Qed.

End NumProperties.

(** * Properties of the state machine *)

Section StateMachineProperties.
Import StateMachine Spec.

Lemma find_transition_in_table s e :
  find_transition s e <> None <-> in_table s e.
Proof.
  unfold find_transition, in_table. split.
  - destruct (List.find (matches s e) transitions) as [t|] eqn:F; [intros _ | congruence].
    apply find_some in F as [Hin Hm]. exists t. split; [exact Hin|].
    unfold matches in Hm. apply andb_prop in Hm as [A B].
    apply bool_decide_eq_true in A, B. auto.
  - intros (t & Hin & <- & <-) F.
    eapply find_none in F; [|exact Hin].
    unfold matches in F. rewrite !bool_decide_eq_true_2 in F by reflexivity. discriminate.
Qed.

Lemma find_transition_matches s e t :
  find_transition s e = Some t -> from t = s /\ event t = e.
Proof.
  unfold find_transition. intros F. apply find_some in F as [_ Hm].
  unfold matches in Hm. apply andb_prop in Hm as [A B].
  apply bool_decide_eq_true in A, B. auto.
Qed.

(** A rejection never touches the heap. *)
Lemma transition_throw_heap (h h' : heap) r ev e :
  transition h r ev = Some (h', Throw e) -> h' = h.
Proof.
  unfold transition. destruct (h !! r) as [c|]; [|discriminate].
  destruct (find_transition (currentState c) ev) as [t|]; [|congruence].
  destruct (negb _); congruence.
Qed.

(** C3: a pair without an entry in the table is rejected with the
    INVALID_STATE_TRANSITION business error, the heap untouched, and the
    message names the attempted transition: it reads "Invalid
    transition from <state> with event <event>" with the names of the
    two enum members, so the messages of two such rejections are the
    same only when the states and the events are.  A pair with an entry
    is never rejected with that error. *)
Theorem transition_state_error (h : heap) (r : loc) (c : ConversationContext)
        (ev : ConversationEvent) :
  h !! r = Some c ->
  (~ in_table (currentState c) ev ->
     transition h r ev =
       Some (h, Throw (businessError INVALID_STATE_TRANSITION
                         ("Invalid transition from "
                            ++ match currentState c with
                               | IDLE => "IDLE"
                               | AWAITING_CEP => "AWAITING_CEP"
                               | AWAITING_QUANTITY => "AWAITING_QUANTITY"
                               | CALCULATING => "CALCULATING"
                               | COMPLETED => "COMPLETED"
                               | ERROR => "ERROR"
                               end
                            ++ " with event "
                            ++ match ev with
                               | START_FREIGHT_QUERY => "START_FREIGHT_QUERY"
                               | CEP_PROVIDED => "CEP_PROVIDED"
                               | QUANTITY_PROVIDED => "QUANTITY_PROVIDED"
                               | CALCULATION_SUCCESS => "CALCULATION_SUCCESS"
                               | CALCULATION_ERROR => "CALCULATION_ERROR"
                               | RESET => "RESET"
                               | EV_ERROR => "ERROR"
                               end))))
  /\ (forall (h2 : heap) (r2 : loc) (c2 : ConversationContext) (ev2 : ConversationEvent)
             (e e2 : BaseError),
        h2 !! r2 = Some c2 ->
        transition h r ev = Some (h, Throw e) -> isStateError e ->
        transition h2 r2 ev2 = Some (h2, Throw e2) -> isStateError e2 ->
        err_message e = err_message e2 ->
        currentState c = currentState c2 /\ ev = ev2)
  /\ (in_table (currentState c) ev ->
        forall h' e, transition h r ev = Some (h', Throw e) -> ~ isStateError e).
Proof.
  intros Hr.
  assert (Hname : forall (h0 : heap) r0 c0 ev0 e0,
             h0 !! r0 = Some c0 ->
             transition h0 r0 ev0 = Some (h0, Throw e0) -> isStateError e0 ->
             err_message e0 = invalid_transition_message (currentState c0) ev0).
  { intros h0 r0 c0 ev0 e0 H0 T [_ Hc]. unfold transition in T. rewrite H0 in T.
    destruct (find_transition (currentState c0) ev0) as [t|].
    - destruct (negb _); [|discriminate T].
      injection T as <-. discriminate Hc.
    - injection T as <-. reflexivity. }
  split; [|split].
  - intros Hn. unfold transition. rewrite Hr.
    destruct (find_transition (currentState c) ev) as [t|] eqn:F.
    + exfalso. apply Hn. apply find_transition_in_table. congruence.
    + destruct (currentState c), ev; reflexivity.
  - intros h2 r2 c2 ev2 e e2 Hr2 T He T2 He2 Hm.
    rewrite (Hname _ _ _ _ _ Hr T He), (Hname _ _ _ _ _ Hr2 T2 He2) in Hm.
    destruct (currentState c), ev, (currentState c2), ev2;
      first [split; reflexivity | discriminate Hm].
  - intros Hin h' e. unfold transition. rewrite Hr.
    destruct (find_transition (currentState c) ev) as [t|] eqn:F.
    + destruct (negb _).
      * intros [= _ <-] [_ Hc]. discriminate Hc.
      * discriminate.
    + exfalso. apply find_transition_in_table in Hin. congruence.
Qed.

Lemma transition_state_error_witness :
  transition {[1%positive := sample_context IDLE None]} 1%positive CEP_PROVIDED =
    Some ({[1%positive := sample_context IDLE None]},
          Throw (businessError INVALID_STATE_TRANSITION
                   "Invalid transition from IDLE with event CEP_PROVIDED")).
Proof.
  refine (proj1 (transition_state_error {[1%positive := sample_context IDLE None]} 1%positive
                   (sample_context IDLE None) CEP_PROVIDED _) _).
  - reflexivity.
  - intros (t & Hin & Hf & He). simpl in Hin.
    repeat (destruct Hin as [<- | Hin]; [discriminate Hf || discriminate He|]).
    exact Hin.
Defined.

Lemma fresh_loc_ne (h : heap) (r : loc) (c : ConversationContext) :
  h !! r = Some c -> fresh (dom h) <> r.
Proof.
  intros Hr E. apply (is_fresh (dom h)). rewrite E.
  apply elem_of_dom. eauto.
Qed.

(** Apart from the row that carries an action, a call leaves the
    caller's object as it was, whatever the outcome. *)
Lemma transition_input_frame (h h' : heap) r c ev res :
  h !! r = Some c ->
  transition h r ev = Some (h', res) ->
  (currentState c, ev) <> (AWAITING_QUANTITY, QUANTITY_PROVIDED) ->
  h' !! r = Some c.
Proof.
  intros Hr T Hne. unfold transition in T. rewrite Hr in T.
  destruct (find_transition (currentState c) ev) as [t|] eqn:F.
  - assert (Ha : action t = None).
    { destruct (currentState c) eqn:Es, ev; try discriminate F;
        try (injection F as <-; reflexivity).
      exfalso. apply Hne. reflexivity. }
    rewrite Ha in T. destruct (negb _).
    + injection T as <- _. exact Hr.
    + injection T as <- _. rewrite lookup_insert_ne; [exact Hr|].
      eapply fresh_loc_ne; eauto.
  - injection T as <- _. exact Hr.
Qed.

(** C4: on the QUANTITY_PROVIDED row the action writes [totalWeight]
    into the very object the caller passed: after a successful call on a
    context with quantity 5 and no total weight, the caller's object
    holds total weight 5 x 0.3, that is 1.5, although a distinct new
    object is returned. *)
Theorem transition_action_writes_caller_context :
  let c := sample_context AWAITING_QUANTITY (Some 5%Q) in
  exists (h' : heap) (r' : loc),
    transition {[1%positive := c]} 1%positive QUANTITY_PROVIDED = Some (h', Ok r')
    /\ r' <> 1%positive
    /\ totalWeight c = None
    /\ h' !! 1%positive = Some (set_totalWeight c (Some (3 # 2)%Q))
    /\ h' !! r' = Some (set_currentState (set_totalWeight c (Some (3 # 2)%Q)) CALCULATING).
Proof.
  intros c. eexists. eexists. split; [reflexivity|].
  repeat split; vm_compute; congruence.
Qed.

(** C5 (as amended): from AWAITING_QUANTITY, QUANTITY_PROVIDED succeeds
    exactly when the context holds a quantity greater than zero; it then
    returns a new context in CALCULATING whose total weight is the
    binary64 product of the quantity and 0.3, which is the exact product
    up to one part in 10^16 of the quantity.  With no quantity, or one
    that is not positive, the call is rejected with the VALIDATION_ERROR
    business error, the heap is untouched and the context stays in
    AWAITING_QUANTITY. *)
Theorem transition_quantity_provided (h : heap) (r : loc) (c : ConversationContext) :
  h !! r = Some c ->
  currentState c = AWAITING_QUANTITY ->
  (forall q, quantity c = Some q -> (0 < q)%Q ->
     exists h' r',
       transition h r QUANTITY_PROVIDED = Some (h', Ok r')
       /\ h' !! r' = Some (set_currentState
                             (set_totalWeight c (Some (Num.mul q (Num.lit (3 # 10)))))
                             CALCULATING)
       /\ ((1 # 10 ^ 307 <= q)%Q ->
           (Qabs (Num.mul q (Num.lit (3 # 10)) - q * (3 # 10)) <= q * (1 # 10 ^ 16))%Q))
  /\ ((quantity c = None \/ exists q, quantity c = Some q /\ (q <= 0)%Q) ->
        transition h r QUANTITY_PROVIDED =
          Some (h, Throw (businessError VALIDATION_ERROR
                            "Transition guard condition not met"))
        /\ currentState <$> (h !! r) = Some AWAITING_QUANTITY).
Proof.
  intros Hr Hs. split.
  - intros q Hq Hpos. unfold transition. rewrite Hr, Hs. simpl.
    rewrite Hq. simpl.
    assert (Hle : Qle_bool q 0 = false).
    { destruct (Qle_bool q 0) eqn:E; [|reflexivity].
      apply Qle_bool_iff in E. lra. }
    rewrite Hle. simpl.
    eexists. eexists. split; [reflexivity|]. split.
    + rewrite lookup_insert_eq.
      unfold quantity_action, quantity_or_zero, unitWeight. rewrite Hq.
      assert (Hz : Qeq_bool q 0 = false).
      { destruct (Qeq_bool q 0) eqn:E; [|reflexivity].
        apply Qeq_bool_iff in E. lra. }
      rewrite Hz. reflexivity.
    + apply mul_unit_weight_error.
  - intros Hbad. split; [|rewrite Hr; simpl; congruence].
    unfold transition. rewrite Hr, Hs. simpl.
    destruct Hbad as [Hn | (q & Hq & Hle)].
    + rewrite Hn. reflexivity.
    + rewrite Hq. simpl. apply Qle_bool_iff in Hle. rewrite Hle. reflexivity.
Qed.

(** At quantity 3 the weight is 0.8999999999999999, not 0.9. *)
Lemma transition_quantity_provided_witness :
  exists h' r',
    transition {[1%positive := sample_context AWAITING_QUANTITY (Some 3%Q)]}
               1%positive QUANTITY_PROVIDED = Some (h', Ok r')
    /\ h' !! r' = Some (set_currentState
                          (set_totalWeight
                             (sample_context AWAITING_QUANTITY (Some 3%Q))
                             (Some (Num.lit (8999999999999999 # 10000000000000000))))
                          CALCULATING)
    /\ (Qabs (Num.mul 3 (Num.lit (3 # 10)) - 3 * (3 # 10)) <= 3 * (1 # 10 ^ 16))%Q.
Proof.
  assert (Hr : ({[1%positive := sample_context AWAITING_QUANTITY (Some 3%Q)]} : heap)
                 !! 1%positive = Some (sample_context AWAITING_QUANTITY (Some 3%Q)))
    by reflexivity.
  destruct (proj1 (transition_quantity_provided
                     {[1%positive := sample_context AWAITING_QUANTITY (Some 3%Q)]}
                     1%positive (sample_context AWAITING_QUANTITY (Some 3%Q))
                     Hr eq_refl) 3%Q eq_refl eq_refl)
    as (h' & r' & H1 & H2 & H3).
  exists h', r'. split; [exact H1|]. split.
  - rewrite H2. vm_compute. reflexivity.
  - apply H3. vm_compute. discriminate.
Defined.

(** C5 (as stated) fails: quantities above 9999, and fractional ones,
    pass the guard. *)
Lemma transition_quantity_no_upper_bound :
  (exists h' r',
     transition {[1%positive := sample_context AWAITING_QUANTITY (Some 10000%Q)]}
                1%positive QUANTITY_PROVIDED = Some (h', Ok r'))
  /\ ~ spec_valid_quantity (Some 10000%Q)
  /\ (exists h' r',
        transition {[1%positive := sample_context AWAITING_QUANTITY (Some (5 # 2)%Q)]}
                   1%positive QUANTITY_PROVIDED = Some (h', Ok r'))
  /\ ~ spec_valid_quantity (Some (5 # 2)%Q).
Proof.
  repeat split.
  - eexists. eexists. reflexivity.
  - intros (n & E & Hn). unfold inject_Z in E. inversion E; subst. lia.
  - eexists. eexists. reflexivity.
  - intros (n & E & Hn). unfold inject_Z in E. discriminate E.
Qed.

End StateMachineProperties.

(** * Properties of the session store *)

Section SessionProperties.
Import StateMachine SessionManager Spec.

Lemma nonempty_length (s : string) : s <> "" -> (String.length s =? 0)%nat = false.
Proof. destruct s; [congruence | reflexivity]. Qed.

(** With the server reachable, [saveSession] writes the tenant-scoped key
    with the configured TTL and touches no other key. *)
Lemma saveSession_reachable cfg tenant phone session (s : Stores) :
  Redis.connected (redis s) = true ->
  Redis.answering (redis s) = true ->
  exists s2,
    saveSession cfg tenant phone session s = (s2, Ok tt)
    /\ Redis.store (redis s2)
       = <[getKey tenant phone := Redis.mkEntry session (ceil_div_1000 (session_ttlMs cfg))]>
           (Redis.store (redis s)).
Proof.
  intros Hc Ha. destruct s as [[c a st] mem]. simpl in *. subst c a.
  unfold saveSession, bind, redis_available, gets, redis_set, Redis.isAvailable,
    Redis.set, Redis.reachable, ret, modify; simpl.
  assert (Httl : (if (ceil_div_1000 (session_ttlMs cfg) =? 0)%Z
                  then ceil_div_1000 (session_ttlMs cfg)
                  else ceil_div_1000 (session_ttlMs cfg))
                 = ceil_div_1000 (session_ttlMs cfg)) by (destruct (_ =? _)%Z; reflexivity).
  rewrite Httl.
  destruct (bool_decide (env cfg = production)); simpl; eexists; split; reflexivity.
Qed.

(** The compatibility layer of [getSession]. *)
Lemma getSession_legacy cfg now tenant phone (s : Stores) old :
  tenant <> "" ->
  Redis.connected (redis s) = true ->
  Redis.answering (redis s) = true ->
  Redis.store (redis s) !! getKey tenant phone = None ->
  Redis.store (redis s) !! getOldKey phone = Some old ->
  getSession cfg now tenant phone s =
    (with_redis s (Redis.mkState true true
                     (base.delete (getOldKey phone) (Redis.store (redis s)))),
     Ok None).
Proof.
  intros Ht Hc Ha Hnew Hold.
  destruct s as [[c a st] mem]. simpl in *. subst c a.
  unfold getSession. rewrite (nonempty_length _ Ht).
  unfold try_catch, bind, redis_available, gets, redis_get, redis_delete,
    Redis.isAvailable, Redis.get, Redis.delete, Redis.reachable, ret; simpl.
  rewrite Hnew. simpl. rewrite Hold. simpl. rewrite Hold. reflexivity.
Qed.

(** C2 (as amended): for a non-empty tenant, with the Redis client
    connected and the server answering, a session present only under the
    legacy key makes [getSession] delete that key, and nothing else, and
    answer null; a [createSession] that follows returns and stores, under
    the tenant-scoped key and with the full TTL, a record in IDLE with
    error count 0 that expires one session lifetime after its
    creation. *)
Theorem legacy_session_is_reset (cfg : AppConfig) (now now' : Z) (tenant phone : string)
        (s : Stores) (old : Redis.Entry SessionData) :
  tenant <> "" ->
  Redis.connected (redis s) = true ->
  Redis.answering (redis s) = true ->
  Redis.store (redis s) !! getKey tenant phone = None ->
  Redis.store (redis s) !! getOldKey phone = Some old ->
  exists s1 s2 session,
    getSession cfg now tenant phone s = (s1, Ok None)
    /\ Redis.store (redis s1) = base.delete (getOldKey phone) (Redis.store (redis s))
    /\ createSession cfg now' tenant phone s1 = (s2, Ok session)
    /\ Redis.store (redis s2) !! getKey tenant phone
       = Some (Redis.mkEntry session (ceil_div_1000 (session_ttlMs cfg)))
    /\ Redis.store (redis s2) !! getOldKey phone = None
    /\ tenantId session = tenant
    /\ phoneNumber (context session) = phone
    /\ currentState (context session) = IDLE
    /\ errorCount (context session) = Some 0%Z
    /\ createdAt session = now'
    /\ expiresAt session = (now' + session_ttlMs cfg)%Z.
Proof.
  intros Ht Hc Ha Hnew Hold.
  assert (Hk : getKey tenant phone <> getOldKey phone) by congruence.
  destruct (saveSession_reachable cfg tenant phone (fresh_session cfg now' tenant phone)
              (with_redis s (Redis.mkState true true
                               (base.delete (getOldKey phone) (Redis.store (redis s))))))
    as (s2 & Hsave & Hstore); [reflexivity | reflexivity |].
  eexists. exists s2. exists (fresh_session cfg now' tenant phone).
  split; [apply (getSession_legacy cfg now tenant phone s old); assumption|].
  split; [reflexivity|].
  split.
  { unfold createSession. rewrite (nonempty_length _ Ht).
    unfold bind. rewrite Hsave. reflexivity. }
  rewrite Hstore. simpl.
  split; [apply lookup_insert_eq|].
  split; [rewrite lookup_insert_ne by exact Hk; apply lookup_delete_eq|].
  repeat split.
Qed.

Lemma legacy_session_is_reset_witness :
  exists s1 s2 session,
    getSession dev_config 5000 "tenant-a" "5511999999999"
               (legacy_stores true true "5511999999999") = (s1, Ok None)
    /\ Redis.store (redis s1)
       = base.delete (getOldKey "5511999999999")
                     (Redis.store (redis (legacy_stores true true "5511999999999")))
    /\ createSession dev_config 6000 "tenant-a" "5511999999999" s1 = (s2, Ok session)
    /\ Redis.store (redis s2) !! getKey "tenant-a" "5511999999999"
       = Some (Redis.mkEntry session (ceil_div_1000 (session_ttlMs dev_config)))
    /\ Redis.store (redis s2) !! getOldKey "5511999999999" = None
    /\ tenantId session = "tenant-a"
    /\ phoneNumber (context session) = "5511999999999"
    /\ currentState (context session) = IDLE
    /\ errorCount (context session) = Some 0%Z
    /\ createdAt session = 6000%Z
    /\ expiresAt session = (6000 + session_ttlMs dev_config)%Z.
Proof.
  apply (legacy_session_is_reset dev_config 5000 6000 "tenant-a" "5511999999999"
           (legacy_stores true true "5511999999999")
           (Redis.mkEntry (legacy_session "5511999999999") 21600%Z)).
  - discriminate.
  - reflexivity.
  - reflexivity.
  - vm_compute. reflexivity.
  - vm_compute. reflexivity.
Defined.

(** C2 (as stated) fails in three places: an empty tenant is refused
    with an error rather than answered with null; when the Redis client
    is not connected (development profile) the legacy key is left where
    it is; and so it is when the server does not answer. *)
Lemma legacy_session_not_always_reset :
  let entry := Redis.mkEntry (legacy_session "5511999999999") 21600%Z in
  let s := legacy_stores true true "5511999999999" in
  let s' := legacy_stores false true "5511999999999" in
  let s'' := legacy_stores true false "5511999999999" in
  (Redis.store (redis s) !! getKey "" "5511999999999" = None
   /\ Redis.store (redis s) !! getOldKey "5511999999999" = Some entry
   /\ getSession dev_config 5000 "" "5511999999999" s
      = (s, Throw (businessError VALIDATION_ERROR "tenant_id is required to get session")))
  /\ (Redis.store (redis s') !! getKey "tenant-a" "5511999999999" = None
      /\ Redis.store (redis s') !! getOldKey "5511999999999" = Some entry
      /\ getSession dev_config 5000 "tenant-a" "5511999999999" s' = (s', Ok None))
  /\ (Redis.store (redis s'') !! getKey "tenant-a" "5511999999999" = None
      /\ Redis.store (redis s'') !! getOldKey "5511999999999" = Some entry
      /\ getSession dev_config 5000 "tenant-a" "5511999999999" s'' = (s'', Ok None)).
Proof.
  repeat split; vm_compute; reflexivity.
Qed.

End SessionProperties.

(** * Properties of the intent classifier *)

Section ClassifierProperties.
Import Chars IntentClassifier Spec.

Lemma is_digit_is_word c : is_digit c = true -> is_word c = true.
Proof.
  unfold is_digit, is_word. intros H. rewrite H. reflexivity.
Qed.

Lemma hyphen_not_digit : is_digit "-"%char = false.
Proof. reflexivity. Qed.

Lemma length_of_chars l : String.length (of_chars l) = List.length l.
Proof. induction l; simpl; congruence. Qed.

Lemma chars_of_chars l : chars (of_chars l) = l.
Proof. induction l; simpl; congruence. Qed.

(** [take_digits n] succeeds exactly on [n] digits followed by anything. *)
Lemma take_digits_app ds rest :
  forallb is_digit ds = true ->
  take_digits (List.length ds) (ds ++ rest) = Some (ds, rest).
Proof.
  induction ds as [|c ds IH]; simpl; [reflexivity|].
  intros H. apply andb_prop in H as [Hc Hds].
  rewrite Hc, (IH Hds). reflexivity.
Qed.

Lemma take_digits_inv n l ds rest :
  take_digits n l = Some (ds, rest) ->
  l = (ds ++ rest)%list /\ List.length ds = n /\ forallb is_digit ds = true.
Proof.
  revert l ds rest. induction n as [|n IH]; simpl; intros l ds rest H.
  - injection H as <- <-. auto.
  - destruct l as [|c r]; [discriminate|].
    destruct (is_digit c) eqn:Hc; [|discriminate].
    destruct (take_digits n r) as [[ds' rest']|] eqn:T; [|discriminate].
    injection H as <- <-.
    destruct (IH _ _ _ T) as (-> & <- & Hd). simpl. rewrite Hc, Hd. auto.
Qed.

Lemma skip_hyphen_shape hy d3 post :
  (hy = [] \/ hy = ["-"%char]) ->
  List.length d3 = 3%nat -> forallb is_digit d3 = true ->
  skip_hyphen (hy ++ d3 ++ post) = (d3 ++ post)%list.
Proof.
  intros [-> | ->] Hl Hd; simpl; [|reflexivity].
  destruct d3 as [|c d3]; [discriminate Hl|]. simpl in *.
  apply andb_prop in Hd as [Hc _].
  destruct (Ascii.eqb c "-") eqn:E; [|reflexivity].
  apply Ascii.eqb_eq in E. subst c. discriminate Hc.
Qed.

Lemma skip_hyphen_inv l :
  exists hy, (hy = [] \/ hy = ["-"%char]) /\ l = (hy ++ skip_hyphen l)%list.
Proof.
  destruct l as [|c r]; simpl.
  - exists []. auto.
  - destruct (Ascii.eqb c "-") eqn:E.
    + apply Ascii.eqb_eq in E. subst c. exists ["-"%char]. auto.
    + exists []. auto.
Qed.

Lemma last_digit_is_word ds :
  ds <> [] -> forallb is_digit ds = true -> is_word_opt (last ds) = true.
Proof.
  induction ds as [|c ds IH]; [congruence|].
  intros _ H. simpl in H. apply andb_prop in H as [Hc Hds].
  destruct ds as [|c' ds'].
  - simpl. apply is_digit_is_word, Hc.
  - change (last (c :: c' :: ds')) with (last (c' :: ds')). apply IH; [discriminate | exact Hds].
Qed.

(** The pattern tried at one position answers the digits of the shape
    found there, and only where the shape is delimited. *)
Lemma match_cep_at_complete prev l d5 hy d3 post :
  cep_shape l d5 hy d3 post ->
  is_word_opt prev = false -> is_word_opt (head post) = false ->
  match_cep_at prev l = Some (d5 ++ d3)%list.
Proof.
  intros (-> & L5 & D5 & Hhy & L3 & D3) Hp Hn.
  unfold match_cep_at.
  assert (Hh : is_word_opt (head (d5 ++ hy ++ d3 ++ post)) = true).
  { destruct d5 as [|c d5]; [discriminate L5|]. simpl in *.
    apply andb_prop in D5 as [Hc _]. apply is_digit_is_word, Hc. }
  unfold word_boundary at 1. rewrite Hp, Hh. simpl xorb. cbv iota.
  rewrite <- L5 at 1. rewrite (take_digits_app _ _ D5).
  rewrite (skip_hyphen_shape _ _ _ Hhy L3 D3).
  rewrite <- L3 at 1. rewrite (take_digits_app _ _ D3).
  unfold word_boundary. rewrite Hn.
  rewrite last_digit_is_word; [reflexivity | | exact D3].
  intros ->. discriminate L3.
Qed.

Lemma match_cep_at_sound prev l d :
  match_cep_at prev l = Some d ->
  exists d5 hy d3 post,
    cep_shape l d5 hy d3 post /\ d = (d5 ++ d3)%list
    /\ is_word_opt prev = false /\ is_word_opt (head post) = false.
Proof.
  unfold match_cep_at. intros H.
  destruct (word_boundary prev (head l)) eqn:B1; [|discriminate].
  destruct (take_digits 5 l) as [[d5 r1]|] eqn:T5; [|discriminate].
  destruct (take_digits 3 (skip_hyphen r1)) as [[d3 r3]|] eqn:T3; [|discriminate].
  destruct (word_boundary (last d3) (head r3)) eqn:B2; [|discriminate].
  injection H as <-.
  apply take_digits_inv in T5 as (-> & L5 & D5).
  apply take_digits_inv in T3 as (E3 & L3 & D3).
  destruct (skip_hyphen_inv r1) as (hy & Hhy & Er1).
  exists d5, hy, d3, r3. repeat split; auto.
  - rewrite Er1 at 1. rewrite E3. reflexivity.
  - unfold word_boundary in B1.
    assert (Hh : is_word_opt (head (d5 ++ r1)) = true).
    { destruct d5 as [|c d5]; [discriminate L5|]. simpl in *.
      apply andb_prop in D5 as [Hc _]. apply is_digit_is_word, Hc. }
    rewrite Hh in B1. destruct (is_word_opt prev); [discriminate B1 | reflexivity].
  - unfold word_boundary in B2.
    rewrite last_digit_is_word in B2; [| intros ->; discriminate L3 | exact D3].
    destruct (is_word_opt (head r3)); [discriminate B2 | reflexivity].
Qed.

Lemma before_cons prev c pre : before prev (c :: pre) = before (Some c) pre.
Proof.
  unfold before. destruct pre as [|c' pre']; [reflexivity|].
  change (last (c :: c' :: pre')) with (last (c' :: pre')).
  destruct (last (c' :: pre')) eqn:E; [reflexivity|].
  apply last_None in E. discriminate E.
Qed.

(** [scan_cep] answers the match at the first position that has one. *)
Lemma scan_cep_first prev l d :
  scan_cep prev l = Some d <->
  exists pre rest,
    l = (pre ++ rest)%list /\ match_cep_at (before prev pre) rest = Some d
    /\ forall pre' rest', l = (pre' ++ rest')%list ->
         (List.length pre' < List.length pre)%nat ->
         match_cep_at (before prev pre') rest' = None.
Proof.
  revert prev d. induction l as [|c l IH]; intros prev d.
  - simpl. split.
    + destruct (match_cep_at prev []) eqn:M; [|discriminate].
      intros [= <-]. exists [], []. repeat split; auto. simpl. intros; lia.
    + intros (pre & rest & E & M & _).
      symmetry in E. apply app_eq_nil in E as [-> ->]. unfold before in M. simpl in M.
      rewrite M. reflexivity.
  - simpl. destruct (match_cep_at prev (c :: l)) as [d0|] eqn:M.
    + split.
      * intros [= <-]. exists [], (c :: l). repeat split; auto. simpl. intros; lia.
      * intros (pre & rest & E & M' & Hmin).
        destruct pre as [|c' pre'].
        -- simpl in E. subst rest. unfold before in M'. simpl in M'. congruence.
        -- specialize (Hmin [] (c :: l) eq_refl). simpl in Hmin.
           unfold before in Hmin at 1. simpl in Hmin.
           rewrite Hmin in M by lia. discriminate M.
    + rewrite IH. split.
      * intros (pre & rest & -> & M' & Hmin).
        exists (c :: pre), rest. split; [reflexivity|]. split.
        -- rewrite before_cons. exact M'.
        -- intros pre' rest' E Hlt. destruct pre' as [|c' pre''].
           ++ simpl in E. subst rest'. exact M.
           ++ simpl in E. injection E as <- E. rewrite before_cons.
              apply Hmin; [exact E | simpl in Hlt; lia].
      * intros (pre & rest & E & M' & Hmin).
        destruct pre as [|c' pre'].
        -- simpl in E. subst rest. unfold before in M'. simpl in M'. congruence.
        -- simpl in E. injection E as <- E. exists pre', rest.
           split; [exact E|]. split; [rewrite <- (before_cons prev); exact M'|].
           intros pre2 rest2 E2 Hlt. rewrite <- (before_cons prev c).
           apply Hmin; [simpl; rewrite E2; reflexivity | simpl; lia].
Qed.

Lemma scan_cep_finds prev pre rest d :
  match_cep_at (before prev pre) rest = Some d ->
  exists d', scan_cep prev (pre ++ rest) = Some d'.
Proof.
  revert prev. induction pre as [|c pre IH]; intros prev M.
  - unfold before in M. simpl in M. simpl.
    destruct rest; simpl; rewrite M; eauto.
  - simpl. destruct (match_cep_at prev (c :: pre ++ rest)); [eauto|].
    apply IH. rewrite <- (before_cons prev). exact M.
Qed.

Lemma before_none pre : before None pre = last pre.
Proof. unfold before. destruct (last pre); reflexivity. Qed.

Lemma cep_delimited_match text pre code :
  cep_delimited_at text pre code ->
  exists rest d, chars text = (pre ++ rest)%list
                 /\ match_cep_at (before None pre) rest = Some d /\ code = of_chars d.
Proof.
  intros (d5 & hy & d3 & post & rest & E & Sh & Hp & Hn & ->).
  exists rest, (d5 ++ d3)%list. split; [exact E|]. split; [|reflexivity].
  rewrite before_none. eapply match_cep_at_complete; eauto.
Qed.

Lemma extractCEP_leftmost text :
  (exists pre code, cep_delimited_at text pre code) ->
  exists code,
    extractCEP text = Some code /\ leftmost_cep text code
    /\ String.length code = 8%nat /\ forallb is_digit (chars code) = true.
Proof.
  intros (pre0 & code0 & Hocc).
  destruct (cep_delimited_match _ _ _ Hocc) as (rest0 & d0 & E0 & M0 & _).
  destruct (scan_cep_finds None pre0 rest0 d0 M0) as (d & Hscan).
  rewrite <- E0 in Hscan.
  exists (of_chars d). unfold extractCEP. rewrite Hscan. split; [reflexivity|].
  apply scan_cep_first in Hscan as (pre & rest & E & M & Hmin).
  destruct (match_cep_at_sound _ _ _ M) as (d5 & hy & d3 & post & Sh & -> & Hp & Hn).
  split; [|split].
  - exists pre. split.
    + exists d5, hy, d3, post, rest. rewrite before_none in Hp. repeat split; auto;
        try apply Sh.
    + intros pre' code' Hocc'.
      destruct (cep_delimited_match _ _ _ Hocc') as (rest' & d' & E' & M' & _).
      destruct (Nat.le_gt_cases (List.length pre) (List.length pre')) as [Hle | Hlt];
        [exact Hle|].
      rewrite (Hmin pre' rest' E' Hlt) in M'. discriminate M'.
  - rewrite length_of_chars. destruct Sh as (_ & L5 & _ & _ & L3 & _).
    rewrite length_app, L5, L3. reflexivity.
  - rewrite chars_of_chars. destruct Sh as (_ & _ & D5 & _ & _ & D3).
    rewrite forallb_app, D5, D3. reflexivity.
Qed.

(** C9 (as amended): in a message whose normalised text holds no reset,
    cancel or help keyword, a postal code delimited by word boundaries
    (no letter, digit or underscore right before or right after it)
    makes [classify] answer PROVIDE_CEP with confidence 1 and the eight
    digits of the leftmost such occurrence, whatever other keywords the
    message holds. *)
Theorem classify_cep_priority (normalize : string -> string) (message : string) :
  isResetIntent (normalize message) = false ->
  isCancelIntent (normalize message) = false ->
  isHelpIntent (normalize message) = false ->
  (exists pre code, cep_delimited_at (normalize message) pre code) ->
  exists code,
    classify normalize message
      = mkIntent PROVIDE_CEP 1 (Some (mkExtracted (Some code) None))
    /\ leftmost_cep (normalize message) code
    /\ String.length code = 8%nat
    /\ forallb is_digit (chars code) = true.
Proof.
  intros Hr Hc Hh Hocc.
  destruct (extractCEP_leftmost _ Hocc) as (code & Hx & Hleft & Hlen & Hdig).
  exists code. unfold classify. rewrite Hr, Hc, Hh, Hx. auto.
Qed.

Lemma classify_cep_priority_witness :
  exists code,
    classify normalize_ascii "Frete para 01001-000, boleto ou pix?"
      = mkIntent PROVIDE_CEP 1 (Some (mkExtracted (Some code) None))
    /\ leftmost_cep (normalize_ascii "Frete para 01001-000, boleto ou pix?") code
    /\ String.length code = 8%nat
    /\ forallb is_digit (chars code) = true.
Proof.
  apply (classify_cep_priority normalize_ascii "Frete para 01001-000, boleto ou pix?").
  - reflexivity.
  - reflexivity.
  - reflexivity.
  - exists (chars "frete para "), "01001000".
    exists (chars "01001"), ["-"%char], (chars "000"), (chars ", boleto ou pix?").
    exists (chars "01001-000, boleto ou pix?").
    repeat split; try reflexivity. right. reflexivity.
Defined.

(** C9 (as stated) fails: digits that fit the pattern but touch a letter
    or a further digit are not taken for a postal code, and the keyword
    intents (or UNKNOWN) are answered instead. *)
Lemma classify_cep_needs_word_boundary :
  (isResetIntent (normalize_ascii "frete cep01001000") = false
   /\ isCancelIntent (normalize_ascii "frete cep01001000") = false
   /\ isHelpIntent (normalize_ascii "frete cep01001000") = false
   /\ cep_pattern_occurs (normalize_ascii "frete cep01001000")
   /\ classify normalize_ascii "frete cep01001000" = mkIntent FREIGHT_QUERY (9 # 10) None)
  /\ (cep_pattern_occurs (normalize_ascii "123456789")
      /\ classify normalize_ascii "123456789" = mkIntent UNKNOWN 0 None).
Proof.
  split; [split; [reflexivity | split; [reflexivity | split; [reflexivity | split]]] | split].
  - exists (chars "frete cep"), (chars "01001"), [], (chars "000"), [], (chars "01001000").
    repeat split; try reflexivity. left. reflexivity.
  - reflexivity.
  - exists [], (chars "12345"), [], (chars "678"), (chars "9"), (chars "123456789").
    repeat split; try reflexivity. left. reflexivity.
  - reflexivity.
Qed.

End ClassifierProperties.

(** * Properties of [sort] and [slice] *)

Section SortProperties.
Import JsArray.
Context {A : Type}.
Variable cmp : A -> A -> Q.

Hypothesis cmp_total : forall a b, before_eq cmp a b \/ before_eq cmp b a.
Hypothesis cmp_trans :
  forall a b c, before_eq cmp a b -> before_eq cmp b c -> before_eq cmp a c.

Lemma insert_by_perm x l : Permutation (insert_by cmp x l) (x :: l).
Proof.
  induction l as [|y r IH]; simpl; [reflexivity|].
  destruct (Qle_bool (cmp x y) 0); [reflexivity|].
  rewrite IH. apply perm_swap.
Qed.

Lemma sort_by_perm l : Permutation (sort_by cmp l) l.
Proof.
  induction l as [|x l IH]; simpl; [reflexivity|].
  rewrite insert_by_perm. apply perm_skip, IH.
Qed.

Lemma insert_by_sorted x l :
  StronglySorted (before_eq cmp) l -> StronglySorted (before_eq cmp) (insert_by cmp x l).
Proof.
  induction l as [|y r IH]; simpl; intros S.
  - constructor; constructor.
  - destruct (Qle_bool (cmp x y) 0) eqn:E.
    + constructor; [exact S|]. constructor; [exact E|].
      apply StronglySorted_inv in S as [_ Hall].
      eapply Forall_impl; [exact Hall|]. intros b Hb. eapply cmp_trans; eauto.
    + apply StronglySorted_inv in S as [Sr Hall].
      constructor; [apply IH, Sr|].
      assert (Hyx : before_eq cmp y x).
      { destruct (cmp_total x y) as [H|H]; [unfold before_eq in H; congruence | exact H]. }
      eapply Permutation_Forall; [symmetry; apply insert_by_perm|].
      constructor; assumption.
Qed.

Lemma sort_by_sorted l : StronglySorted (before_eq cmp) (sort_by cmp l).
Proof.
  induction l as [|x l IH]; simpl; [constructor | apply insert_by_sorted, IH].
Qed.

(** The head of the sorted array may stand before every element. *)
Lemma sort_by_head_min l x :
  head (sort_by cmp l) = Some x ->
  In x l /\ forall y, In y l -> before_eq cmp x y.
Proof.
  intros H. pose proof (sort_by_sorted l) as S. pose proof (sort_by_perm l) as P.
  destruct (sort_by cmp l) as [|z r] eqn:E; [discriminate|]. injection H as ->.
  split.
  - eapply Permutation_in; [exact P | left; reflexivity].
  - intros y Hy. apply (Permutation_in _ (Permutation_sym P)) in Hy.
    destruct Hy as [<- | Hy].
    + destruct (cmp_total x x); assumption.
    + apply StronglySorted_inv in S as [_ Hall].
      rewrite List.Forall_forall in Hall. apply Hall, Hy.
Qed.

Lemma sort_by_nonempty l : l <> [] -> sort_by cmp l <> [].
Proof.
  intros Hl E. pose proof (sort_by_perm l) as P. rewrite E in P.
  apply Permutation_nil in P. contradiction.
Qed.

End SortProperties.

(** * Properties of the ranking engine *)

Section RankingProperties.
Import JsArray Ranking Spec.
Local Open Scope Q_scope.

(** A comparator that subtracts keys orders by the key. *)
Lemma key_before {A} (key : A -> Q) (a b : A) :
  before_eq (fun x y => key x - key y) a b <-> key a <= key b.
Proof.
  unfold before_eq. rewrite Qle_bool_iff. split; intros H; lra.
Qed.

Lemma key_total {A} (key : A -> Q) (a b : A) :
  before_eq (fun x y => key x - key y) a b \/ before_eq (fun x y => key x - key y) b a.
Proof.
  rewrite !key_before. destruct (Qlt_le_dec (key a) (key b)); [left | right]; lra.
Qed.

Lemma key_trans {A} (key : A -> Q) (a b c : A) :
  before_eq (fun x y => key x - key y) a b ->
  before_eq (fun x y => key x - key y) b c ->
  before_eq (fun x y => key x - key y) a c.
Proof. rewrite !key_before. lra. Qed.

(** The head of an array sorted by a key holds the least key. *)
Lemma sort_by_key_head {A} (key : A -> Q) (l : list A) (x : A) :
  head (sort_by (fun a b => key a - key b) l) = Some x ->
  In x l /\ forall y, In y l -> key x <= key y.
Proof.
  intros H.
  destruct (sort_by_head_min _ (key_total key) (key_trans key) l x H) as [Hin Hmin].
  split; [exact Hin|]. intros y Hy. apply key_before, Hmin, Hy.
Qed.

Lemma working_options_nonempty options context :
  options <> [] -> working_options options context <> [].
Proof.
  destruct options; [congruence|]. destruct context; simpl; discriminate.
Qed.


Lemma deliveryDays_with_economics c o : deliveryDays (with_economics c o) = deliveryDays o.
Proof. reflexivity. Qed.

(** Every option has its working copy, with the same price and delay. *)
Lemma working_options_keys options context o :
  In o options ->
  exists o', In o' (working_options options context)
             /\ price o' = price o /\ deliveryDays o' = deliveryDays o.
Proof.
  intros Hin. destruct context as [c|]; simpl.
  - exists (with_economics c o). split; [apply in_map, Hin | auto].
  - exists o. auto.
Qed.

(** The object returned for a non-empty array. *)
Lemma calculateRanking_fields options strategy context :
  options <> [] ->
  exists cheapest fastest best ranked,
    head (sort_by by_price (working_options options context)) = Some cheapest
    /\ head (sort_by by_time (working_options options context)) = Some fastest
    /\ head ranked = Some best
    /\ calculateRanking options strategy context =
         [("options", VRanked ranked);
          ("bestOption", VScored best);
          ("cheapestOption", VOption cheapest);
          ("fastestOption", VOption fastest);
          ("bestCostBenefit", VScored best)].
Proof.
  intros Hne.
  pose proof (working_options_nonempty options context Hne) as Hw.
  destruct options as [|o os]; [congruence|].
  unfold calculateRanking.
  destruct (sort_by by_price (working_options (o :: os) context)) as [|c sp] eqn:Ep.
  { exfalso. revert Ep. apply sort_by_nonempty, Hw. }
  destruct (sort_by by_time (working_options (o :: os) context)) as [|f st] eqn:Et.
  { exfalso. revert Et. apply sort_by_nonempty, Hw. }
  cbv zeta.
  match goal with
  | |- context [sort_by by_score ?l] =>
      destruct (sort_by by_score l) as [|b rk] eqn:Er
  end.
  { exfalso. revert Er. apply sort_by_nonempty.
    destruct (working_options (o :: os) context); [congruence | discriminate]. }
  exists c, f, b, (b :: rk). repeat split.
Qed.

(** The normalisers and the ranked array of a non-empty call. *)
Lemma calculateRanking_ranked_inv options strategy context :
  options <> [] ->
  exists cheapest fastest maxMargin best rest,
    head (sort_by by_price (working_options options context)) = Some cheapest
    /\ head (sort_by by_time (working_options options context)) = Some fastest
    /\ sort_by by_score
         (map (score_option strategy context (price cheapest) (deliveryDays fastest) maxMargin)
              (working_options options context)) = best :: rest
    /\ calculateRanking options strategy context =
         [("options", VRanked (best :: rest));
          ("bestOption", VScored best);
          ("cheapestOption", VOption cheapest);
          ("fastestOption", VOption fastest);
          ("bestCostBenefit", VScored best)].
Proof.
  intros Hne.
  pose proof (working_options_nonempty options context Hne) as Hw.
  destruct options as [|o os]; [congruence|].
  unfold calculateRanking.
  destruct (sort_by by_price (working_options (o :: os) context)) as [|c sp] eqn:Ep.
  { exfalso. revert Ep. apply sort_by_nonempty, Hw. }
  destruct (sort_by by_time (working_options (o :: os) context)) as [|f st] eqn:Et.
  { exfalso. revert Et. apply sort_by_nonempty, Hw. }
  cbv zeta.
  match goal with
  | |- context [sort_by by_score (map (score_option _ _ _ _ ?mm) _)] =>
      exists c, f, mm
  end.
  match goal with
  | |- context [sort_by by_score ?l] =>
      destruct (sort_by by_score l) as [|b rk] eqn:Er
  end.
  { exfalso. revert Er. apply sort_by_nonempty.
    destruct (working_options (o :: os) context); [congruence | discriminate]. }
  exists b, rk. repeat split.
Qed.

Lemma option_of_score_option strategy context mp mt mm l :
  map option_of (map (score_option strategy context mp mt mm) l) = l.
Proof. induction l; simpl; congruence. Qed.

(** With a context, every working option is an input option with its
    economics attached. *)
Lemma working_options_economics options ctx o :
  In o (working_options options (Some ctx)) ->
  exists o0 m, In o0 options /\ o = with_economics ctx o0 /\ economics o = Some m.
Proof.
  simpl. intros H. apply in_map_iff in H as (o0 & <- & H0).
  exists o0. eexists. split; [exact H0|]. split; reflexivity.
Qed.

(** C7 (as amended): for a non-empty array the ranking reports a
    cheapest option, of least price, and a fastest option, of least
    delivery time; both are read off the options before any score is
    computed, so they are the same under every strategy.  With an
    economic context every option of the result, the cheapest and the
    fastest included, is an input option with its economics attached.
    The returned object has exactly the fields options, bestOption,
    cheapestOption, fastestOption and bestCostBenefit: the option of
    best margin is used for normalising the score only and is not
    reported. *)
Theorem calculateRanking_extremes (options : list FreightOption)
        (strategy : RankingStrategy) (context : option EconomicContext) :
  options <> [] ->
  exists cheapest fastest,
    cheapestOption (calculateRanking options strategy context) = Some cheapest
    /\ fastestOption (calculateRanking options strategy context) = Some fastest
    /\ In cheapest (working_options options context)
    /\ (forall o, In o options -> price cheapest <= price o)
    /\ In fastest (working_options options context)
    /\ (forall o, In o options -> deliveryDays fastest <= deliveryDays o)
    /\ field_names (calculateRanking options strategy context)
       = ["options"; "bestOption"; "cheapestOption"; "fastestOption"; "bestCostBenefit"]
    /\ (forall strategy',
          cheapestOption (calculateRanking options strategy' context) = Some cheapest
          /\ fastestOption (calculateRanking options strategy' context) = Some fastest)
    /\ (forall ctx, context = Some ctx ->
          Permutation (map option_of
                           (ranked_options (calculateRanking options strategy context)))
                      (map (with_economics ctx) options)
          /\ (forall o,
                In o (cheapest :: fastest
                        :: map option_of
                             (ranked_options (calculateRanking options strategy context))) ->
                exists o0 m,
                  In o0 options /\ o = with_economics ctx o0 /\ economics o = Some m)).
Proof.
  intros Hne.
  destruct (calculateRanking_ranked_inv options strategy context Hne)
    as (c & f & mm & b & rk & Hc & Hf & Hs & Hr).
  destruct (sort_by_key_head price _ _ Hc) as [Hcin Hcmin].
  destruct (sort_by_key_head deliveryDays _ _ Hf) as [Hfin Hfmin].
  exists c, f. rewrite Hr.
  split; [reflexivity|]. split; [reflexivity|]. split; [exact Hcin|].
  split.
  { intros o Ho. destruct (working_options_keys options context o Ho) as (o' & Ho' & Hp & _).
    rewrite <- Hp. apply Hcmin, Ho'. }
  split; [exact Hfin|].
  split.
  { intros o Ho. destruct (working_options_keys options context o Ho) as (o' & Ho' & _ & Hd).
    rewrite <- Hd. apply Hfmin, Ho'. }
  split; [reflexivity|].
  split.
  { intros strategy'.
    destruct (calculateRanking_fields options strategy' context Hne)
      as (c' & f' & b' & rk' & Hc' & Hf' & Hb' & Hr').
    rewrite Hr'. rewrite Hc in Hc'. rewrite Hf in Hf'.
    injection Hc' as <-. injection Hf' as <-. split; reflexivity. }
  intros ctx ->.
  assert (Hp : Permutation (map option_of (b :: rk)) (working_options options (Some ctx))).
  { rewrite <- Hs. rewrite (Permutation_map option_of (sort_by_perm by_score _)).
    rewrite option_of_score_option. reflexivity. }
  unfold ranked_options. simpl get_field. split; [exact Hp|].
  intros o [<- | [<- | Ho]]; apply working_options_economics.
  - exact Hcin.
  - exact Hfin.
  - eapply Permutation_in; [exact Hp | exact Ho].
Qed.

Lemma calculateRanking_extremes_witness :
  exists cheapest fastest,
    cheapestOption (calculateRanking sample_candidates DEFAULT_STRATEGY (Some sample_economics))
      = Some cheapest
    /\ fastestOption (calculateRanking sample_candidates DEFAULT_STRATEGY (Some sample_economics))
       = Some fastest
    /\ In cheapest (working_options sample_candidates (Some sample_economics))
    /\ (forall o, In o sample_candidates -> price cheapest <= price o)
    /\ In fastest (working_options sample_candidates (Some sample_economics))
    /\ (forall o, In o sample_candidates -> deliveryDays fastest <= deliveryDays o)
    /\ field_names (calculateRanking sample_candidates DEFAULT_STRATEGY (Some sample_economics))
       = ["options"; "bestOption"; "cheapestOption"; "fastestOption"; "bestCostBenefit"]
    /\ (forall strategy',
          cheapestOption (calculateRanking sample_candidates strategy' (Some sample_economics))
            = Some cheapest
          /\ fastestOption (calculateRanking sample_candidates strategy' (Some sample_economics))
             = Some fastest)
    /\ (forall ctx, Some sample_economics = Some ctx ->
          Permutation
            (map option_of
                 (ranked_options
                    (calculateRanking sample_candidates DEFAULT_STRATEGY (Some sample_economics))))
            (map (with_economics ctx) sample_candidates)
          /\ (forall o,
                In o (cheapest :: fastest
                        :: map option_of
                             (ranked_options
                                (calculateRanking sample_candidates DEFAULT_STRATEGY
                                                  (Some sample_economics)))) ->
                exists o0 m,
                  In o0 sample_candidates /\ o = with_economics ctx o0
                  /\ economics o = Some m)).
Proof.
  apply (calculateRanking_extremes sample_candidates DEFAULT_STRATEGY (Some sample_economics)).
  discriminate.
Defined.

(** The ranking scenario: the cheapest is the option priced 20, the
    fastest the one delivered in 3 days, and the best under the default
    weights is the fastest one, not the cheapest. *)
Example ranking_scenario :
  let r := calculateRanking sample_candidates DEFAULT_STRATEGY None in
  (id <$> cheapestOption r) = Some "a"
  /\ (id <$> fastestOption r) = Some "b"
  /\ ((fun o => id (option_of o)) <$> bestOption r) = Some "b".
Proof. repeat split. Qed.

(** C7 (as stated) fails: with an economic context the returned object
    has no field for the option of best margin, although that option is
    computed on the way. *)
Lemma calculateRanking_reports_no_best_margin :
  let r := calculateRanking sample_candidates DEFAULT_STRATEGY (Some sample_economics) in
  get_field "bestMargin" r = None
  /\ get_field "bestMarginOption" r = None
  /\ field_names r
     = ["options"; "bestOption"; "cheapestOption"; "fastestOption"; "bestCostBenefit"]
  /\ (id <$> head (sort_by by_margin_desc
                           (working_options sample_candidates (Some sample_economics))))
     = Some "a".
Proof. repeat split. Qed.

End RankingProperties.

(** * Properties of the freight service *)

Section FreightProperties.
Import JsArray Freight Spec.
Local Open Scope Q_scope.

(** The three ranges of [decideStrategy]. *)
Lemma decideStrategy_ranges (totalWeight : Q) :
  (totalWeight <= 10 -> strategy (decideStrategy totalWeight) = MELHORENVIO_ONLY)
  /\ (10 < totalWeight <= 15 -> strategy (decideStrategy totalWeight) = BOTH)
  /\ (15 < totalWeight -> strategy (decideStrategy totalWeight) = TABELA_ONLY).
Proof.
  unfold decideStrategy.
  destruct (Qle_bool totalWeight 10) eqn:E10; destruct (Qle_bool totalWeight 15) eqn:E15;
    simpl; repeat split; try reflexivity; intros;
    try apply Qle_bool_iff in E10; try apply Qle_bool_iff in E15;
    try (assert (~ totalWeight <= 10) by (rewrite <- Qle_bool_iff; congruence));
    try (assert (~ totalWeight <= 15) by (rewrite <- Qle_bool_iff; congruence));
    try reflexivity; exfalso; lra.
Qed.

(** C6: the strategy follows the two thresholds: up to 10 kg only Melhor
    Envio is queried, above 10 and up to 15 kg both providers are, above
    15 kg only the table provider is; so it is at 10, 10.01, 15 and
    15.01 kg. *)
Theorem decideStrategy_thresholds (totalWeight : Q) :
  (totalWeight <= 10 ->
     strategy (decideStrategy totalWeight) = MELHORENVIO_ONLY
     /\ queries_melhorenvio MELHORENVIO_ONLY = true
     /\ queries_tabela MELHORENVIO_ONLY = false)
  /\ (10 < totalWeight <= 15 ->
        strategy (decideStrategy totalWeight) = BOTH
        /\ queries_melhorenvio BOTH = true /\ queries_tabela BOTH = true)
  /\ (15 < totalWeight ->
        strategy (decideStrategy totalWeight) = TABELA_ONLY
        /\ queries_melhorenvio TABELA_ONLY = false /\ queries_tabela TABELA_ONLY = true)
  /\ strategy (decideStrategy 10) = MELHORENVIO_ONLY
  /\ strategy (decideStrategy (1001 # 100)) = BOTH
  /\ strategy (decideStrategy 15) = BOTH
  /\ strategy (decideStrategy (1501 # 100)) = TABELA_ONLY
  /\ wd_totalWeight (decideStrategy totalWeight) = totalWeight.
Proof.
  destruct (decideStrategy_ranges totalWeight) as (H1 & H2 & H3).
  split; [intros H; rewrite (H1 H); auto|].
  split; [intros H; rewrite (H2 H); auto|].
  split; [intros H; rewrite (H3 H); auto|].
  repeat split.
  unfold decideStrategy. repeat destruct (Qle_bool _ _); reflexivity.
Qed.

Lemma Qle_bool_false a b : Qle_bool a b = false <-> b < a.
Proof.
  split; intros H.
  - apply Qnot_le_lt. rewrite <- Qle_bool_iff. congruence.
  - destruct (Qle_bool a b) eqn:E; [|reflexivity]. apply Qle_bool_iff in E. lra.
Qed.

(** The comparator of [sortAndLimitOptions] is ascending price, then
    ascending delivery time. *)
Lemma by_price_then_time_before a b :
  before_eq by_price_then_time a b <-> price_then_time a b.
Proof.
  unfold before_eq, by_price_then_time, price_then_time.
  destruct (Qeq_bool (price a) (price b)) eqn:E; simpl.
  - apply Qeq_bool_iff in E. rewrite Qle_bool_iff. split; [intros H; right; split; lra|].
    intros [H | [_ H]]; lra.
  - apply Qeq_bool_neq in E. rewrite Qle_bool_iff. split; [intros H; left; lra|].
    intros [H | [H _]]; [lra | contradiction].
Qed.

Lemma by_price_then_time_total a b :
  before_eq by_price_then_time a b \/ before_eq by_price_then_time b a.
Proof.
  rewrite !by_price_then_time_before. unfold price_then_time.
  destruct (Q_dec (price a) (price b)) as [[H | H] | H]; [left; left; lra | right; left; lra |].
  destruct (Qlt_le_dec (deliveryTime b) (deliveryTime a)).
  - right. right. split; [lra | lra].
  - left. right. split; [lra | lra].
Qed.

Lemma by_price_then_time_trans a b c :
  before_eq by_price_then_time a b -> before_eq by_price_then_time b c ->
  before_eq by_price_then_time a c.
Proof.
  rewrite !by_price_then_time_before. unfold price_then_time.
  intros [H1 | [H1 H1']] [H2 | [H2 H2']]; [left | left | left | right; split]; lra.
Qed.

Lemma StronglySorted_firstn {A} (R : A -> A -> Prop) n l :
  StronglySorted R l -> StronglySorted R (firstn n l).
Proof.
  intros S. revert n. induction S as [|x l S IH Hall]; intros [|n]; simpl; try constructor.
  - apply IH.
  - rewrite List.Forall_forall in *. intros y Hy. apply Hall.
    rewrite <- (firstn_skipn n l). apply in_or_app. left. exact Hy.
Qed.

Lemma StronglySorted_impl {A} (R R' : A -> A -> Prop) l :
  (forall a b, R a b -> R' a b) -> StronglySorted R l -> StronglySorted R' l.
Proof.
  intros HR S. induction S as [|x l S IH Hall]; constructor; [exact IH|].
  eapply Forall_impl; [exact Hall|]. intros y. apply HR.
Qed.

Lemma In_firstn {A} n (l : list A) x : In x (firstn n l) -> In x l.
Proof.
  intros H. rewrite <- (firstn_skipn n l). apply in_or_app. left. exact H.
Qed.

Section Service.
Variable cfg : AppConfig.
Variable melhorEnvio : ShippingQuoteRequest -> Result (list FreightOption).
Variable numberToString : Q -> string.

(** A well-formed request passes [validateRequest]. *)
Lemma validateRequest_ok (req : FreightRequest) (w : World) :
  Chars.is_cep8 (destinationCep req) = true ->
  0 < quantity req <= 9999 ->
  validateRequest req w = (w, Ok tt).
Proof.
  intros Hc [Hq1 Hq2]. unfold validateRequest. rewrite Hc. simpl.
  apply Qle_bool_false in Hq1. apply Qle_bool_iff in Hq2. rewrite Hq1, Hq2. reflexivity.
Qed.

(** [fetchQuotes] merges what the queried providers answer; an empty
    merge is the NO_FREIGHT_OPTIONS business error. *)
Lemma fetchQuotes_merge req tw s me (w : World) :
  melhorenvio_answer melhorEnvio req tw s = Ok me ->
  fetchQuotes melhorEnvio req tw s w =
    (w, match (me ++ tabela_answer tw s)%list with
        | [] => Throw (businessError NO_FREIGHT_OPTIONS
                         "No freight options available for this destination")
        | _ :: _ => Ok (me ++ tabela_answer tw s)%list
        end).
Proof.
  unfold melhorenvio_answer, tabela_answer, fetchQuotes, try_catch, bind. intros Hme.
  destruct (queries_melhorenvio s).
  - rewrite Hme. unfold ret.
    destruct (me ++ _)%list; reflexivity.
  - injection Hme as <-. unfold ret. simpl.
    destruct (if queries_tabela s then _ else _); reflexivity.
Qed.

(** A well-formed request that misses the cache and gets an empty merge
    fails before anything is written. *)
Lemma calculateFreight_empty_merge (req : FreightRequest) (w : World) :
  Chars.is_cep8 (destinationCep req) = true ->
  0 < quantity req <= 9999 ->
  Redis.get (cache w) (cache_key numberToString req (total_weight cfg req)) = None ->
  melhorenvio_answer melhorEnvio req (total_weight cfg req)
                     (strategy (decideStrategy (total_weight cfg req))) = Ok [] ->
  tabela_answer (total_weight cfg req)
                (strategy (decideStrategy (total_weight cfg req))) = [] ->
  calculateFreight cfg melhorEnvio numberToString req w =
    (w, Throw (businessError NO_FREIGHT_OPTIONS
                 "No freight options available for this destination")).
Proof.
  intros Hc Hq Hmiss Hme Htab.
  unfold calculateFreight, try_catch, bind.
  rewrite (validateRequest_ok req w Hc Hq).
  unfold getCachedResult, gets. rewrite Hmiss.
  rewrite (fetchQuotes_merge _ _ _ _ _ Hme). rewrite Htab. reflexivity.
Qed.

(** C8: when the request is well formed, the cache has no entry for it
    and every provider the strategy queries answers an empty list, the
    call fails with the NO_FREIGHT_OPTIONS business error and leaves the
    world as it found it: nothing is written to the cache and no
    simulation row is added. *)
Theorem calculateFreight_no_options (req : FreightRequest) (w : World) :
  Chars.is_cep8 (destinationCep req) = true ->
  0 < quantity req <= 9999 ->
  Redis.get (cache w) (cache_key numberToString req (total_weight cfg req)) = None ->
  melhorenvio_answer melhorEnvio req (total_weight cfg req)
                     (strategy (decideStrategy (total_weight cfg req))) = Ok [] ->
  tabela_answer (total_weight cfg req)
                (strategy (decideStrategy (total_weight cfg req))) = [] ->
  calculateFreight cfg melhorEnvio numberToString req w =
    (w, Throw (businessError NO_FREIGHT_OPTIONS
                 "No freight options available for this destination"))
  /\ Redis.store (cache (fst (calculateFreight cfg melhorEnvio numberToString req w))) = Redis.store (cache w)
  /\ simulations (fst (calculateFreight cfg melhorEnvio numberToString req w)) = simulations w.
Proof.
  intros Hc Hq Hmiss Hme Htab.
  rewrite (calculateFreight_empty_merge req w Hc Hq Hmiss Hme Htab). split; [|split].
  - reflexivity.
  - reflexivity.
  - reflexivity.
Qed.

(** C10: a well-formed request that misses the cache and weighs more
    than 30 kg in total always fails with the NO_FREIGHT_OPTIONS business
    error, whatever the remote provider would answer: the strategy is
    the table provider alone, and the table has no quote above 30 kg. *)
Theorem calculateFreight_over_30kg (req : FreightRequest) (w : World) :
  Chars.is_cep8 (destinationCep req) = true ->
  0 < quantity req <= 9999 ->
  Redis.get (cache w) (cache_key numberToString req (total_weight cfg req)) = None ->
  30 < total_weight cfg req ->
  strategy (decideStrategy (total_weight cfg req)) = TABELA_ONLY
  /\ tabela_calculateShipping (total_weight cfg req) = []
  /\ calculateFreight cfg melhorEnvio numberToString req w =
       (w, Throw (businessError NO_FREIGHT_OPTIONS
                    "No freight options available for this destination")).
Proof.
  intros Hc Hq Hmiss Hw.
  assert (Hs : strategy (decideStrategy (total_weight cfg req)) = TABELA_ONLY).
  { apply (decideStrategy_ranges (total_weight cfg req)). lra. }
  assert (Ht : tabela_calculateShipping (total_weight cfg req) = []).
  { unfold tabela_calculateShipping.
    assert (E : Qle_bool (total_weight cfg req) 30 = false) by (apply Qle_bool_false; exact Hw).
    rewrite E. reflexivity. }
  split; [exact Hs|]. split; [exact Ht|].
  apply calculateFreight_empty_merge; auto.
  - rewrite Hs. reflexivity.
  - rewrite Hs. unfold tabela_answer. simpl. exact Ht.
Qed.

(** The path of a request that is answered: validation, cache miss,
    merge, sort and cap, persistence, cache write. *)
Lemma calculateFreight_answered (req : FreightRequest) (w : World)
      (me : list FreightOption) (best : FreightOption) (rest : list FreightOption) :
  Chars.is_cep8 (destinationCep req) = true ->
  0 < quantity req <= 9999 ->
  Redis.get (cache w) (cache_key numberToString req (total_weight cfg req)) = None ->
  melhorenvio_answer melhorEnvio req (total_weight cfg req)
                     (strategy (decideStrategy (total_weight cfg req))) = Ok me ->
  database_up w = true ->
  sortAndLimitOptions cfg
    (me ++ tabela_answer (total_weight cfg req)
                         (strategy (decideStrategy (total_weight cfg req))))%list
    = best :: rest ->
  exists w',
    calculateFreight cfg melhorEnvio numberToString req w =
      (w', Ok (mkResult true (best :: rest) (total_weight cfg req) req (now w)))
    /\ List.length (simulations w') = S (List.length (simulations w)).
Proof.
  intros Hc Hq Hmiss Hme Hdb Hsorted.
  unfold calculateFreight, try_catch, bind.
  rewrite (validateRequest_ok req w Hc Hq).
  unfold getCachedResult, gets. rewrite Hmiss.
  rewrite (fetchQuotes_merge _ _ _ _ _ Hme).
  destruct (me ++ tabela_answer _ _)%list as [|o os] eqn:Em.
  { unfold sortAndLimitOptions, slice0 in Hsorted. simpl in Hsorted.
    rewrite !firstn_nil in Hsorted. destruct (_ <? _)%Z; discriminate Hsorted. }
  rewrite Hsorted.
  unfold persistSimulation, try_catch, saveSimulation. simpl. rewrite Hdb.
  unfold cacheResult. simpl.
  destruct (Redis.set _ _ _ _ _) as [c b]. simpl.
  eexists. split; [reflexivity|]. simpl. rewrite length_app. simpl. lia.
Qed.

(** C1 (as amended): a well-formed request that misses the cache, whose
    merged provider answers are not empty, with the database up and a cap
    of at least one, is answered with the merged candidates sorted by
    ascending price (ties by ascending delivery time) and cut to the
    cap.  The head of the answer is a globally cheapest candidate; the
    answer carries nothing but that capped list. *)
Theorem calculateFreight_price_order (req : FreightRequest) (w : World)
        (me : list FreightOption) :
  Chars.is_cep8 (destinationCep req) = true ->
  0 < quantity req <= 9999 ->
  Redis.get (cache w) (cache_key numberToString req (total_weight cfg req)) = None ->
  melhorenvio_answer melhorEnvio req (total_weight cfg req)
                     (strategy (decideStrategy (total_weight cfg req))) = Ok me ->
  (me ++ tabela_answer (total_weight cfg req)
                       (strategy (decideStrategy (total_weight cfg req))))%list <> [] ->
  database_up w = true ->
  (1 <= freight_maxOptionsToReturn cfg)%Z ->
  let merged :=
    (me ++ tabela_answer (total_weight cfg req)
                         (strategy (decideStrategy (total_weight cfg req))))%list in
  exists w' res best,
    calculateFreight cfg melhorEnvio numberToString req w = (w', Ok res)
    /\ options res
       = firstn (Z.to_nat (freight_maxOptionsToReturn cfg)) (sort_by by_price_then_time merged)
    /\ StronglySorted price_then_time (options res)
    /\ List.length (options res)
       = Nat.min (Z.to_nat (freight_maxOptionsToReturn cfg)) (List.length merged)
    /\ (forall o, In o (options res) -> In o merged)
    /\ head (options res) = Some best
    /\ (forall o, In o merged -> price best <= price o)
    /\ totalWeight res = total_weight cfg req.
Proof.
  intros Hc Hq Hmiss Hme Hne Hdb Hcap merged.
  assert (Hslice : sortAndLimitOptions cfg merged
                   = firstn (Z.to_nat (freight_maxOptionsToReturn cfg))
                            (sort_by by_price_then_time merged)).
  { unfold sortAndLimitOptions, slice0.
    destruct (freight_maxOptionsToReturn cfg <? 0)%Z eqn:E; [lia | reflexivity]. }
  pose proof (sort_by_nonempty by_price_then_time merged Hne) as Hsne.
  destruct (sort_by by_price_then_time merged) as [|best sorted] eqn:Es; [congruence|].
  destruct (Z.to_nat (freight_maxOptionsToReturn cfg)) as [|n] eqn:En; [lia|].
  simpl in Hslice.
  destruct (calculateFreight_answered req w me best (firstn n sorted)
              Hc Hq Hmiss Hme Hdb Hslice) as (w' & Hcalc & _).
  exists w', (mkResult true (best :: firstn n sorted) (total_weight cfg req) req (now w)), best.
  split; [exact Hcalc|]. simpl options.
  split; [reflexivity|].
  assert (Hsorted : StronglySorted price_then_time (best :: sorted)).
  { rewrite <- Es.
    eapply StronglySorted_impl;
      [|apply (sort_by_sorted by_price_then_time by_price_then_time_total
                              by_price_then_time_trans merged)].
    intros a b. apply by_price_then_time_before. }
  split; [apply (StronglySorted_firstn _ (S n) _ Hsorted)|].
  split.
  { change (best :: firstn n sorted) with (firstn (S n) (best :: sorted)).
    rewrite length_firstn. rewrite <- Es.
    rewrite (Permutation_length (sort_by_perm by_price_then_time merged)). reflexivity. }
  split.
  { intros o Ho. change (best :: firstn n sorted) with (firstn (S n) (best :: sorted)) in Ho.
    apply In_firstn in Ho. rewrite <- Es in Ho.
    eapply Permutation_in; [apply sort_by_perm | exact Ho]. }
  split; [reflexivity|].
  split; [|reflexivity].
  intros o Ho.
  destruct (sort_by_head_min by_price_then_time by_price_then_time_total
                             by_price_then_time_trans merged best) as [_ Hmin].
  { rewrite Es. reflexivity. }
  apply Hmin, by_price_then_time_before in Ho. destruct Ho as [H | [H _]]; lra.
Qed.

End Service.

Lemma calculateFreight_price_order_witness :
  exists w' res best,
    calculateFreight dev_config (sample_provider sample_quotes) sample_numberToString
                     (sample_request 5) sample_world = (w', Ok res)
    /\ options res = firstn 3 (sort_by by_price_then_time sample_quotes)
    /\ StronglySorted price_then_time (options res)
    /\ List.length (options res) = 3%nat
    /\ (forall o, In o (options res) -> In o sample_quotes)
    /\ head (options res) = Some best
    /\ (forall o, In o sample_quotes -> price best <= price o)
    /\ totalWeight res = (3 # 2).
Proof.
  destruct (calculateFreight_price_order dev_config (sample_provider sample_quotes)
              sample_numberToString (sample_request 5) sample_world sample_quotes)
    as (w' & res & best & H1 & H2 & H3 & H4 & H5 & H6 & H7 & H8).
  - reflexivity.
  - simpl; lra.
  - reflexivity.
  - reflexivity.
  - discriminate.
  - reflexivity.
  - simpl. lia.
  - exists w', res, best. repeat split; assumption.
Defined.

(** C1 (as stated) fails: with a cap of three and four quotes of which
    the dearest is the fastest, the answer lists the three cheapest in
    price order, which is not the order of the weighted score, and the
    globally fastest quote is nowhere in the answer.  Nor is there an
    answer at all when the simulation row cannot be written or when the
    cap is zero. *)
Lemma calculateFreight_not_ranked_by_score :
  (exists w' res,
     calculateFreight dev_config (sample_provider sample_quotes) sample_numberToString
                      (sample_request 5) sample_world = (w', Ok res)
     /\ map id (options res) = ["q-a"; "q-b"; "q-c"]
     /\ top_by_score 3 sample_quotes = ["q-d"; "q-c"; "q-b"]
     /\ (exists fastest,
           In fastest sample_quotes
           /\ (forall o, In o sample_quotes -> deliveryTime fastest <= deliveryTime o)
           /\ ~ In fastest (options res)))
  /\ snd (calculateFreight dev_config (sample_provider sample_quotes) sample_numberToString
                           (sample_request 5) sample_world_database_down)
     = Throw (businessError FREIGHT_CALCULATION_ERROR "Failed to persist simulation result")
  /\ snd (calculateFreight (mkConfig development 21600000 (Num.lit (3 # 10)) 0)
                           (sample_provider sample_quotes) sample_numberToString
                           (sample_request 5) sample_world)
     = Throw (businessError FREIGHT_CALCULATION_ERROR "Failed to calculate freight").
Proof.
  split; [|split; vm_compute; reflexivity].
  eexists. eexists. split; [vm_compute; reflexivity|].
  split; [reflexivity|]. split; [reflexivity|].
  exists (mkOption "q-d" "Carrier D" "Express" 40 1 melhorenvio).
  split; [right; left; reflexivity|]. split.
  - intros o Ho. simpl in Ho.
    repeat (destruct Ho as [<- | Ho]; [simpl; lra|]). contradiction.
  - intros Ho. simpl in Ho.
    repeat (destruct Ho as [Ho | Ho]; [discriminate Ho|]). contradiction.
Qed.

Lemma calculateFreight_no_options_witness :
  calculateFreight dev_config (sample_provider []) sample_numberToString
                   (sample_request 5) sample_world
  = (sample_world, Throw (businessError NO_FREIGHT_OPTIONS
                            "No freight options available for this destination"))
  /\ Redis.store (cache (fst (calculateFreight dev_config (sample_provider [])
                                sample_numberToString (sample_request 5) sample_world)))
     = Redis.store (cache sample_world)
  /\ simulations (fst (calculateFreight dev_config (sample_provider [])
                         sample_numberToString (sample_request 5) sample_world))
     = simulations sample_world.
Proof.
  apply (calculateFreight_no_options dev_config (sample_provider []) sample_numberToString
           (sample_request 5) sample_world).
  - reflexivity.
  - simpl; lra.
  - reflexivity.
  - reflexivity.
  - reflexivity.
Defined.

Lemma calculateFreight_over_30kg_witness :
  strategy (decideStrategy (total_weight dev_config (sample_request 200))) = TABELA_ONLY
  /\ tabela_calculateShipping (total_weight dev_config (sample_request 200)) = []
  /\ calculateFreight dev_config (sample_provider sample_quotes) sample_numberToString
                      (sample_request 200) sample_world
     = (sample_world, Throw (businessError NO_FREIGHT_OPTIONS
                               "No freight options available for this destination")).
Proof.
  apply (calculateFreight_over_30kg dev_config (sample_provider sample_quotes)
           sample_numberToString (sample_request 200) sample_world).
  - reflexivity.
  - simpl; lra.
  - reflexivity.
  - reflexivity.
Defined.

End FreightProperties.

(** * Further properties of the state machine *)

Section StateMachineQueriesProperties.
Import StateMachine StateMachineQueries Spec.

Lemma existsb_find {A} (f : A -> bool) (l : list A) :
  existsb f l = false <-> List.find f l = None.
Proof.
  induction l as [|x l IH]; simpl; [tauto|].
  destruct (f x); simpl; [split; discriminate | exact IH].
Qed.

Lemma canTransition_find s e :
  canTransition s e = false <-> find_transition s e = None.
Proof. apply existsb_find. Qed.

(** X1: [canTransition], [getPossibleEvents] and [transition] read the
    same table: an event is listed for a state exactly when
    [canTransition] accepts the pair, no event is listed twice, and
    [canTransition] answers false exactly when [transition] rejects the
    pair with INVALID_STATE_TRANSITION. *)
Theorem canTransition_agrees (h : heap) (r : loc) (c : ConversationContext)
        (ev : ConversationEvent) :
  h !! r = Some c ->
  (In ev (getPossibleEvents (currentState c)) <-> canTransition (currentState c) ev = true)
  /\ NoDup (getPossibleEvents (currentState c))
  /\ (canTransition (currentState c) ev = false <->
      exists e, transition h r ev = Some (h, Throw e)
                /\ err_code e = INVALID_STATE_TRANSITION).
Proof.
  intros Hr. split; [|split].
  - unfold getPossibleEvents, canTransition.
    rewrite in_map_iff, existsb_exists. split.
    + intros (t & He & Hin). apply filter_In in Hin as [Hin Hf].
      exists t. split; [exact Hin|]. unfold matches. rewrite Hf.
      apply bool_decide_eq_true_2, He.
    + intros (t & Hin & Hm). unfold matches in Hm. apply andb_prop in Hm as [Hf He].
      exists t. split; [apply bool_decide_eq_true in He; exact He|].
      apply filter_In. auto.
  - destruct (currentState c); apply (bool_decide_unpack _); vm_compute; exact I.
  - rewrite canTransition_find. unfold transition. rewrite Hr. split.
    + intros ->. eexists. split; reflexivity.
    + intros (e & T & Hcode).
      destruct (find_transition (currentState c) ev) as [t|]; [|reflexivity].
      destruct (negb _); [|discriminate T].
      injection T as <-. discriminate Hcode.
Qed.

Lemma canTransition_agrees_witness :
  In START_FREIGHT_QUERY (getPossibleEvents IDLE)
  <-> canTransition IDLE START_FREIGHT_QUERY = true.
Proof.
  apply (canTransition_agrees {[1%positive := sample_context IDLE None]} 1%positive
           (sample_context IDLE None) START_FREIGHT_QUERY).
  reflexivity.
Defined.

Lemma strip_non_digits_length s :
  String.length (Chars.strip_non_digits s)
  = List.length (filter Chars.is_digit (Chars.chars s)).
Proof.
  unfold Chars.strip_non_digits. apply length_of_chars.
Qed.

(** The guard of the CEP row counts digits. *)
Lemma isValidCEP_digits s :
  isValidCEP (Some s) = true
  <-> List.length (filter Chars.is_digit (Chars.chars s)) = 8%nat.
Proof.
  unfold isValidCEP. rewrite strip_non_digits_length.
  destruct s as [|a s]; simpl.
  - split; discriminate.
  - apply Nat.eqb_eq.
Qed.

(** X2: from AWAITING_CEP, CEP_PROVIDED is accepted exactly when the
    context holds a postal code with eight digits among its characters;
    the new context is in AWAITING_QUANTITY and keeps the postal code
    as it was typed, and the caller's object is untouched.  Without a
    code, or with another number of digits, the call is rejected with
    VALIDATION_ERROR. *)
Theorem transition_cep_provided (h : heap) (r : loc) (c : ConversationContext) :
  h !! r = Some c ->
  currentState c = AWAITING_CEP ->
  (forall s, cep c = Some s ->
             List.length (filter Chars.is_digit (Chars.chars s)) = 8%nat ->
     exists r',
       transition h r CEP_PROVIDED
         = Some (<[r' := set_currentState c AWAITING_QUANTITY]> h, Ok r')
       /\ r' <> r /\ h !! r' = None)
  /\ ((cep c = None
       \/ exists s, cep c = Some s
                    /\ List.length (filter Chars.is_digit (Chars.chars s)) <> 8%nat) ->
      transition h r CEP_PROVIDED
        = Some (h, Throw (businessError VALIDATION_ERROR
                            "Transition guard condition not met"))).
Proof.
  intros Hr Hs. split.
  - intros s Hc Hd. apply isValidCEP_digits in Hd.
    unfold transition. rewrite Hr, Hs. simpl. rewrite Hc, Hd. simpl.
    eexists. split; [reflexivity|]. split.
    + eapply fresh_loc_ne; eauto.
    + apply not_elem_of_dom. apply is_fresh.
  - intros Hbad. unfold transition. rewrite Hr, Hs. simpl.
    destruct Hbad as [Hn | (s & Hc & Hd)].
    + rewrite Hn. reflexivity.
    + rewrite Hc. destruct (isValidCEP (Some s)) eqn:E; [|reflexivity].
      apply isValidCEP_digits in E. contradiction.
Qed.

Lemma transition_cep_provided_witness :
  exists r',
    transition {[1%positive := mkContext "5511999999999" AWAITING_CEP (Some "01001-000")
                                         None None None None None]}
               1%positive CEP_PROVIDED
      = Some (<[r' := set_currentState
                        (mkContext "5511999999999" AWAITING_CEP (Some "01001-000")
                                   None None None None None) AWAITING_QUANTITY]>
                {[1%positive := mkContext "5511999999999" AWAITING_CEP (Some "01001-000")
                                          None None None None None]}, Ok r')
    /\ r' <> 1%positive
    /\ ({[1%positive := mkContext "5511999999999" AWAITING_CEP (Some "01001-000")
                                  None None None None None]} : heap) !! r' = None.
Proof.
  refine (proj1 (transition_cep_provided
                   {[1%positive := mkContext "5511999999999" AWAITING_CEP (Some "01001-000")
                                             None None None None None]}
                   1%positive _ _ _) "01001-000" _ _).
  - reflexivity.
  - reflexivity.
  - reflexivity.
  - reflexivity.
Defined.

(** What a successful call built, spelled out. *)
Lemma transition_ok_inv (h h' : heap) r r' c ev :
  h !! r = Some c ->
  transition h r ev = Some (h', Ok r') ->
  exists t,
    find_transition (currentState c) ev = Some t
    /\ match guard t with Some g => g c | None => true end = true
    /\ h' = <[r' := set_currentState
                      (match action t with Some a => a c | None => c end) (to t)]>
              (match action t with
               | Some a => <[r := a c]> h
               | None => h
               end)
    /\ r' <> r /\ h !! r' = None.
Proof.
  intros Hr T. unfold transition in T. rewrite Hr in T.
  destruct (find_transition (currentState c) ev) as [t|]; [|discriminate T].
  exists t. split; [reflexivity|].
  destruct (match guard t with Some g => g c | None => true end); [|discriminate T].
  simpl in T. split; [reflexivity|].
  destruct (action t) as [a|].
  - injection T as <- <-. split; [reflexivity|].
    pose proof (is_fresh (dom (<[r := a c]> h))) as Hf. split.
    + intros E. apply Hf. rewrite E. apply elem_of_dom.
      rewrite lookup_insert_eq. eauto.
    + apply not_elem_of_dom. intros Hin. apply Hf.
      apply (dom_insert_subseteq h r (a c)). exact Hin.
  - injection T as <- <-. split; [reflexivity|]. split.
    + eapply fresh_loc_ne; eauto.
    + apply not_elem_of_dom, is_fresh.
Qed.

(** X3: what the state of a returned context guarantees.  A context
    returned in CALCULATING holds a quantity greater than zero and, as
    total weight, the binary64 product of that quantity and 0.3; one
    returned in AWAITING_QUANTITY holds a postal code with eight digits;
    COMPLETED is only entered from CALCULATING and AWAITING_CEP only
    from IDLE. *)
Theorem transition_establishes (h h' : heap) (r r' : loc) (c c' : ConversationContext)
        (ev : ConversationEvent) :
  h !! r = Some c ->
  transition h r ev = Some (h', Ok r') ->
  h' !! r' = Some c' ->
  (currentState c' = CALCULATING ->
     exists q, quantity c' = Some q /\ (0 < q)%Q
               /\ totalWeight c' = Some (Num.mul q (Num.lit (3 # 10))))
  /\ (currentState c' = AWAITING_QUANTITY ->
        exists s, cep c' = Some s
                  /\ List.length (filter Chars.is_digit (Chars.chars s)) = 8%nat)
  /\ (currentState c' = COMPLETED -> currentState c = CALCULATING)
  /\ (currentState c' = AWAITING_CEP -> currentState c = IDLE).
Proof.
  intros Hr T Hr'.
  destruct (transition_ok_inv h h' r r' c ev Hr T) as (t & F & G & -> & _ & _).
  rewrite lookup_insert_eq in Hr'. injection Hr' as <-.
  destruct (find_transition_matches _ _ _ F) as [Hfrom Hev].
  destruct (currentState c) eqn:Es, ev; try discriminate F;
    injection F as <-; simpl in *;
    (split; [|split; [|split]]); intros H; try discriminate H; try reflexivity.
  - destruct (cep c) as [s|] eqn:Ec; [|discriminate G].
    exists s. split; [reflexivity|]. apply isValidCEP_digits. exact G.
  - unfold isValidQuantity in G. destruct (quantity c) as [q|] eqn:Eq; [|discriminate G].
    assert (Hq : (0 < q)%Q).
    { apply Qnot_le_lt. intros Hle. apply Qle_bool_iff in Hle. rewrite Hle in G.
      discriminate G. }
    exists q. split; [reflexivity|]. split; [exact Hq|].
    unfold quantity_or_zero, unitWeight.
    destruct (Qeq_bool q 0) eqn:E; [|reflexivity].
    apply Qeq_bool_iff in E. lra.
Qed.

(** A context returned in CALCULATING for quantity 3: its weight is
    0.8999999999999999. *)
Lemma transition_establishes_witness :
  exists q,
    quantity (set_currentState
                (set_totalWeight (sample_context AWAITING_QUANTITY (Some 3%Q))
                                 (Some (Num.mul 3 (Num.lit (3 # 10))))) CALCULATING) = Some q
    /\ (0 < q)%Q
    /\ totalWeight (set_currentState
                      (set_totalWeight (sample_context AWAITING_QUANTITY (Some 3%Q))
                                       (Some (Num.mul 3 (Num.lit (3 # 10))))) CALCULATING)
       = Some (Num.mul q (Num.lit (3 # 10))).
Proof.
  refine (proj1 (transition_establishes
                   {[1%positive := sample_context AWAITING_QUANTITY (Some 3%Q)]}
                   _ 1%positive _ (sample_context AWAITING_QUANTITY (Some 3%Q)) _
                   QUANTITY_PROVIDED _ _ _) _).
  - reflexivity.
  - vm_compute. reflexivity.
  - vm_compute. reflexivity.
  - reflexivity.
Defined.

(** X4: a successful call allocates exactly one new object and touches
    no other object than the caller's; the new context has the phone
    number, postal code, quantity, last message, error count and
    metadata of the input, and, unless the event is QUANTITY_PROVIDED,
    its total weight. *)
Theorem transition_success_frame (h h' : heap) (r r' : loc) (c : ConversationContext)
        (ev : ConversationEvent) :
  h !! r = Some c ->
  transition h r ev = Some (h', Ok r') ->
  r' <> r /\ h !! r' = None
  /\ (exists c',
        h' !! r' = Some c'
        /\ phoneNumber c' = phoneNumber c /\ cep c' = cep c /\ quantity c' = quantity c
        /\ lastMessage c' = lastMessage c /\ errorCount c' = errorCount c
        /\ metadata c' = metadata c
        /\ (ev <> QUANTITY_PROVIDED -> totalWeight c' = totalWeight c))
  /\ (forall r2, r2 <> r -> r2 <> r' -> h' !! r2 = h !! r2).
Proof.
  intros Hr T.
  destruct (transition_ok_inv h h' r r' c ev Hr T) as (t & F & G & -> & Hne & Hnew).
  split; [exact Hne|]. split; [exact Hnew|]. split.
  - eexists. split; [apply lookup_insert_eq|].
    destruct (currentState c) eqn:Es, ev; try discriminate F;
      injection F as <-; simpl; repeat split; intros H; try reflexivity; congruence.
  - intros r2 H2 H2'. rewrite lookup_insert_ne by congruence.
    destruct (action t); [rewrite lookup_insert_ne by congruence|]; reflexivity.
Qed.

Lemma transition_success_frame_witness :
  (2 <> 1)%positive
  /\ ({[1%positive := sample_context IDLE None]} : heap) !! 2%positive = None.
Proof.
  pose proof (transition_success_frame
                {[1%positive := sample_context IDLE None]}
                (<[2%positive := set_currentState (sample_context IDLE None) AWAITING_CEP]>
                   {[1%positive := sample_context IDLE None]})
                1%positive 2%positive (sample_context IDLE None) START_FREIGHT_QUERY) as H.
  destruct H as (H1 & H2 & _).
  - reflexivity.
  - vm_compute. reflexivity.
  - split; assumption.
Defined.

(** X5: RESET is accepted from every state but IDLE and returns a
    context in IDLE that still carries the postal code, quantity and
    total weight collected so far; from IDLE it is rejected with
    INVALID_STATE_TRANSITION.  From COMPLETED and ERROR no other event
    is accepted. *)
Theorem transition_reset (h : heap) (r : loc) (c : ConversationContext) :
  h !! r = Some c ->
  (currentState c <> IDLE ->
     exists r',
       transition h r RESET = Some (<[r' := set_currentState c IDLE]> h, Ok r')
       /\ r' <> r /\ h !! r' = None)
  /\ (currentState c = IDLE ->
        transition h r RESET
          = Some (h, Throw (businessError INVALID_STATE_TRANSITION
                              "Invalid transition from IDLE with event RESET")))
  /\ (forall ev, (currentState c = COMPLETED \/ currentState c = ERROR) ->
                 ev <> RESET -> canTransition (currentState c) ev = false).
Proof.
  intros Hr. split; [|split].
  - intros Hs.
    assert (F : find_transition (currentState c) RESET
                = Some (row (currentState c) RESET IDLE)).
    { destruct (currentState c); [congruence | reflexivity ..]. }
    unfold transition. rewrite Hr, F. simpl.
    eexists. split; [reflexivity|]. split.
    + eapply fresh_loc_ne; eauto.
    + apply not_elem_of_dom, is_fresh.
  - intros Hs. unfold transition. rewrite Hr, Hs. reflexivity.
  - intros ev [-> | ->] Hev; destruct ev; try reflexivity; congruence.
Qed.

Lemma transition_reset_witness :
  exists r',
    transition {[1%positive := sample_context COMPLETED (Some 5%Q)]} 1%positive RESET
      = Some (<[r' := set_currentState (sample_context COMPLETED (Some 5%Q)) IDLE]>
                {[1%positive := sample_context COMPLETED (Some 5%Q)]}, Ok r')
    /\ r' <> 1%positive
    /\ ({[1%positive := sample_context COMPLETED (Some 5%Q)]} : heap) !! r' = None.
Proof.
  refine (proj1 (transition_reset {[1%positive := sample_context COMPLETED (Some 5%Q)]}
                                  1%positive (sample_context COMPLETED (Some 5%Q)) _) _).
  - reflexivity.
  - discriminate.
Defined.

End StateMachineQueriesProperties.

(** * Further properties of the session store *)

Section SessionOperationsProperties.
Import StateMachine SessionManager SessionOperations Spec Vocabulary Samples.

Lemma saveSession_reached cfg tenant phone session (s : Stores) :
  reached s ->
  saveSession cfg tenant phone session s =
    (mkStores (Redis.mkState true true
                 (<[getKey tenant phone :=
                      Redis.mkEntry session (ceil_div_1000 (session_ttlMs cfg))]>
                    (Redis.store (redis s))))
              (memory_after_save cfg phone session (memoryStore s)),
     Ok tt).
Proof.
  intros [Hc Ha]. destruct s as [[c a st] mem]. simpl in *. subst c a.
  unfold saveSession, bind, redis_available, gets, redis_set, Redis.isAvailable,
    Redis.set, Redis.reachable, ret, modify, memory_after_save; simpl.
  assert (Httl : (if (ceil_div_1000 (session_ttlMs cfg) =? 0)%Z
                  then ceil_div_1000 (session_ttlMs cfg)
                  else ceil_div_1000 (session_ttlMs cfg))
                 = ceil_div_1000 (session_ttlMs cfg)) by (destruct (_ =? _)%Z; reflexivity).
  rewrite Httl.
  destruct (bool_decide (env cfg = production)); reflexivity.
Qed.

Lemma getSession_hit cfg now tenant phone (s : Stores) e :
  tenant <> "" -> reached s ->
  Redis.store (redis s) !! getKey tenant phone = Some e ->
  getSession cfg now tenant phone s = (s, Ok (Some (Redis.value e))).
Proof.
  intros Ht [Hc Ha] Hk. destruct s as [[c a st] mem]. simpl in *. subst c a.
  unfold getSession. rewrite (nonempty_length _ Ht).
  unfold try_catch, bind, redis_available, gets, redis_get,
    Redis.isAvailable, Redis.get, Redis.reachable, ret; simpl.
  rewrite Hk. reflexivity.
Qed.

Lemma getSession_miss cfg now tenant phone (s : Stores) :
  tenant <> "" -> reached s ->
  Redis.store (redis s) !! getKey tenant phone = None ->
  Redis.store (redis s) !! getOldKey phone = None ->
  getSession cfg now tenant phone s = (s, Ok None).
Proof.
  intros Ht [Hc Ha] Hk Ho. destruct s as [[c a st] mem]. simpl in *. subst c a.
  unfold getSession. rewrite (nonempty_length _ Ht).
  unfold try_catch, bind, redis_available, gets, redis_get,
    Redis.isAvailable, Redis.get, Redis.reachable, ret; simpl.
  rewrite Hk. simpl. rewrite Ho. reflexivity.
Qed.

(** X6: with the stores reached, [createSession] replaces whatever was
    stored under the tenant-scoped key by a fresh record, and a
    [getSession] or [sessionExists] that follows finds that record and
    changes nothing. *)
Theorem create_then_get (cfg : AppConfig) (now now' : Z) (tenant phone : string)
        (s : Stores) :
  tenant <> "" ->
  reached s ->
  exists s1,
    createSession cfg now tenant phone s = (s1, Ok (fresh_session cfg now tenant phone))
    /\ getSession cfg now' tenant phone s1
       = (s1, Ok (Some (fresh_session cfg now tenant phone)))
    /\ sessionExists cfg now' tenant phone s1 = (s1, Ok true).
Proof.
  intros Ht Hr.
  pose proof (saveSession_reached cfg tenant phone (fresh_session cfg now tenant phone) s Hr)
    as Hsave.
  match type of Hsave with _ = (?x, _) => set (s1 := x) in * end.
  assert (Hr1 : reached s1) by (split; reflexivity).
  assert (Hk : Redis.store (redis s1) !! getKey tenant phone
               = Some (Redis.mkEntry (fresh_session cfg now tenant phone)
                                     (ceil_div_1000 (session_ttlMs cfg))))
    by apply lookup_insert_eq.
  exists s1. split; [|split].
  - unfold createSession. rewrite (nonempty_length _ Ht). unfold bind.
    rewrite Hsave. reflexivity.
  - rewrite (getSession_hit cfg now' tenant phone s1 _ Ht Hr1 Hk). reflexivity.
  - unfold sessionExists, bind.
    rewrite (getSession_hit cfg now' tenant phone s1 _ Ht Hr1 Hk). reflexivity.
Qed.

Lemma create_then_get_witness :
  exists s1,
    createSession dev_config 5000 "tenant-a" "5511999999999" (empty_stores true true)
      = (s1, Ok (fresh_session dev_config 5000 "tenant-a" "5511999999999"))
    /\ getSession dev_config 6000 "tenant-a" "5511999999999" s1
       = (s1, Ok (Some (fresh_session dev_config 5000 "tenant-a" "5511999999999")))
    /\ sessionExists dev_config 6000 "tenant-a" "5511999999999" s1 = (s1, Ok true).
Proof.
  apply (create_then_get dev_config 5000 6000 "tenant-a" "5511999999999"
                         (empty_stores true true)).
  - discriminate.
  - split; reflexivity.
Defined.

(** X7: in the production profile the memory map is never a fallback.
    A production process has a connected client.  When the server does
    not answer, [getSession] answers null, whatever the server and the
    memory map hold, and [createSession] throws the InfrastructureError
    "Failed to save session to Redis in production"; both leave the
    stores as they were.  And no [createSession] or [getSession], in
    any state of the server, writes the memory map. *)
Theorem production_has_no_fallback (cfg : AppConfig) (now : Z) (tenant phone : string)
        (s : Stores) :
  env cfg = production ->
  tenant <> "" ->
  Redis.connected (redis s) = true ->
  (Redis.answering (redis s) = false ->
     getSession cfg now tenant phone s = (s, Ok None)
     /\ createSession cfg now tenant phone s
        = (s, Throw (infrastructureError INTERNAL_ERROR
                       "Failed to save session to Redis in production")))
  /\ memoryStore (fst (createSession cfg now tenant phone s)) = memoryStore s
  /\ memoryStore (fst (getSession cfg now tenant phone s)) = memoryStore s.
Proof.
  intros He Ht Hc. destruct s as [[c a st] mem]. simpl in Hc. subst c.
  split; [|split].
  - simpl. intros ->.
    unfold getSession, createSession, saveSession. rewrite (nonempty_length _ Ht).
    unfold try_catch, bind, redis_available, gets, redis_get, redis_set,
      Redis.isAvailable, Redis.get, Redis.set, Redis.reachable, ret, throw; simpl.
    rewrite He. split; reflexivity.
  - unfold createSession, saveSession. rewrite (nonempty_length _ Ht).
    unfold bind, redis_available, gets, redis_set, Redis.isAvailable, Redis.set,
      Redis.reachable, ret, modify, throw; simpl.
    rewrite He. simpl. destruct a; simpl; reflexivity.
  - unfold getSession. rewrite (nonempty_length _ Ht).
    unfold try_catch, bind, redis_available, gets, redis_get, redis_delete,
      Redis.isAvailable, Redis.get, Redis.delete, Redis.reachable, ret, throw; simpl.
    destruct a; simpl; [|reflexivity].
    destruct (st !! getKey tenant phone); simpl; [reflexivity|].
    destruct (st !! getOldKey phone) eqn:Eo; simpl; rewrite ?Eo; reflexivity.
Qed.

(** The server holds the session of the tenant but does not answer. *)
Lemma production_has_no_fallback_witness :
  getSession prod_config 5000 "tenant-a" "5511999999999" (session_stores true false)
  = (session_stores true false, Ok None)
  /\ createSession prod_config 5000 "tenant-a" "5511999999999" (session_stores true false)
     = (session_stores true false,
        Throw (infrastructureError INTERNAL_ERROR
                 "Failed to save session to Redis in production")).
Proof.
  refine (proj1 (production_has_no_fallback prod_config 5000 "tenant-a" "5511999999999"
                   (session_stores true false) _ _ _) _).
  - reflexivity.
  - discriminate.
  - reflexivity.
  - reflexivity.
Defined.

(** X8: the development fallback.  With the client not connected and a
    profile other than production, [createSession] keeps the record in
    the memory map, keyed by the phone number alone: until the record
    expires [getSession] hands it to whichever tenant asks for that
    phone number; once it has expired [getSession] answers null and
    evicts it. *)
Theorem dev_fallback_round_trip (cfg : AppConfig) (now now' : Z)
        (tenant tenant' phone : string) (s : Stores) :
  env cfg <> production ->
  tenant <> "" -> tenant' <> "" ->
  Redis.connected (redis s) = false ->
  exists s1,
    createSession cfg now tenant phone s = (s1, Ok (fresh_session cfg now tenant phone))
    /\ redis s1 = redis s
    /\ ((now' <= now + session_ttlMs cfg)%Z ->
        getSession cfg now' tenant' phone s1
          = (s1, Ok (Some (fresh_session cfg now tenant phone))))
    /\ ((now + session_ttlMs cfg < now')%Z ->
        exists s2, getSession cfg now' tenant' phone s1 = (s2, Ok None)
                   /\ memoryStore s2 !! phone = None).
Proof.
  intros He Ht Ht' Hc. destruct s as [[c a st] mem]. simpl in Hc. subst c.
  assert (Hp : bool_decide (env cfg = production) = false)
    by (apply bool_decide_eq_false_2, He).
  exists (mkStores (Redis.mkState false a st)
                   (<[phone := fresh_session cfg now tenant phone]> mem)).
  split; [|split; [reflexivity|split]].
  - unfold createSession, saveSession. rewrite (nonempty_length _ Ht).
    unfold bind, redis_available, gets, Redis.isAvailable, ret, modify; simpl.
    rewrite Hp. reflexivity.
  - intros Hle. unfold getSession. rewrite (nonempty_length _ Ht').
    unfold try_catch, bind, redis_available, gets, Redis.isAvailable, memory_get; simpl.
    rewrite Hp. simpl. unfold memory_get. simpl. rewrite lookup_insert_eq. simpl.
    destruct (now + session_ttlMs cfg <? now')%Z eqn:E; [lia | reflexivity].
  - intros Hlt. eexists. split.
    + unfold getSession. rewrite (nonempty_length _ Ht').
      unfold try_catch, bind, redis_available, gets, Redis.isAvailable, memory_get; simpl.
      rewrite Hp. simpl. unfold memory_get. simpl. rewrite lookup_insert_eq. simpl.
      destruct (now + session_ttlMs cfg <? now')%Z eqn:E; [reflexivity | lia].
    + simpl. apply lookup_delete_eq.
Qed.

Lemma dev_fallback_round_trip_witness :
  exists s1,
    createSession dev_config 5000 "tenant-a" "5511999999999" (empty_stores false true)
      = (s1, Ok (fresh_session dev_config 5000 "tenant-a" "5511999999999"))
    /\ redis s1 = redis (empty_stores false true)
    /\ ((6000 <= 5000 + session_ttlMs dev_config)%Z ->
        getSession dev_config 6000 "tenant-b" "5511999999999" s1
          = (s1, Ok (Some (fresh_session dev_config 5000 "tenant-a" "5511999999999"))))
    /\ ((5000 + session_ttlMs dev_config < 6000)%Z ->
        exists s2, getSession dev_config 6000 "tenant-b" "5511999999999" s1 = (s2, Ok None)
                   /\ memoryStore s2 !! "5511999999999" = None).
Proof.
  apply (dev_fallback_round_trip dev_config 5000 6000 "tenant-a" "tenant-b"
                                 "5511999999999" (empty_stores false true)).
  - discriminate.
  - discriminate.
  - discriminate.
  - reflexivity.
Defined.

(** X9: with the stores reached, [deleteSession] removes the
    tenant-scoped key from Redis and the phone number from the memory
    map, and nothing else; a [getSession] or [sessionExists] that
    follows finds no session. *)
Theorem delete_then_get (cfg : AppConfig) (now : Z) (tenant phone : string) (s : Stores) :
  tenant <> "" ->
  reached s ->
  exists s1 s2,
    deleteSession tenant phone s = (s1, Ok tt)
    /\ Redis.store (redis s1) = base.delete (getKey tenant phone) (Redis.store (redis s))
    /\ memoryStore s1 = base.delete phone (memoryStore s)
    /\ getSession cfg now tenant phone s1 = (s2, Ok None)
    /\ sessionExists cfg now tenant phone s1 = (s2, Ok false).
Proof.
  intros Ht [Hc Ha]. destruct s as [[c a st] mem]. simpl in *. subst c a.
  set (s1 := mkStores (Redis.mkState true true (base.delete (getKey tenant phone) st))
                      (base.delete phone mem)).
  assert (Hdel : deleteSession tenant phone
                   (mkStores (Redis.mkState true true st) mem) = (s1, Ok tt)).
  { unfold deleteSession. rewrite (nonempty_length _ Ht).
    unfold bind, redis_available, gets, redis_delete, Redis.isAvailable, Redis.delete,
      Redis.reachable, ret, modify; simpl.
    destruct (st !! getKey tenant phone) eqn:E; simpl; unfold s1; [reflexivity|].
    rewrite (delete_id _ _ E). reflexivity. }
  assert (Hr1 : reached s1) by (split; reflexivity).
  assert (Hk : Redis.store (redis s1) !! getKey tenant phone = None)
    by apply lookup_delete_eq.
  destruct (Redis.store (redis s1) !! getOldKey phone) as [old|] eqn:Ho.
  - pose proof (getSession_legacy cfg now tenant phone s1 old Ht eq_refl eq_refl Hk Ho) as Hg.
    eexists s1, _. repeat split; [exact Hdel | exact Hg |].
    unfold sessionExists, bind. rewrite Hg. reflexivity.
  - pose proof (getSession_miss cfg now tenant phone s1 Ht Hr1 Hk Ho) as Hg.
    exists s1, s1. repeat split; [exact Hdel | exact Hg |].
    unfold sessionExists, bind. rewrite Hg. reflexivity.
Qed.

Lemma delete_then_get_witness :
  exists s1 s2,
    deleteSession "tenant-a" "5511999999999" (legacy_stores true true "5511999999999")
      = (s1, Ok tt)
    /\ Redis.store (redis s1)
       = base.delete (getKey "tenant-a" "5511999999999")
                     (Redis.store (redis (legacy_stores true true "5511999999999")))
    /\ memoryStore s1
       = base.delete "5511999999999"
                     (memoryStore (legacy_stores true true "5511999999999"))
    /\ getSession dev_config 5000 "tenant-a" "5511999999999" s1 = (s2, Ok None)
    /\ sessionExists dev_config 5000 "tenant-a" "5511999999999" s1 = (s2, Ok false).
Proof.
  apply (delete_then_get dev_config 5000 "tenant-a" "5511999999999"
                         (legacy_stores true true "5511999999999")).
  - discriminate.
  - split; reflexivity.
Defined.



(** X11: with the stores reached, [extendSession] on a stored session
    rewrites it with the expiry moved to one session lifetime after the
    call and every other field kept; when neither the tenant-scoped key
    nor the legacy key is stored it throws SESSION_NOT_FOUND and changes
    nothing. *)
Theorem extendSession_moves_expiry (cfg : AppConfig) (now_get now_extend : Z)
        (tenant phone : string) (s : Stores) :
  tenant <> "" ->
  reached s ->
  (forall e, Redis.store (redis s) !! getKey tenant phone = Some e ->
     exists s1,
       extendSession cfg now_get now_extend tenant phone s = (s1, Ok tt)
       /\ Redis.store (redis s1) !! getKey tenant phone
          = Some (Redis.mkEntry
                    (mkSession (context (Redis.value e)) (tenantId (Redis.value e))
                               (createdAt (Redis.value e)) (updatedAt (Redis.value e))
                               (now_extend + session_ttlMs cfg)%Z)
                    (ceil_div_1000 (session_ttlMs cfg))))
  /\ (Redis.store (redis s) !! getKey tenant phone = None ->
      Redis.store (redis s) !! getOldKey phone = None ->
      extendSession cfg now_get now_extend tenant phone s
        = (s, Throw (businessError SESSION_NOT_FOUND
                       "Cannot extend session: session not found"))).
Proof.
  intros Ht Hr. split.
  - intros e Hk. eexists. split.
    + unfold extendSession, bind.
      rewrite (getSession_hit cfg now_get tenant phone s e Ht Hr Hk).
      rewrite (saveSession_reached _ _ _ _ _ Hr). reflexivity.
    + simpl. apply lookup_insert_eq.
  - intros Hk Ho. unfold extendSession, bind.
    rewrite (getSession_miss cfg now_get tenant phone s Ht Hr Hk Ho). reflexivity.
Qed.

(** A stored session is extended at 5001; and with nothing stored the
    call is refused. *)
Lemma extendSession_moves_expiry_witness :
  (exists s1,
     extendSession dev_config 5000 5001 "tenant-a" "5511999999999" (session_stores true true)
     = (s1, Ok tt)
     /\ Redis.store (redis s1) !! getKey "tenant-a" "5511999999999"
        = Some (Redis.mkEntry
                  (mkSession (context stored_session) "tenant-a" 1000 2000 21605001)
                  21600%Z))
  /\ extendSession dev_config 5000 5001 "tenant-a" "5511999999999" (empty_stores true true)
     = (empty_stores true true,
        Throw (businessError SESSION_NOT_FOUND "Cannot extend session: session not found")).
Proof.
  split.
  - refine (proj1 (extendSession_moves_expiry dev_config 5000 5001 "tenant-a"
                     "5511999999999" (session_stores true true) _ _)
                  (Redis.mkEntry stored_session 21600%Z) _).
    + discriminate.
    + split; reflexivity.
    + reflexivity.
  - refine (proj2 (extendSession_moves_expiry dev_config 5000 5001 "tenant-a"
                     "5511999999999" (empty_stores true true) _ _) _ _).
    + discriminate.
    + split; reflexivity.
    + reflexivity.
    + reflexivity.
Defined.

(** X12: the sweep of the memory map is invisible to readers.  After
    [cleanup] at some time the entries left are exactly those that had
    not expired by then, Redis is untouched, and a read of the memory
    map at that time or later answers what it would have answered
    without the sweep. *)
Theorem cleanup_is_invisible (now now' : Z) (phone : string) (s : Stores) :
  (now <= now')%Z ->
  snd (memory_get now' phone (fst (cleanup now s))) = snd (memory_get now' phone s)
  /\ redis (fst (cleanup now s)) = redis s
  /\ (forall k v, memoryStore (fst (cleanup now s)) !! k = Some v <->
                  memoryStore s !! k = Some v /\ (now <= expiresAt v)%Z).
Proof.
  intros Hle. split; [|split].
  - unfold cleanup, modify, memory_get. simpl.
    destruct (memoryStore s !! phone) as [v|] eqn:E.
    + destruct (decide (now <= expiresAt v)%Z) as [Hv | Hv].
      * rewrite (map_lookup_filter_Some_2 _ _ _ _ E Hv).
        destruct (expiresAt v <? now')%Z; reflexivity.
      * assert (Hn : filter (fun kv : string * SessionData => (now <= expiresAt kv.2)%Z)
                            (memoryStore s) !! phone = None).
        { apply map_lookup_filter_None_2. right. intros x Hx.
          rewrite E in Hx. injection Hx as <-. exact Hv. }
        rewrite Hn. destruct (expiresAt v <? now')%Z eqn:E'; [reflexivity | lia].
    + assert (Hn : filter (fun kv : string * SessionData => (now <= expiresAt kv.2)%Z)
                          (memoryStore s) !! phone = None).
      { apply map_lookup_filter_None_2. left. exact E. }
      rewrite Hn. reflexivity.
  - reflexivity.
  - intros k v. unfold cleanup, modify. simpl.
    apply (map_lookup_filter_Some
             (fun kv : string * SessionData => (now <= expiresAt kv.2)%Z)).
Qed.

(** A sweep at 5000 of a map that holds a record expired at 4000 and one
    that lives until 9000, read at 6000: the first is reported absent
    with or without the sweep, the second is still found. *)
Lemma cleanup_is_invisible_witness :
  (snd (memory_get 6000 "5511000000001" (fst (cleanup 5000 memory_stores)))
   = snd (memory_get 6000 "5511000000001" memory_stores)
   /\ redis (fst (cleanup 5000 memory_stores)) = redis memory_stores
   /\ (forall k v, memoryStore (fst (cleanup 5000 memory_stores)) !! k = Some v <->
                   memoryStore memory_stores !! k = Some v /\ (5000 <= expiresAt v)%Z))
  /\ snd (memory_get 6000 "5511000000002" memory_stores)
     = Ok (Some (memory_session "5511000000002" 9000))
  /\ snd (memory_get 6000 "5511000000002" (fst (cleanup 5000 memory_stores)))
     = snd (memory_get 6000 "5511000000002" memory_stores).
Proof.
  split; [|split].
  - apply (cleanup_is_invisible 5000 6000 "5511000000001" memory_stores). lia.
  - vm_compute. reflexivity.
  - apply (cleanup_is_invisible 5000 6000 "5511000000002" memory_stores). lia.
Defined.

End SessionOperationsProperties.

(** * Further properties of the intent classifier *)

Section ClassifierOutputProperties.
Import Chars IntentClassifier StateMachine Spec Vocabulary.

Lemma filter_all_digits (l : list ascii) :
  forallb is_digit l = true -> filter is_digit l = l.
Proof.
  induction l as [|c l IH]; [reflexivity|]. simpl. intros H.
  apply andb_prop in H as [Hc Hl].
  rewrite filter_cons. destruct (decide (is_digit c)) as [_ | Hn].
  - rewrite (IH Hl). reflexivity.
  - exfalso. apply Hn. rewrite Hc. exact I.
Qed.

(** A postal code that [extractCEP] answers is eight digits. *)
Lemma extractCEP_sound text code :
  extractCEP text = Some code ->
  String.length code = 8%nat /\ forallb is_digit (chars code) = true.
Proof.
  unfold extractCEP. destruct (scan_cep None (chars text)) as [d|] eqn:S; [|discriminate].
  intros [= <-]. apply scan_cep_first in S as (pre & rest & _ & M & _).
  destruct (match_cep_at_sound _ _ _ M) as (d5 & hy & d3 & post & Sh & -> & _ & _).
  destruct Sh as (_ & L5 & D5 & _ & L3 & D3). split.
  - rewrite length_of_chars, length_app, L5, L3. reflexivity.
  - rewrite chars_of_chars, forallb_app, D5, D3. reflexivity.
Qed.

(** X13: whenever [classify] answers PROVIDE_CEP, the code it extracted
    is exactly eight digits, so it passes both the format check of the
    freight service and the guard of the state machine's CEP row, and
    the confidence is 1. *)
Theorem classify_cep_is_valid (normalize : string -> string) (message : string) :
  intent (classify normalize message) = PROVIDE_CEP ->
  exists code,
    classify normalize message
      = mkIntent PROVIDE_CEP 1 (Some (mkExtracted (Some code) None))
    /\ is_cep8 code = true
    /\ isValidCEP (Some code) = true.
Proof.
  unfold classify.
  destruct (isResetIntent _); [discriminate|].
  destruct (isCancelIntent _); [discriminate|].
  destruct (isHelpIntent _); [discriminate|].
  destruct (extractCEP (normalize message)) as [code|] eqn:E.
  - intros _. exists code. split; [reflexivity|].
    destruct (extractCEP_sound _ _ E) as [Hl Hd]. split.
    + unfold is_cep8. rewrite Hl, Hd. reflexivity.
    + apply isValidCEP_digits. rewrite (filter_all_digits _ Hd).
      rewrite <- Hl. clear. induction code; simpl; congruence.
  - destruct (extractQuantity _); [discriminate|].
    destruct (isFreightQuery _); [discriminate|].
    destruct (isTrackingQuery _); [discriminate|].
    destruct (isPaymentQuery _); [discriminate|].
    destruct (isHumanSupportRequest _); discriminate.
Qed.

Lemma classify_cep_is_valid_witness :
  exists code,
    classify normalize_ascii "CEP 01001-000"
      = mkIntent PROVIDE_CEP 1 (Some (mkExtracted (Some code) None))
    /\ is_cep8 code = true
    /\ isValidCEP (Some code) = true.
Proof.
  apply (classify_cep_is_valid normalize_ascii "CEP 01001-000"). reflexivity.
Defined.

(** X14: whenever [classify] answers PROVIDE_QUANTITY, the quantity is
    an integer from 1 to 9999, so it passes the quantity guard of the
    state machine and the bounds of the freight service. *)
Theorem classify_quantity_is_valid (normalize : string -> string) (message : string) :
  intent (classify normalize message) = PROVIDE_QUANTITY ->
  exists n : Z,
    classify normalize message
      = mkIntent PROVIDE_QUANTITY 1 (Some (mkExtracted None (Some (inject_Z n))))
    /\ (1 <= n <= 9999)%Z
    /\ isValidQuantity (Some (inject_Z n)) = true
    /\ (Qle_bool (inject_Z n) 0 || negb (Qle_bool (inject_Z n) 9999)) = false.
Proof.
  unfold classify.
  destruct (isResetIntent _); [discriminate|].
  destruct (isCancelIntent _); [discriminate|].
  destruct (isHelpIntent _); [discriminate|].
  destruct (extractCEP (normalize message)); [discriminate|].
  destruct (extractQuantity (normalize message)) as [q|] eqn:E.
  - intros _. unfold extractQuantity in E.
    destruct (scan_quantity None (chars (normalize message))) as [ds|]; [|discriminate].
    destruct ((0 <? parse_digits ds)%Z && (parse_digits ds <? 10000)%Z) eqn:B;
      [|discriminate].
    injection E as <-. apply andb_prop in B as [B1 B2].
    apply Z.ltb_lt in B1, B2.
    exists (parse_digits ds). split; [reflexivity|]. split; [lia|].
    assert (H0 : Qle_bool (inject_Z (parse_digits ds)) 0 = false).
    { apply Qle_bool_false. change 0%Q with (inject_Z 0). rewrite <- Zlt_Qlt. exact B1. }
    assert (H1 : Qle_bool (inject_Z (parse_digits ds)) 9999 = true).
    { apply Qle_bool_iff. change 9999%Q with (inject_Z 9999). rewrite <- Zle_Qle. lia. }
    unfold isValidQuantity. rewrite H0, H1. split; reflexivity.
  - destruct (isFreightQuery _); [discriminate|].
    destruct (isTrackingQuery _); [discriminate|].
    destruct (isPaymentQuery _); [discriminate|].
    destruct (isHumanSupportRequest _); discriminate.
Qed.

Lemma classify_quantity_is_valid_witness :
  exists n : Z,
    classify normalize_ascii "quero 5 unidades"
      = mkIntent PROVIDE_QUANTITY 1 (Some (mkExtracted None (Some (inject_Z n))))
    /\ (1 <= n <= 9999)%Z
    /\ isValidQuantity (Some (inject_Z n)) = true
    /\ (Qle_bool (inject_Z n) 0 || negb (Qle_bool (inject_Z n) 9999)) = false.
Proof.
  apply (classify_quantity_is_valid normalize_ascii "quero 5 unidades"). reflexivity.
Defined.

(** No keyword occurs in a text made of digits. *)
Lemma includes_chars_digits s kw :
  forallb is_digit s = true ->
  starts_non_digit (of_chars kw) = true ->
  includes_chars s kw = false.
Proof.
  unfold starts_non_digit. rewrite chars_of_chars.
  destruct kw as [|k kw']; [discriminate|]. intros Hs Hk.
  apply negb_true_iff in Hk.
  induction s as [|c s IH]; [reflexivity|].
  simpl in Hs. apply andb_prop in Hs as [Hc Hs]. simpl.
  destruct (Ascii.eqb k c) eqn:E.
  - apply Ascii.eqb_eq in E. subst c. congruence.
  - simpl. apply IH, Hs.
Qed.

Lemma of_chars_chars s : of_chars (chars s) = s.
Proof. induction s; simpl; congruence. Qed.

Lemma some_keyword_digits kws ds :
  forallb starts_non_digit kws = true ->
  forallb is_digit ds = true ->
  some_keyword kws (of_chars ds) = false.
Proof.
  intros Hk Hd. unfold some_keyword. induction kws as [|kw kws IH]; [reflexivity|].
  simpl in Hk. apply andb_prop in Hk as [Hkw Hkws]. simpl.
  rewrite (IH Hkws). unfold includes. rewrite chars_of_chars.
  rewrite includes_chars_digits; [reflexivity | exact Hd |].
  rewrite of_chars_chars. exact Hkw.
Qed.

Lemma head_digit_is_word l :
  l <> [] -> forallb is_digit l = true -> is_word_opt (head l) = true.
Proof.
  destruct l as [|c l]; [congruence|]. intros _ H. simpl in H.
  apply andb_prop in H as [Hc _]. apply is_digit_is_word, Hc.
Qed.

(** After a digit, in a run of digits, neither pattern can start. *)
Lemma match_cep_at_inside d l :
  is_digit d = true -> forallb is_digit l = true -> match_cep_at (Some d) l = None.
Proof.
  intros Hd Hl. unfold match_cep_at, word_boundary. simpl.
  rewrite (is_digit_is_word _ Hd).
  destruct l as [|c l]; [reflexivity|].
  rewrite (head_digit_is_word (c :: l)); [reflexivity | discriminate | exact Hl].
Qed.

Lemma scan_cep_inside d l :
  is_digit d = true -> forallb is_digit l = true -> scan_cep (Some d) l = None.
Proof.
  revert d. induction l as [|c l IH]; intros d Hd Hl.
  - simpl. rewrite (match_cep_at_inside d [] Hd Hl). reflexivity.
  - simpl scan_cep. rewrite (match_cep_at_inside d (c :: l) Hd Hl).
    simpl in Hl. apply andb_prop in Hl as [Hc Hl]. apply IH; assumption.
Qed.

Lemma match_quantity_at_inside d l :
  is_digit d = true -> forallb is_digit l = true -> match_quantity_at (Some d) l = None.
Proof.
  intros Hd Hl. unfold match_quantity_at, word_boundary. simpl.
  rewrite (is_digit_is_word _ Hd).
  destruct l as [|c l]; [reflexivity|].
  rewrite (head_digit_is_word (c :: l)); [reflexivity | discriminate | exact Hl].
Qed.

Lemma scan_quantity_inside d l :
  is_digit d = true -> forallb is_digit l = true -> scan_quantity (Some d) l = None.
Proof.
  revert d. induction l as [|c l IH]; intros d Hd Hl.
  - simpl. rewrite (match_quantity_at_inside d [] Hd Hl). reflexivity.
  - simpl scan_quantity. rewrite (match_quantity_at_inside d (c :: l) Hd Hl).
    simpl in Hl. apply andb_prop in Hl as [Hc Hl]. apply IH; assumption.
Qed.

Lemma forallb_firstn {A} (f : A -> bool) n l :
  forallb f l = true -> forallb f (firstn n l) = true.
Proof.
  revert n. induction l as [|x l IH]; intros [|n] H; simpl; try reflexivity.
  simpl in H. apply andb_prop in H as [Hx Hl]. rewrite Hx, (IH n Hl). reflexivity.
Qed.

Lemma forallb_skipn {A} (f : A -> bool) n l :
  forallb f l = true -> forallb f (skipn n l) = true.
Proof.
  revert n. induction l as [|x l IH]; intros [|n] H; simpl; try reflexivity; [exact H|].
  simpl in H. apply andb_prop in H as [Hx Hl]. apply IH, Hl.
Qed.

(** The postal-code pattern on a run of digits: all of it or nothing. *)
Lemma scan_cep_digits ds :
  forallb is_digit ds = true ->
  scan_cep None ds = if (List.length ds =? 8)%nat then Some ds else None.
Proof.
  intros Hd.
  assert (Hm : match_cep_at None ds
               = if (List.length ds =? 8)%nat then Some ds else None).
  { destruct (List.length ds =? 8)%nat eqn:E.
    - apply Nat.eqb_eq in E.
      rewrite <- (firstn_skipn 5 ds) at 2.
      apply (match_cep_at_complete None ds (firstn 5 ds) [] (skipn 5 ds) []);
        [|reflexivity | reflexivity].
      repeat split.
      + rewrite app_nil_r. simpl. symmetry. apply firstn_skipn.
      + rewrite length_firstn. lia.
      + apply forallb_firstn, Hd.
      + left. reflexivity.
      + rewrite length_skipn. lia.
      + apply forallb_skipn, Hd.
    - destruct (match_cep_at None ds) as [d|] eqn:M; [|reflexivity].
      exfalso. apply Nat.eqb_neq in E. apply E.
      destruct (match_cep_at_sound _ _ _ M) as (d5 & hy & d3 & post & Sh & _ & _ & Hpost).
      destruct Sh as (-> & L5 & D5 & Hhy & L3 & D3).
      rewrite !forallb_app in Hd.
      apply andb_prop in Hd as [_ Hd]. apply andb_prop in Hd as [Hh Hd].
      apply andb_prop in Hd as [_ Hp].
      destruct Hhy as [-> | ->]; [|discriminate Hh].
      destruct post as [|p post].
      + rewrite !length_app, L5, L3. reflexivity.
      + rewrite (head_digit_is_word (p :: post)) in Hpost;
          [discriminate | discriminate | exact Hp]. }
  destruct ds as [|c r].
  - reflexivity.
  - simpl scan_cep. rewrite Hm.
    destruct (List.length (c :: r) =? 8)%nat; [reflexivity|].
    simpl in Hd. apply andb_prop in Hd as [Hc Hr]. apply scan_cep_inside; assumption.
Qed.

Lemma span_digits_all n ds :
  forallb is_digit ds = true -> span_digits n ds = (firstn n ds, skipn n ds).
Proof.
  revert ds. induction n as [|n IH]; intros ds Hd; [reflexivity|].
  destruct ds as [|c r]; [reflexivity|]. simpl in *.
  apply andb_prop in Hd as [Hc Hr]. rewrite Hc, (IH r Hr). reflexivity.
Qed.

(** The quantity pattern on a run of digits: all of it when it has one
    to four digits, nothing otherwise. *)
Lemma scan_quantity_digits ds :
  forallb is_digit ds = true ->
  scan_quantity None ds
  = if (1 <=? List.length ds)%nat && (List.length ds <=? 4)%nat then Some ds else None.
Proof.
  intros Hd. destruct ds as [|c r]; [reflexivity|].
  assert (Hm : match_quantity_at None (c :: r)
               = if (List.length (c :: r) <=? 4)%nat then Some (c :: r) else None).
  { unfold match_quantity_at.
    assert (Hb : word_boundary None (head (c :: r)) = true).
    { unfold word_boundary. rewrite (head_digit_is_word (c :: r)); [reflexivity | discriminate | exact Hd]. }
    rewrite Hb, (span_digits_all 4 _ Hd).
    destruct (List.length (c :: r) <=? 4)%nat eqn:E.
    - apply Nat.leb_le in E.
      rewrite firstn_all2 by exact E. rewrite skipn_all2 by exact E.
      unfold word_boundary. rewrite last_digit_is_word; [reflexivity | discriminate | exact Hd].
    - apply Nat.leb_gt in E.
      destruct (firstn 4 (c :: r)) as [|f fs] eqn:Ef; [reflexivity|].
      unfold word_boundary.
      rewrite last_digit_is_word;
        [| discriminate | rewrite <- Ef; apply forallb_firstn, Hd].
      rewrite head_digit_is_word; [reflexivity | | apply forallb_skipn, Hd].
      intros Hs. apply (f_equal (@List.length ascii)) in Hs.
      rewrite length_skipn in Hs. simpl in Hs, E. lia. }
  simpl scan_quantity. rewrite Hm.
  change (1 <=? List.length (c :: r))%nat with true. rewrite andb_true_l.
  destruct (List.length (c :: r) <=? 4)%nat; [reflexivity|].
  simpl in Hd. apply andb_prop in Hd as [Hc Hr]. apply scan_quantity_inside; assumption.
Qed.

Lemma digit_value c :
  is_digit c = true -> (0 <= Z.of_nat (nat_of_ascii c) - 48 <= 9)%Z.
Proof.
  unfold is_digit. intros H. apply andb_prop in H as [H1 H2].
  apply Nat.leb_le in H1, H2. lia.
Qed.

Lemma parse_digits_bound ds :
  forallb is_digit ds = true ->
  (0 <= parse_digits ds < 10 ^ Z.of_nat (List.length ds))%Z.
Proof.
  unfold parse_digits. intros Hd.
  assert (G : forall acc, (0 <= acc)%Z ->
            (0 <= fold_left (fun a c => (a * 10 + (Z.of_nat (nat_of_ascii c) - 48))%Z) ds acc
             < (acc + 1) * 10 ^ Z.of_nat (List.length ds))%Z).
  { induction ds as [|c ds IH]; intros acc Hacc.
    - simpl. lia.
    - simpl in Hd. apply andb_prop in Hd as [Hc Hds].
      pose proof (digit_value c Hc) as Hv.
      specialize (IH Hds (acc * 10 + (Z.of_nat (nat_of_ascii c) - 48))%Z ltac:(lia)).
      simpl fold_left. split; [apply IH|].
      eapply Z.lt_le_trans; [apply IH|].
      change (List.length (c :: ds)) with (S (List.length ds)).
      rewrite Nat2Z.inj_succ, Z.pow_succ_r by lia.
      assert (0 < 10 ^ Z.of_nat (List.length ds))%Z by (apply Z.pow_pos_nonneg; lia).
      nia. }
  specialize (G 0%Z ltac:(lia)). lia.
Qed.

(** X15: a message whose normalised text is nothing but digits is read
    by its length alone: eight digits are a postal code, one to four
    digits with a value above zero are a quantity, and anything else
    (no digit at all, only zeros, five to seven digits, nine or more) is
    UNKNOWN. *)
Theorem classify_digits (normalize : string -> string) (message : string)
        (ds : list ascii) :
  normalize message = of_chars ds ->
  forallb is_digit ds = true ->
  classify normalize message = digits_intent ds.
Proof.
  intros Hn Hd. unfold classify, digits_intent. rewrite Hn.
  unfold isResetIntent, isCancelIntent, isHelpIntent, isFreightQuery, isTrackingQuery,
    isPaymentQuery, isHumanSupportRequest.
  rewrite !(some_keyword_digits _ ds) by (reflexivity || exact Hd).
  unfold extractCEP, extractQuantity. rewrite chars_of_chars.
  rewrite (scan_cep_digits ds Hd), (scan_quantity_digits ds Hd).
  destruct (List.length ds =? 8)%nat eqn:E8; [reflexivity|]. cbn [option_map fmap option_fmap].
  destruct ((1 <=? List.length ds)%nat && (List.length ds <=? 4)%nat) eqn:E4;
    [|reflexivity].
  cbn [andb]. apply andb_prop in E4 as [_ E4]. apply Nat.leb_le in E4.
  pose proof (parse_digits_bound ds Hd) as [_ Hb].
  assert (Hlt : (parse_digits ds <? 10000)%Z = true).
  { apply Z.ltb_lt. eapply Z.lt_le_trans; [exact Hb|].
    change 10000%Z with (10 ^ 4)%Z. apply Z.pow_le_mono_r; lia. }
  rewrite Hlt, andb_true_r.
  destruct (0 <? parse_digits ds)%Z; reflexivity.
Qed.

Lemma classify_digits_witness :
  classify normalize_ascii "0042" = digits_intent (chars "0042").
Proof.
  apply (classify_digits normalize_ascii "0042" (chars "0042")).
  - reflexivity.
  - reflexivity.
Defined.

End ClassifierOutputProperties.

(** * Further properties of the ranking engine *)

Section RankingScoreProperties.
Import JsArray Ranking Spec.
Local Open Scope Q_scope.

(** X16: for a non-empty array of options with prices and delivery days
    above zero, the ranked options are the working options, each once,
    in ascending order of score; [bestOption] and
    [bestCostBenefit] are the head of that list, so no option scores
    less than the best. *)
Theorem calculateRanking_ranked (options : list FreightOption)
        (strategy : RankingStrategy) (context : option EconomicContext) :
  options <> [] ->
  (forall o, In o options -> 0 < price o /\ 0 < deliveryDays o) ->
  exists best,
    bestOption (calculateRanking options strategy context) = Some best
    /\ head (ranked_options (calculateRanking options strategy context)) = Some best
    /\ get_field "bestCostBenefit" (calculateRanking options strategy context)
       = Some (VScored best)
    /\ Permutation (map option_of (ranked_options (calculateRanking options strategy context)))
                   (working_options options context)
    /\ List.length (ranked_options (calculateRanking options strategy context))
       = List.length options
    /\ StronglySorted (fun a b => score a <= score b)
                      (ranked_options (calculateRanking options strategy context))
    /\ (forall o, In o (ranked_options (calculateRanking options strategy context)) ->
                  score best <= score o).
Proof.
  intros Hne _.
  destruct (calculateRanking_ranked_inv options strategy context Hne)
    as (c & f & mm & best & rest & _ & _ & Hs & Hr).
  exists best. rewrite Hr. unfold bestOption, ranked_options. simpl get_field.
  split; [reflexivity|]. split; [reflexivity|]. split; [reflexivity|].
  assert (Hsorted : StronglySorted (fun a b => score a <= score b) (best :: rest)).
  { rewrite <- Hs. eapply StronglySorted_impl;
      [|apply (sort_by_sorted by_score (key_total score) (key_trans score))].
    intros a b. apply key_before. }
  split; [|split; [|split; [exact Hsorted|]]].
  - rewrite <- Hs.
    rewrite (Permutation_map option_of (sort_by_perm by_score _)).
    rewrite option_of_score_option. reflexivity.
  - rewrite <- Hs. rewrite (Permutation_length (sort_by_perm by_score _)).
    rewrite length_map. destruct context; simpl; [apply length_map | reflexivity].
  - intros o [<- | Ho]; [lra|].
    apply StronglySorted_inv in Hsorted as [_ Hall].
    rewrite List.Forall_forall in Hall. apply Hall, Ho.
Qed.

Lemma calculateRanking_ranked_witness :
  exists best,
    bestOption (calculateRanking sample_candidates DEFAULT_STRATEGY None) = Some best
    /\ head (ranked_options (calculateRanking sample_candidates DEFAULT_STRATEGY None))
       = Some best
    /\ get_field "bestCostBenefit" (calculateRanking sample_candidates DEFAULT_STRATEGY None)
       = Some (VScored best)
    /\ Permutation
         (map option_of
              (ranked_options (calculateRanking sample_candidates DEFAULT_STRATEGY None)))
         (working_options sample_candidates None)
    /\ List.length (ranked_options (calculateRanking sample_candidates DEFAULT_STRATEGY None))
       = List.length sample_candidates
    /\ StronglySorted (fun a b => score a <= score b)
                      (ranked_options (calculateRanking sample_candidates DEFAULT_STRATEGY None))
    /\ (forall o, In o (ranked_options
                          (calculateRanking sample_candidates DEFAULT_STRATEGY None)) ->
                  score best <= score o).
Proof.
  apply (calculateRanking_ranked sample_candidates DEFAULT_STRATEGY None).
  - discriminate.
  - intros o Ho. simpl in Ho.
    repeat (destruct Ho as [<- | Ho]; [split; reflexivity|]). contradiction.
Defined.

(** X17: the economics attached to an option, in the arithmetic of the
    runtime.  With a selling price above zero the margin does not rise
    when the freight price rises, so an option of least price is an
    option of best margin; with a selling price of zero or less every
    margin is 0, the net revenue being the rounded difference of selling
    price and freight price and the profit what is left of it after the
    two costs, each difference rounded. *)
Theorem margin_falls_with_price (context : EconomicContext) (a b : FreightOption) :
  (0 < sellingPrice context ->
   price a <= price b ->
   margin_or_zero (with_economics context b) <= margin_or_zero (with_economics context a))
  /\ (sellingPrice context <= 0 ->
      economics (with_economics context a)
      = Some (mkMetrics
                (Num.sub (sellingPrice context) (price a))
                (Num.sub (Num.sub (Num.sub (sellingPrice context) (price a))
                                  (productCost context))
                         match operationalCost context with
                         | Some c => if Qeq_bool c 0 then 0 else c
                         | None => 0
                         end)
                0)).
Proof.
  split.
  - intros Hs Hp.
    assert (Hpos : Qle_bool (sellingPrice context) 0 = false)
      by (apply Qle_bool_false; exact Hs).
    unfold margin_or_zero, with_economics. simpl. rewrite Hpos. simpl.
    set (oc := match operationalCost context with
               | Some c => or_default c 0
               | None => 0
               end).
    set (sp := sellingPrice context) in *. set (pc := productCost context).
    set (ma := Num.mul (Num.div (Num.sub (Num.sub (Num.sub sp (price a)) pc) oc) sp) 100).
    set (mb := Num.mul (Num.div (Num.sub (Num.sub (Num.sub sp (price b)) pc) oc) sp) 100).
    assert (Hm : mb <= ma).
    { unfold ma, mb, Num.mul, Num.div, Num.sub.
      apply round_mono. apply Qmult_le_compat_r; [|discriminate].
      apply round_mono. unfold Qdiv. apply Qmult_le_compat_r;
        [|apply Qlt_le_weak, Qinv_lt_0_compat, Hs].
      apply round_mono. apply Qplus_le_l.
      apply round_mono. apply Qplus_le_l.
      apply round_mono. apply Qplus_le_r. apply Qopp_le_compat. exact Hp. }
    unfold or_default.
    destruct (Qeq_bool mb 0) eqn:Eb; destruct (Qeq_bool ma 0) eqn:Ea;
      try apply Qeq_bool_iff in Ea; try apply Qeq_bool_iff in Eb; lra.
  - intros Hs. apply Qle_bool_iff in Hs.
    unfold with_economics. simpl. rewrite Hs. reflexivity.
Qed.

(** Prices 20 and 40 against a selling price of 100; and, with nothing
    to sell for, a price of 20.1 and a product cost of 50.2: the profit
    is -70.30000000000001. *)
Lemma margin_falls_with_price_witness :
  margin_or_zero (with_economics sample_economics
                    (mkOption "b" "Carrier B" "Express" 40 3 melhor_envio None))
  <= margin_or_zero (with_economics sample_economics
                       (mkOption "a" "Carrier A" "Economy" 20 10 melhor_envio None))
  /\ economics (with_economics
                  (mkEconomic (6 # 10) (4 # 10) 0 (Num.lit (502 # 10)) 0 None)
                  (mkOption "a" "Carrier A" "Economy" (Num.lit (201 # 10)) 10 melhor_envio None))
     = Some (mkMetrics (- Num.lit (201 # 10))
                       (Num.lit (-7030000000000001 # 100000000000000)) 0).
Proof.
  split.
  - apply (margin_falls_with_price sample_economics
             (mkOption "a" "Carrier A" "Economy" 20 10 melhor_envio None)
             (mkOption "b" "Carrier B" "Express" 40 3 melhor_envio None)).
    + reflexivity.
    + simpl. lra.
  - refine (eq_trans
              (proj2 (margin_falls_with_price
                        (mkEconomic (6 # 10) (4 # 10) 0 (Num.lit (502 # 10)) 0 None)
                        (mkOption "a" "Carrier A" "Economy" (Num.lit (201 # 10)) 10
                                  melhor_envio None)
                        (mkOption "a" "Carrier A" "Economy" (Num.lit (201 # 10)) 10
                                  melhor_envio None)) _) _).
    + simpl. lra.
    + vm_compute. reflexivity.
Defined.



(** The score when the margin weighs nothing. *)
Lemma score_without_margin strategy context mp mt mm o :
  truthy_weight (s_marginWeight strategy) = None ->
  score (score_option strategy context mp mt mm o)
  = price o / mp * s_priceWeight strategy + deliveryDays o / mt * s_timeWeight strategy + 0.
Proof.
  intros Hw. unfold score_option. simpl. rewrite Hw. destruct context; reflexivity.
Qed.



(** X19: with normalisers above zero, weights that are not negative and
    no margin weight, an option that is neither dearer nor slower than
    another never scores worse than it. *)
Theorem score_respects_dominance (strategy : RankingStrategy)
        (context : option EconomicContext) (minPrice minTime maxMargin : Q)
        (a b : FreightOption) :
  0 < minPrice -> 0 < minTime ->
  0 <= s_priceWeight strategy -> 0 <= s_timeWeight strategy ->
  truthy_weight (s_marginWeight strategy) = None ->
  price a <= price b ->
  deliveryDays a <= deliveryDays b ->
  score (score_option strategy context minPrice minTime maxMargin a)
  <= score (score_option strategy context minPrice minTime maxMargin b).
Proof.
  intros Hp Ht Hpw Htw Hmw Hab Hdab.
  rewrite !(score_without_margin _ _ _ _ _ _ Hmw).
  assert (H1 : price a / minPrice * s_priceWeight strategy
               <= price b / minPrice * s_priceWeight strategy).
  { apply Qmult_le_compat_r; [|exact Hpw]. unfold Qdiv.
    apply Qmult_le_compat_r; [exact Hab|]. apply Qlt_le_weak, Qinv_lt_0_compat, Hp. }
  assert (H2 : deliveryDays a / minTime * s_timeWeight strategy
               <= deliveryDays b / minTime * s_timeWeight strategy).
  { apply Qmult_le_compat_r; [|exact Htw]. unfold Qdiv.
    apply Qmult_le_compat_r; [exact Hdab|]. apply Qlt_le_weak, Qinv_lt_0_compat, Ht. }
  lra.
Qed.

Lemma score_respects_dominance_witness :
  score (score_option DEFAULT_STRATEGY None 20 3 1
           (mkOption "a" "Carrier A" "Economy" 20 8 melhor_envio None))
  <= score (score_option DEFAULT_STRATEGY None 20 3 1
              (mkOption "c" "Carrier C" "Standard" 25 8 tabela None)).
Proof.
  apply (score_respects_dominance DEFAULT_STRATEGY None 20 3 1
           (mkOption "a" "Carrier A" "Economy" 20 8 melhor_envio None)
           (mkOption "c" "Carrier C" "Standard" 25 8 tabela None)).
  - reflexivity.
  - reflexivity.
  - simpl; lra.
  - simpl; lra.
  - reflexivity.
  - simpl; lra.
  - simpl; lra.
Defined.

End RankingScoreProperties.

(** * Further properties of the freight service *)

Section FreightServiceProperties.
Import JsArray Freight Spec Vocabulary Samples.
Local Open Scope Q_scope.

Section Service.
Variable cfg : AppConfig.
Variable melhorEnvio : ShippingQuoteRequest -> Result (list FreightOption).
Variable numberToString : Q -> string.

Lemma bind_throw_inv {S A B} (m : M S A) (k : A -> M S B) (s s' : S) (e : BaseError) :
  bind m k s = (s', Throw e) ->
  m s = (s', Throw e) \/ exists a s1, m s = (s1, Ok a) /\ k a s1 = (s', Throw e).
Proof.
  unfold bind. destruct (m s) as [s1 [a|e1]]; intros H.
  - right. eauto.
  - left. injection H as <- <-. reflexivity.
Qed.

(** The errors of the steps of [calculateFreight]. *)
Lemma validateRequest_throw_inv (req : FreightRequest) (w w' : World) e :
  validateRequest req w = (w', Throw e) ->
  isBusinessError e = true /\ freight_error_code (err_code e) = true.
Proof.
  unfold validateRequest.
  destruct (negb _); [intros [= <- <-]; split; reflexivity|].
  destruct (_ || _); [intros [= <- <-]; split; reflexivity | discriminate].
Qed.

Lemma fetchQuotes_throw_inv (req : FreightRequest) tw s (w w' : World) e :
  fetchQuotes melhorEnvio req tw s w = (w', Throw e) ->
  isBusinessError e = true
  /\ ((forall rq e', melhorEnvio rq = Throw e' -> isBusinessError e' = false) ->
      freight_error_code (err_code e) = true).
Proof.
  unfold fetchQuotes, try_catch.
  match goal with |- context [bind ?m ?k w] => destruct (bind m k w) as [w1 [a|e1]] eqn:B end;
    [discriminate|].
  destruct (isBusinessError e1) eqn:Hb; unfold throw; intros [= <- <-];
    [|split; reflexivity].
  split; [exact Hb|]. intros Hprov.
  apply bind_throw_inv in B as [B | (a & s1 & _ & B)].
  - destruct (queries_melhorenvio s); [|discriminate B].
    destruct (melhorEnvio _) as [qs|e'] eqn:Em; [discriminate B|].
    injection B as <- <-. apply Hprov in Em. congruence.
  - destruct (a ++ _)%list; [|discriminate B]. injection B as <- <-. reflexivity.
Qed.

Lemma persistSimulation_throw_inv (r : SimulationRow) (w w' : World) e :
  persistSimulation r w = (w', Throw e) ->
  e = businessError FREIGHT_CALCULATION_ERROR "Failed to persist simulation result".
Proof.
  unfold persistSimulation, try_catch, saveSimulation.
  destruct (database_up w); [discriminate|]. intros [= <- <-]. reflexivity.
Qed.

(** X20: whatever goes wrong, [calculateFreight] throws a BusinessError;
    and unless the remote provider itself throws a BusinessError, the
    code is one of INVALID_CEP, INVALID_QUANTITY, NO_FREIGHT_OPTIONS and
    FREIGHT_CALCULATION_ERROR. *)
Theorem calculateFreight_throws_business_errors (req : FreightRequest) (w w' : World)
        (e : BaseError) :
  calculateFreight cfg melhorEnvio numberToString req w = (w', Throw e) ->
  isBusinessError e = true
  /\ ((forall rq e', melhorEnvio rq = Throw e' -> isBusinessError e' = false) ->
      freight_error_code (err_code e) = true).
Proof.
  unfold calculateFreight, try_catch.
  match goal with |- context [bind ?m ?k w] => destruct (bind m k w) as [w1 [res|e1]] eqn:B end;
    [discriminate|].
  destruct (isBusinessError e1) eqn:Hb; unfold throw; intros [= <- <-];
    [|split; reflexivity].
  split; [exact Hb|]. intros Hprov.
  apply bind_throw_inv in B as [B | ([] & s1 & _ & B)].
  { apply validateRequest_throw_inv in B. apply B. }
  apply bind_throw_inv in B as [B | (cached & s2 & _ & B)]; [discriminate B|].
  destruct cached as [c|]; [discriminate B|].
  apply bind_throw_inv in B as [B | (options & s3 & _ & B)].
  { apply fetchQuotes_throw_inv in B. apply B, Hprov. }
  destruct (sortAndLimitOptions cfg options) as [|best rest].
  { injection B as <- <-. discriminate Hb. }
  apply bind_throw_inv in B as [B | (uuid & s4 & _ & B)]; [discriminate B|].
  apply bind_throw_inv in B as [B | ([] & s5 & _ & B)].
  { apply persistSimulation_throw_inv in B. subst e1. reflexivity. }
  apply bind_throw_inv in B as [B | ([] & s6 & _ & B)].
  { unfold cacheResult in B. destruct (Redis.set _ _ _ _ _). discriminate B. }
  apply bind_throw_inv in B as [B | (t & s7 & _ & B)]; discriminate B.
Qed.

(** X21: a request that passes validation and hits the cache is
    answered with the cached result as it is; the provider is not asked,
    no row is persisted and the cache is not rewritten. *)
Theorem calculateFreight_cache_hit (req : FreightRequest) (w : World)
        (cached : FreightResult) :
  Chars.is_cep8 (destinationCep req) = true ->
  0 < quantity req <= 9999 ->
  Redis.get (cache w) (cache_key numberToString req (total_weight cfg req)) = Some cached ->
  calculateFreight cfg melhorEnvio numberToString req w = (w, Ok cached).
Proof.
  intros Hc Hq Hhit. unfold calculateFreight, try_catch, bind.
  rewrite (validateRequest_ok req w Hc Hq).
  unfold getCachedResult, gets. rewrite Hhit. reflexivity.
Qed.

(** X22: validation comes before everything else and the destination
    is looked at first: a destination that is not eight digits is
    INVALID_CEP whatever the quantity, and with a good destination a
    quantity of zero or less, or above 9999, is INVALID_QUANTITY; in
    both cases the world is left as it was, even when the cache holds an
    answer for the request. *)
Theorem calculateFreight_rejects_invalid (req : FreightRequest) (w : World) :
  (Chars.is_cep8 (destinationCep req) = false ->
   calculateFreight cfg melhorEnvio numberToString req w
     = (w, Throw (businessError INVALID_CEP "Invalid CEP format")))
  /\ (Chars.is_cep8 (destinationCep req) = true ->
      quantity req <= 0 \/ 9999 < quantity req ->
      calculateFreight cfg melhorEnvio numberToString req w
        = (w, Throw (businessError INVALID_QUANTITY "Invalid quantity"))).
Proof.
  split.
  - intros Hc. unfold calculateFreight, try_catch, bind, validateRequest.
    rewrite Hc. reflexivity.
  - intros Hc Hq. unfold calculateFreight, try_catch, bind, validateRequest.
    rewrite Hc. simpl.
    assert (Hb : Qle_bool (quantity req) 0 || negb (Qle_bool (quantity req) 9999) = true).
    { destruct Hq as [Hq | Hq].
      - apply Qle_bool_iff in Hq. rewrite Hq. reflexivity.
      - apply Qle_bool_false in Hq. rewrite Hq. apply orb_true_r. }
    rewrite Hb. reflexivity.
Qed.

(** X23: a failure of the remote provider fails the whole request.  For
    a well-formed request that misses the cache and weighs at most 15 kg
    (so that the remote provider is queried), if the provider throws an
    error that is not a BusinessError, the call throws
    FREIGHT_CALCULATION_ERROR and leaves the world as it was: between 10
    and 15 kg the quote of the table provider is not used to answer. *)
Theorem calculateFreight_provider_failure (req : FreightRequest) (w : World)
        (e : BaseError) :
  Chars.is_cep8 (destinationCep req) = true ->
  0 < quantity req <= 9999 ->
  Redis.get (cache w) (cache_key numberToString req (total_weight cfg req)) = None ->
  total_weight cfg req <= 15 ->
  melhorEnvio (mkQuoteRequest (destinationCep req) (total_weight cfg req)
                              (quantity req) (dimensions req)) = Throw e ->
  isBusinessError e = false ->
  calculateFreight cfg melhorEnvio numberToString req w
    = (w, Throw (businessError FREIGHT_CALCULATION_ERROR "Failed to fetch freight quotes")).
Proof.
  intros Hc Hq Hmiss Hw Hme Hb.
  assert (Hs : queries_melhorenvio (strategy (decideStrategy (total_weight cfg req))) = true).
  { destruct (decideStrategy_ranges (total_weight cfg req)) as (H1 & H2 & _).
    destruct (Qlt_le_dec 10 (total_weight cfg req)) as [Hgt | Hle].
    - rewrite H2 by lra. reflexivity.
    - rewrite H1 by lra. reflexivity. }
  unfold calculateFreight, try_catch, bind.
  rewrite (validateRequest_ok req w Hc Hq).
  unfold getCachedResult, gets. rewrite Hmiss.
  unfold fetchQuotes, try_catch, bind. rewrite Hs, Hme. unfold throw. rewrite Hb.
  reflexivity.
Qed.

Lemma sort_by_sorted_id {A} (cmp : A -> A -> Q) (l : list A) :
  StronglySorted (before_eq cmp) l -> sort_by cmp l = l.
Proof.
  induction 1 as [|x l S IH Hall]; [reflexivity|].
  simpl. rewrite IH. destruct l as [|y r]; [reflexivity|].
  simpl. apply Forall_inv in Hall. unfold before_eq in Hall. rewrite Hall. reflexivity.
Qed.

Lemma sortAndLimitOptions_sorted (options : list FreightOption) :
  sortAndLimitOptions cfg (sort_by by_price_then_time options)
  = sortAndLimitOptions cfg options.
Proof.
  unfold sortAndLimitOptions. rewrite sort_by_sorted_id; [reflexivity|].
  apply sort_by_sorted; [apply by_price_then_time_total | apply by_price_then_time_trans].
Qed.

(** X24: when the simulation row cannot be written, the request fails
    with FREIGHT_CALCULATION_ERROR and nothing is cached: the world is
    left as it was. *)
Theorem calculateFreight_persist_failure (req : FreightRequest) (w : World)
        (me : list FreightOption) :
  Chars.is_cep8 (destinationCep req) = true ->
  0 < quantity req <= 9999 ->
  Redis.get (cache w) (cache_key numberToString req (total_weight cfg req)) = None ->
  melhorenvio_answer melhorEnvio req (total_weight cfg req)
                     (strategy (decideStrategy (total_weight cfg req))) = Ok me ->
  (me ++ tabela_answer (total_weight cfg req)
                       (strategy (decideStrategy (total_weight cfg req))))%list <> [] ->
  (1 <= freight_maxOptionsToReturn cfg)%Z ->
  database_up w = false ->
  calculateFreight cfg melhorEnvio numberToString req w
    = (w, Throw (businessError FREIGHT_CALCULATION_ERROR
                   "Failed to persist simulation result")).
Proof.
  intros Hc Hq Hmiss Hme Hne Hcap Hdb.
  unfold calculateFreight, try_catch, bind.
  rewrite (validateRequest_ok req w Hc Hq).
  unfold getCachedResult, gets. rewrite Hmiss.
  rewrite (fetchQuotes_merge _ _ _ _ _ _ Hme).
  destruct (me ++ tabela_answer _ _)%list as [|o os] eqn:Em; [congruence|].
  assert (Hs : exists best rest, sortAndLimitOptions cfg (o :: os) = best :: rest).
  { unfold sortAndLimitOptions, slice0.
    destruct (freight_maxOptionsToReturn cfg <? 0)%Z eqn:E; [lia|].
    pose proof (sort_by_nonempty by_price_then_time (o :: os) ltac:(discriminate)) as Hn.
    destruct (sort_by by_price_then_time (o :: os)) as [|b r]; [congruence|].
    destruct (Z.to_nat (freight_maxOptionsToReturn cfg)) eqn:En; [lia|].
    simpl. eauto. }
  destruct Hs as (best & rest & Hs). rewrite Hs.
  unfold persistSimulation, try_catch, saveSimulation. simpl. rewrite Hdb. reflexivity.
Qed.

(** X25: an answer is persisted once and then served from the cache.
    For a well-formed request that misses a reachable cache, with a
    non-empty merge, the database up and a cap of at least one, the call
    appends exactly one row, which records the first option of the
    answer and, as margin, the binary64 product of its price and 0.2,
    and the same request made again while the entry is cached is
    answered with the same options, weight and request, and changes
    nothing. *)
Theorem calculateFreight_then_cached (req : FreightRequest) (w : World)
        (me : list FreightOption) :
  Chars.is_cep8 (destinationCep req) = true ->
  0 < quantity req <= 9999 ->
  Redis.connected (cache w) = true -> Redis.answering (cache w) = true ->
  Redis.store (cache w) !! cache_key numberToString req (total_weight cfg req) = None ->
  melhorenvio_answer melhorEnvio req (total_weight cfg req)
                     (strategy (decideStrategy (total_weight cfg req))) = Ok me ->
  (me ++ tabela_answer (total_weight cfg req)
                       (strategy (decideStrategy (total_weight cfg req))))%list <> [] ->
  (1 <= freight_maxOptionsToReturn cfg)%Z ->
  database_up w = true ->
  exists w' res best,
    calculateFreight cfg melhorEnvio numberToString req w = (w', Ok res)
    /\ head (options res) = Some best
    /\ simulations w' = (simulations w ++ [simulation_row cfg w req best])%list
    /\ exists res',
         calculateFreight cfg melhorEnvio numberToString req w' = (w', Ok res')
         /\ options res' = options res /\ totalWeight res' = totalWeight res
         /\ request res' = request res.
Proof.
  intros Hc Hq Hcon Hans Hmiss Hme Hne Hcap Hdb.
  destruct w as [[c a st] sims db nw uuid]. simpl in *. subst c a db.
  set (w := mkWorld (Redis.mkState true true st) sims true nw uuid).
  set (merged := (me ++ tabela_answer (total_weight cfg req)
                          (strategy (decideStrategy (total_weight cfg req))))%list) in *.
  assert (Hs : exists best rest, sortAndLimitOptions cfg merged = best :: rest).
  { unfold sortAndLimitOptions, slice0.
    destruct (freight_maxOptionsToReturn cfg <? 0)%Z eqn:E; [lia|].
    pose proof (sort_by_nonempty by_price_then_time merged Hne) as Hn.
    destruct (sort_by by_price_then_time merged) as [|b r]; [congruence|].
    destruct (Z.to_nat (freight_maxOptionsToReturn cfg)) eqn:En; [lia|].
    simpl. eauto. }
  destruct Hs as (best & rest & Hs).
  set (res := mkResult true (best :: rest) (total_weight cfg req) req nw).
  set (key := cache_key numberToString req (total_weight cfg req)) in *.
  set (w' := mkWorld (Redis.mkState true true (<[key := Redis.mkEntry res 600%Z]> st))
                     (sims ++ [simulation_row cfg w req best])%list true nw uuid).
  assert (Hfirst : calculateFreight cfg melhorEnvio numberToString req w = (w', Ok res)).
  { unfold calculateFreight, try_catch, bind.
    rewrite (validateRequest_ok req w Hc Hq).
    unfold getCachedResult, gets, Redis.get, Redis.reachable. simpl.
    fold key. rewrite Hmiss. simpl.
    rewrite (fetchQuotes_merge _ _ _ _ _ _ Hme). fold merged.
    destruct merged as [|o os] eqn:Em; [congruence|]. rewrite <- Em in *.
    rewrite Hs.
    unfold persistSimulation, try_catch, saveSimulation, cacheResult. simpl.
    rewrite sortAndLimitOptions_sorted, Hs. reflexivity. }
  exists w', res, best. split; [exact Hfirst|]. split; [reflexivity|].
  split; [reflexivity|].
  exists res. split; [|auto].
  unfold calculateFreight, try_catch, bind.
  rewrite (validateRequest_ok req w' Hc Hq).
  unfold getCachedResult, gets, Redis.get, Redis.reachable. simpl.
  fold key. rewrite lookup_insert_eq. reflexivity.
Qed.

(** X26: between 15 and 30 kg the answer is the table quote alone.  For
    a well-formed request that misses the cache, with the database up
    and a cap of at least one, a total weight above 15 and at most 30 kg
    is answered with exactly one option, the road quote of the table at
    45 + 2.5 x weight (both operations in binary64) and 5 days,
    whatever the remote provider would say. *)
Theorem calculateFreight_table_only (req : FreightRequest) (w : World) :
  Chars.is_cep8 (destinationCep req) = true ->
  0 < quantity req <= 9999 ->
  Redis.get (cache w) (cache_key numberToString req (total_weight cfg req)) = None ->
  15 < total_weight cfg req <= 30 ->
  (1 <= freight_maxOptionsToReturn cfg)%Z ->
  database_up w = true ->
  exists w',
    calculateFreight cfg melhorEnvio numberToString req w
      = (w', Ok (mkResult true [table_quote (total_weight cfg req)]
                          (total_weight cfg req) req (now w))).
Proof.
  intros Hc Hq Hmiss [Hw1 Hw2] Hcap Hdb.
  assert (Hs : strategy (decideStrategy (total_weight cfg req)) = TABELA_ONLY).
  { apply (decideStrategy_ranges (total_weight cfg req)). exact Hw1. }
  assert (Ht : tabela_calculateShipping (total_weight cfg req)
               = [table_quote (total_weight cfg req)]).
  { unfold tabela_calculateShipping. apply Qle_bool_iff in Hw2. rewrite Hw2. reflexivity. }
  destruct (calculateFreight_answered cfg melhorEnvio numberToString req w []
              (table_quote (total_weight cfg req)) [] Hc Hq Hmiss) as (w' & Hcalc & _).
  - rewrite Hs. reflexivity.
  - exact Hdb.
  - rewrite Hs. unfold tabela_answer. simpl queries_tabela. cbv iota. rewrite Ht.
    unfold sortAndLimitOptions, slice0. simpl.
    destruct (freight_maxOptionsToReturn cfg <? 0)%Z eqn:E; [lia|].
    destruct (Z.to_nat (freight_maxOptionsToReturn cfg)) as [|n] eqn:En; [lia|].
    destruct n; reflexivity.
  - exists w'. exact Hcalc.
Qed.

End Service.

Lemma calculateFreight_throws_business_errors_witness :
  isBusinessError (businessError NO_FREIGHT_OPTIONS
                     "No freight options available for this destination") = true
  /\ ((forall rq e', sample_provider [] rq = Throw e' -> isBusinessError e' = false) ->
      freight_error_code
        (err_code (businessError NO_FREIGHT_OPTIONS
                     "No freight options available for this destination")) = true).
Proof.
  apply (calculateFreight_throws_business_errors dev_config (sample_provider [])
           sample_numberToString (sample_request 5) sample_world sample_world).
  vm_compute. reflexivity.
Defined.

Lemma calculateFreight_cache_hit_witness :
  calculateFreight dev_config failing_provider sample_numberToString (sample_request 5)
                   sample_world_cached = (sample_world_cached, Ok sample_result).
Proof.
  apply (calculateFreight_cache_hit dev_config failing_provider sample_numberToString
           (sample_request 5) sample_world_cached sample_result).
  - reflexivity.
  - simpl; lra.
  - vm_compute. reflexivity.
Defined.

Lemma calculateFreight_rejects_invalid_witness :
  calculateFreight dev_config failing_provider sample_numberToString
                   (mkRequest "0100100" 0 None None) sample_world_cached
  = (sample_world_cached, Throw (businessError INVALID_CEP "Invalid CEP format")).
Proof.
  apply (calculateFreight_rejects_invalid dev_config failing_provider sample_numberToString
           (mkRequest "0100100" 0 None None) sample_world_cached).
  reflexivity.
Defined.

Lemma calculateFreight_provider_failure_witness :
  calculateFreight dev_config failing_provider sample_numberToString (sample_request 40)
                   sample_world
  = (sample_world,
     Throw (businessError FREIGHT_CALCULATION_ERROR "Failed to fetch freight quotes")).
Proof.
  apply (calculateFreight_provider_failure dev_config failing_provider sample_numberToString
           (sample_request 40) sample_world
           (providerError MELHORENVIO_TIMEOUT "Melhor Envio API request timed out" true)).
  - reflexivity.
  - simpl; lra.
  - reflexivity.
  - vm_compute. discriminate.
  - reflexivity.
  - reflexivity.
Defined.

Lemma calculateFreight_persist_failure_witness :
  calculateFreight dev_config (sample_provider sample_quotes) sample_numberToString
                   (sample_request 5) sample_world_database_down
  = (sample_world_database_down,
     Throw (businessError FREIGHT_CALCULATION_ERROR "Failed to persist simulation result")).
Proof.
  apply (calculateFreight_persist_failure dev_config (sample_provider sample_quotes)
           sample_numberToString (sample_request 5) sample_world_database_down
           sample_quotes).
  - reflexivity.
  - simpl; lra.
  - reflexivity.
  - reflexivity.
  - discriminate.
  - simpl. lia.
  - reflexivity.
Defined.

(** Five units and one quote priced 35.5: the row persisted records the
    weight 1.5 and the margin 7.1000000000000005. *)
Lemma calculateFreight_then_cached_witness :
  exists w' res best,
    calculateFreight dev_config (sample_provider [decimal_quote]) sample_numberToString
                     (sample_request 5) sample_world = (w', Ok res)
    /\ head (options res) = Some best
    /\ simulations w'
       = [mkRow "uuid-1" "01001000" (3 # 2) 5 "Carrier E" "Express" (71 # 2)
                (Num.lit (71000000000000005 # 10000000000000000)) MELHORENVIO_ONLY]
    /\ exists res',
         calculateFreight dev_config (sample_provider [decimal_quote]) sample_numberToString
                          (sample_request 5) w' = (w', Ok res')
         /\ options res' = options res /\ totalWeight res' = totalWeight res
         /\ request res' = request res.
Proof.
  destruct (calculateFreight_then_cached dev_config (sample_provider [decimal_quote])
              sample_numberToString (sample_request 5) sample_world [decimal_quote])
    as (w' & res & best & H1 & H2 & H3 & H4).
  - reflexivity.
  - simpl; lra.
  - reflexivity.
  - reflexivity.
  - reflexivity.
  - reflexivity.
  - discriminate.
  - simpl. lia.
  - reflexivity.
  - exists w', res, best. split; [exact H1|]. split; [exact H2|]. split; [|exact H4].
    rewrite H3. vm_compute in H1. injection H1 as _ Hres. rewrite <- Hres in H2.
    vm_compute in H2. injection H2 as <-. vm_compute. reflexivity.
Defined.

(** Fifty-one units weigh 15.299999999999999 kg and the table quotes
    83.25 for them. *)
Lemma calculateFreight_table_only_witness :
  exists w',
    calculateFreight dev_config failing_provider sample_numberToString (sample_request 51)
                     sample_world
    = (w', Ok (mkResult true
                        [mkOption "tabela-1" "Transportadora Local" "Rodoviário"
                                  (333 # 4) 5 tabela]
                        (Num.lit (15299999999999999 # 1000000000000000))
                        (sample_request 51) (now sample_world))).
Proof.
  destruct (calculateFreight_table_only dev_config failing_provider sample_numberToString
              (sample_request 51) sample_world) as [w' H].
  - reflexivity.
  - simpl; lra.
  - reflexivity.
  - vm_compute. split; [reflexivity | discriminate].
  - simpl. lia.
  - reflexivity.
  - exists w'. rewrite H. vm_compute. reflexivity.
Defined.

End FreightServiceProperties.

(** * Melhor Envio provider: retries, errors and parsing *)

Section ProviderProperties.
Import Freight MelhorEnvioProvider Vocabulary Samples.
Local Open Scope Z_scope.

Section Request.
Context {T : Type}.
Variable config : MelhorEnvioConfig.
Variable net : nat -> FetchOutcome T.

Lemma server_error_not_ok status :
  (500 <=? status) = true -> response_ok status = false.
Proof.
  intros H. apply Z.leb_le in H. unfold response_ok.
  apply andb_false_iff. right. apply Z.leb_gt. lia.
Qed.

Lemma total_sleep_app l1 l2 : total_sleep (l1 ++ l2) = total_sleep l1 + total_sleep l2.
Proof.
  induction l1 as [|e l1 IH]; simpl; [reflexivity|].
  destruct e; rewrite IH; lia.
Qed.

Lemma total_sleep_schedule d a k :
  total_sleep (schedule_from d a k) = d * (2 ^ Z.of_nat (a + k) - 2 ^ Z.of_nat a).
Proof.
  revert a. induction k as [|k IH]; intros a; simpl.
  - rewrite Nat.add_0_r. lia.
  - rewrite IH. replace (S a + k)%nat with (a + S k)%nat by lia.
    replace (Z.of_nat (S a)) with (Z.of_nat a + 1) by lia.
    rewrite Z.pow_add_r by lia. lia.
Qed.

(** The loop, entered at any attempt with the iterations that remain. *)
Lemma request_loop_schedule maxRetries fuel attempt lastError l :
  Z.of_nat attempt + Z.of_nat fuel = maxRetries + 1 ->
  (0 < fuel)%nat ->
  exists k,
    Z.of_nat (attempt + k) <= maxRetries
    /\ fst (request_loop config net maxRetries fuel attempt lastError l)
       = (l ++ schedule_from (retryDelay config) attempt k)%list
    /\ (forall i, (i < k)%nat -> is_server_error (net (attempt + i)%nat) = true)
    /\ (forall data, snd (request_loop config net maxRetries fuel attempt lastError l) = Ok data
                     -> exists status, net (attempt + k)%nat = Responded status (Some data)
                                       /\ response_ok status = true).
Proof.
  revert attempt lastError l.
  induction fuel as [|fuel IH]; intros attempt lastError l Hsum Hpos; [lia|].
  assert (Hcaught : forall error,
             ((isProviderError error && err_retryable error) = true
              -> is_server_error (net attempt) = true) ->
             exists k,
               Z.of_nat (attempt + k) <= maxRetries
               /\ fst ((if (Z.of_nat attempt <? maxRetries) && isProviderError error
                            && err_retryable error
                        then
                          bind (log (Slept (retryDelay config * 2 ^ Z.of_nat attempt)))
                               (fun _ => request_loop config net maxRetries fuel (S attempt)
                                                      (Some error))
                        else throw error) (l ++ [Fetched attempt])%list)
                  = (l ++ schedule_from (retryDelay config) attempt k)%list
               /\ (forall i, (i < k)%nat -> is_server_error (net (attempt + i)%nat) = true)
               /\ (forall data,
                      snd ((if (Z.of_nat attempt <? maxRetries) && isProviderError error
                               && err_retryable error
                           then
                             bind (log (Slept (retryDelay config * 2 ^ Z.of_nat attempt)))
                                  (fun _ => request_loop config net maxRetries fuel (S attempt)
                                                         (Some error))
                           else throw error) (l ++ [Fetched attempt])%list) = Ok data
                      -> exists status, net (attempt + k)%nat = Responded status (Some data)
                                        /\ response_ok status = true)).
  { intros error Hsrv.
    destruct ((Z.of_nat attempt <? maxRetries) && isProviderError error
              && err_retryable error) eqn:Hc.
    2:{ exists 0%nat. rewrite Nat.add_0_r. unfold throw.
        repeat split; simpl; try reflexivity; try lia; intros; try lia; discriminate. }
    apply andb_prop in Hc as [Hc Hr]. apply andb_prop in Hc as [Hlt Hp].
    assert (Hre : (isProviderError error && err_retryable error) = true)
      by (rewrite Hp, Hr; reflexivity).
    apply Z.ltb_lt in Hlt.
    destruct (IH (S attempt) (Some error)
                 ((l ++ [Fetched attempt]) ++ [Slept (retryDelay config * 2 ^ Z.of_nat attempt)])%list)
      as (k & Hk & Hlog & Hsrvs & Hok); [lia | lia |].
    exists (S k). unfold bind, log, modify.
    replace (attempt + S k)%nat with (S attempt + k)%nat by lia.
    split; [exact Hk|]. split.
    - rewrite Hlog. simpl. rewrite <- !app_assoc. reflexivity.
    - split; [|exact Hok].
      intros [|i] Hi.
      + rewrite Nat.add_0_r. apply Hsrv. exact Hre.
      + replace (attempt + S i)%nat with (S attempt + i)%nat by lia.
        apply Hsrvs. lia. }
  cbn [request_loop]. unfold bind at 1. unfold log at 1. unfold modify at 1.
  destruct (net attempt) as [status json | |] eqn:Hnet.
  - destruct (response_ok status) eqn:Hok.
    + destruct json as [data|].
      * exists 0%nat. rewrite Nat.add_0_r. unfold ret.
        split; [lia|]. split; [reflexivity|]. split; [intros; lia|].
        simpl. intros d Hd. injection Hd as <-. exists status. rewrite Hnet. auto.
      * apply Hcaught. intros H. discriminate H.
    + apply Hcaught. simpl. intros H. exact H.
  - exists 0%nat. rewrite Nat.add_0_r. unfold throw.
    repeat split; simpl; try reflexivity; try lia; intros; try lia; discriminate.
  - apply Hcaught. intros H. discriminate H.
Qed.

(** X27. Whatever the network answers, a call of [makeRequest] with
    [maxRetries >= 0] fetches at most [maxRetries + 1] times: its trace is
    [k <= maxRetries] retried attempts and a last one, every retried
    attempt was answered with a status of 500 or more, the wait after
    attempt [i] is [retryDelay * 2^i], so the total wait is
    [retryDelay * (2^k - 1)], and a value is returned only from an ok
    answer of the last attempt. *)
Theorem makeRequest_retry_schedule (maxRetries : Z) (l : list IoEvent) :
  0 <= maxRetries ->
  exists k,
    Z.of_nat k <= maxRetries
    /\ fst (makeRequest config net maxRetries l)
       = (l ++ schedule_from (retryDelay config) 0 k)%list
    /\ (forall i, (i < k)%nat -> is_server_error (net i) = true)
    /\ total_sleep (schedule_from (retryDelay config) 0 k) = retryDelay config * (2 ^ Z.of_nat k - 1)
    /\ (forall data, snd (makeRequest config net maxRetries l) = Ok data
                     -> is_answer (net k) = true).
Proof.
  intros Hm. unfold makeRequest.
  destruct (request_loop_schedule maxRetries (Z.to_nat (maxRetries + 1)) 0 None l)
    as (k & Hk & Hlog & Hsrv & Hok); [lia | lia |].
  exists k. simpl in Hk, Hsrv, Hok. repeat split; try assumption.
  - rewrite total_sleep_schedule. simpl. reflexivity.
  - intros data Hd. destruct (Hok data Hd) as (status & Hn & Hs).
    rewrite Hn. exact Hs.
Qed.

(** The loop recovers from server errors while retries remain. *)
Lemma request_loop_recovers maxRetries k :
  forall fuel attempt lastError l status data,
    Z.of_nat attempt + Z.of_nat fuel = maxRetries + 1 ->
    Z.of_nat (attempt + k) <= maxRetries ->
    (forall i, (i < k)%nat -> is_server_error (net (attempt + i)%nat) = true) ->
    net (attempt + k)%nat = Responded status (Some data) ->
    response_ok status = true ->
    request_loop config net maxRetries fuel attempt lastError l
    = ((l ++ schedule_from (retryDelay config) attempt k)%list, Ok data).
Proof.
  induction k as [|k IH]; intros fuel attempt lastError l status data Hsum Hk Hsrv Hnet Hok.
  - rewrite Nat.add_0_r in Hnet. destruct fuel as [|fuel]; [lia|].
    cbn [request_loop]. unfold bind, log, modify. rewrite Hnet, Hok. reflexivity.
  - destruct fuel as [|fuel]; [lia|].
    pose proof (Hsrv 0%nat ltac:(lia)) as H0. rewrite Nat.add_0_r in H0.
    cbn [request_loop]. unfold bind at 1. unfold log at 1. unfold modify at 1.
    destruct (net attempt) as [st json | |] eqn:Ha; try discriminate H0.
    simpl in H0. rewrite (server_error_not_ok _ H0).
    assert (Hlt : (Z.of_nat attempt <? maxRetries) = true) by (apply Z.ltb_lt; lia).
    rewrite Hlt. unfold api_error. simpl. rewrite H0. simpl.
    unfold bind, log, modify.
    rewrite (IH fuel (S attempt) (Some (providerError MELHORENVIO_API_ERROR
                                          ("Melhor Envio API error: " ++ pretty st) true))
                ((l ++ [Fetched attempt]) ++ [Slept (retryDelay config * 2 ^ Z.of_nat attempt)])%list
                status data).
    + simpl. rewrite <- !app_assoc. reflexivity.
    + lia.
    + replace (S attempt + k)%nat with (attempt + S k)%nat by lia. exact Hk.
    + intros i Hi. replace (S attempt + i)%nat with (attempt + S i)%nat by lia.
      apply Hsrv. lia.
    + replace (S attempt + k)%nat with (attempt + S k)%nat by lia. exact Hnet.
    + exact Hok.
Qed.

(** X28. [makeRequest] recovers from server errors: when the first [k]
    attempts are answered with a status of 500 or more, [k] is at most
    [maxRetries], and attempt [k] gets an ok answer whose body parses,
    the call returns that body after exactly [k] waits. *)
Theorem makeRequest_recovers (maxRetries : Z) (k : nat) (status : Z) (data : T)
        (l : list IoEvent) :
  Z.of_nat k <= maxRetries ->
  (forall i, (i < k)%nat -> is_server_error (net i) = true) ->
  net k = Responded status (Some data) ->
  response_ok status = true ->
  makeRequest config net maxRetries l
  = ((l ++ schedule_from (retryDelay config) 0 k)%list, Ok data).
Proof.
  intros Hk Hsrv Hnet Hok. unfold makeRequest.
  apply (request_loop_recovers maxRetries k _ 0%nat None l status data);
    simpl; try assumption; lia.
Qed.

(** What [makeRequest] throws: the timeout error, the error of a response
    that is not ok, or a value that is no [BaseError]. *)
Lemma request_loop_throws maxRetries fuel :
  forall attempt lastError l e,
    (forall e0, lastError = Some e0 -> isProviderError e0 = true ->
                err_code e0 = MELHORENVIO_API_ERROR \/ err_code e0 = MELHORENVIO_TIMEOUT) ->
    snd (request_loop config net maxRetries fuel attempt lastError l) = Throw e ->
    isProviderError e = true ->
    err_code e = MELHORENVIO_API_ERROR \/ err_code e = MELHORENVIO_TIMEOUT.
Proof.
  induction fuel as [|fuel IH]; intros attempt lastError l e Hlast Hthrow Hp.
  - simpl in Hthrow. unfold throw in Hthrow. simpl in Hthrow. injection Hthrow as <-.
    destruct lastError as [e0|]; simpl in *; [apply (Hlast e0); auto | discriminate Hp].
  - cbn [request_loop] in Hthrow. unfold bind at 1 in Hthrow.
    unfold log at 1 in Hthrow. unfold modify at 1 in Hthrow.
    assert (Hcaught : forall error,
               (isProviderError error = true ->
                err_code error = MELHORENVIO_API_ERROR \/ err_code error = MELHORENVIO_TIMEOUT) ->
               snd ((if (Z.of_nat attempt <? maxRetries) && isProviderError error
                        && err_retryable error
                    then
                      bind (log (Slept (retryDelay config * 2 ^ Z.of_nat attempt)))
                           (fun _ => request_loop config net maxRetries fuel (S attempt)
                                                  (Some error))
                    else throw error) (l ++ [Fetched attempt])%list) = Throw e ->
               err_code e = MELHORENVIO_API_ERROR \/ err_code e = MELHORENVIO_TIMEOUT).
    { intros error Herr H.
      destruct ((Z.of_nat attempt <? maxRetries) && isProviderError error
                && err_retryable error).
      - unfold bind, log, modify in H.
        eapply (IH (S attempt) (Some error)); [|exact H|exact Hp].
        intros e0 E. injection E as <-. exact Herr.
      - unfold throw in H. simpl in H. injection H as <-. apply Herr, Hp. }
    assert (Hnative : forall what,
               isProviderError (native_error what) = true ->
               err_code (native_error what) = MELHORENVIO_API_ERROR
               \/ err_code (native_error what) = MELHORENVIO_TIMEOUT)
      by (intros what X; discriminate X).
    destruct (net attempt) as [status json | |].
    + destruct (response_ok status).
      * destruct json as [data|]; [discriminate Hthrow|].
        apply (Hcaught _ (Hnative _) Hthrow).
      * apply (Hcaught (api_error status)); [left; reflexivity | exact Hthrow].
    + unfold throw in Hthrow. simpl in Hthrow. injection Hthrow as <-. right. reflexivity.
    + apply (Hcaught _ (Hnative _) Hthrow).
Qed.

(** [healthCheck] fetches once, never waits and never throws; it answers
    [true] exactly for an ok answer whose body parses. *)
Lemma healthCheck_single_attempt (l : list IoEvent) :
  healthCheck config net l = ((l ++ [Fetched 0%nat])%list, Ok (is_answer (net 0%nat))).
Proof.
  unfold healthCheck, try_catch, makeRequest. simpl.
  unfold bind, log, modify, throw, ret. simpl.
  destruct (net 0%nat) as [status json | |]; simpl; try reflexivity.
  destruct (response_ok status); destruct json; reflexivity.
Qed.

End Request.

Lemma parseResponse_sources response :
  Forall (fun o => source o = melhorenvio) (parseResponse response).
Proof.
  unfold parseResponse. apply List.Forall_forall. intros o Ho.
  apply in_map_iff in Ho as (item & <- & _). reflexivity.
Qed.

(** The options parsed are the items of the answer that carry no error,
    in order, each with its id, name, price and delivery time. *)
Lemma parseResponse_items response :
  Forall2 (fun o item =>
             Freight.id o = item_id item /\ service o = item_name item
             /\ price o = item_price item /\ deliveryTime o = item_delivery_time item)
          (parseResponse response)
          (List.filter (fun item => negb (default false (item_error item))) response).
Proof.
  unfold parseResponse.
  induction (List.filter (fun item => negb (default false (item_error item))) response)
    as [|item l IH]; simpl; constructor; [repeat split | exact IH].
Qed.

(** X29. [calculateShipping] of the Melhor Envio provider throws nothing
    but a [ProviderError] whose code is [MELHORENVIO_API_ERROR] or
    [MELHORENVIO_TIMEOUT], whatever fails underneath; and what it returns
    is the ok answer of one attempt for the payload built from the
    request, parsed: the options are the items of that answer that carry
    no error, in order, each with its id, name, price and delivery time
    and the source [melhorenvio]. *)
Theorem calculateShipping_outcomes (config : MelhorEnvioConfig) (originCep : string)
        (net : Payload -> nat -> FetchOutcome (list MelhorEnvioAPIResponse))
        (request : ShippingQuoteRequest) (l : list IoEvent) :
  match snd (calculateShipping config originCep net request l) with
  | Throw e =>
      isProviderError e = true
      /\ (err_code e = MELHORENVIO_API_ERROR \/ err_code e = MELHORENVIO_TIMEOUT)
  | Ok options =>
      exists attempt status data,
        net (mkPayload originCep (sq_destinationCep request)
                       match sq_dimensions request with Some d => width d | None => 11 end
                       match sq_dimensions request with Some d => height d | None => 11 end
                       match sq_dimensions request with
                       | Some d => Freight.length d | None => 11 end
                       (sq_totalWeight request) 1) attempt
        = Responded status (Some data)
        /\ (Z.of_nat attempt <= maxRetries config)%Z
        /\ (200 <= status <= 299)%Z
        /\ Forall (fun o => source o = melhorenvio) options
        /\ Forall2 (fun o item =>
                      Freight.id o = item_id item /\ service o = item_name item
                      /\ price o = item_price item
                      /\ deliveryTime o = item_delivery_time item)
                   options
                   (List.filter (fun item => match item_error item with
                                             | Some true => false
                                             | _ => true
                                             end) data)
  end.
Proof.
  assert (Hpay : buildPayload originCep request
                 = mkPayload originCep (sq_destinationCep request)
                     match sq_dimensions request with Some d => width d | None => 11 end
                     match sq_dimensions request with Some d => height d | None => 11 end
                     match sq_dimensions request with
                     | Some d => Freight.length d | None => 11 end
                     (sq_totalWeight request) 1).
  { unfold buildPayload. destruct (sq_dimensions request); reflexivity. }
  rewrite <- Hpay.
  unfold calculateShipping, try_catch, bind.
  destruct (makeRequest config (net (buildPayload originCep request)) (maxRetries config) l)
    as [l' [data | e]] eqn:Hreq.
  - unfold ret. simpl.
    destruct (Z_lt_le_dec (maxRetries config) 0) as [Hneg | Hnn].
    + unfold makeRequest in Hreq.
      replace (Z.to_nat (maxRetries config + 1)) with 0%nat in Hreq by lia.
      discriminate Hreq.
    + unfold makeRequest in Hreq.
      destruct (request_loop_schedule config (net (buildPayload originCep request))
                  (maxRetries config) (Z.to_nat (maxRetries config + 1)) 0 None l)
        as (k & Hk & _ & _ & Hok); [lia | lia |].
      rewrite Hreq in Hok. destruct (Hok data eq_refl) as (status & Hn & Hs).
      exists (0 + k)%nat, status, data.
      split; [exact Hn|]. split; [exact Hk|]. split.
      { unfold response_ok in Hs. apply andb_prop in Hs as [H1 H2].
        apply Z.leb_le in H1, H2. lia. }
      split; [apply parseResponse_sources|].
      assert (Hf : List.filter (fun item => match item_error item with
                                            | Some true => false
                                            | _ => true
                                            end) data
                   = List.filter (fun item => negb (default false (item_error item))) data).
      { apply filter_ext. intros item. destruct (item_error item) as [[|]|]; reflexivity. }
      rewrite Hf. apply parseResponse_items.
  - destruct (isProviderError e) eqn:Hp; unfold throw; simpl.
    + split; [exact Hp|].
      unfold makeRequest in Hreq.
      apply (request_loop_throws config (net (buildPayload originCep request))
               (maxRetries config) (Z.to_nat (maxRetries config + 1)) 0%nat None l e).
      * intros e0 H. discriminate H.
      * rewrite Hreq. reflexivity.
      * exact Hp.
    + split; [reflexivity | left; reflexivity].
Qed.

Lemma makeRequest_retry_schedule_witness :
  exists k,
    Z.of_nat k <= 2
    /\ fst (makeRequest sample_me_config flaky_net 2 [])
       = ([] ++ schedule_from (retryDelay sample_me_config) 0 k)%list
    /\ (forall i, (i < k)%nat -> is_server_error (flaky_net i) = true)
    /\ total_sleep (schedule_from (retryDelay sample_me_config) 0 k)
       = retryDelay sample_me_config * (2 ^ Z.of_nat k - 1)
    /\ (forall data, snd (makeRequest sample_me_config flaky_net 2 []) = Ok data
                     -> is_answer (flaky_net k) = true).
Proof.
  apply (makeRequest_retry_schedule sample_me_config flaky_net 2 []). lia.
Defined.

Lemma makeRequest_recovers_witness :
  makeRequest sample_me_config flaky_net 2 []
  = ([Fetched 0; Slept 1000; Fetched 1; Slept 2000; Fetched 2], Ok sample_items).
Proof.
  apply (makeRequest_recovers sample_me_config flaky_net 2 2%nat 200 sample_items []).
  - simpl. lia.
  - intros i Hi. destruct i as [|[|i]]; [reflexivity | reflexivity | lia].
  - reflexivity.
  - reflexivity.
Defined.

End ProviderProperties.

(** * Validation layer *)

Section ValidationProperties.
Import Chars StateMachine Validation.

(** X30. What [validateCEP] returns is the digits of its input, eight of
    them and not all zero; validating it again returns it unchanged, and
    it passes the CEP guard of the state machine. *)
Theorem validateCEP_result (cep c : string) :
  validateCEP cep = Ok c ->
  c = strip_non_digits cep
  /\ is_cep8 c = true
  /\ c <> "00000000"
  /\ validateCEP c = Ok c
  /\ isValidCEP (Some c) = true.
Proof.
  unfold validateCEP. intros H.
  destruct (is_cep8 (strip_non_digits cep)) eqn:H8; simpl in H; [|discriminate H].
  destruct (String.eqb (strip_non_digits cep) "00000000") eqn:Hz; [discriminate H|].
  injection H as <-.
  assert (Hid : strip_non_digits (strip_non_digits cep) = strip_non_digits cep).
  { unfold is_cep8 in H8. apply andb_prop in H8 as [_ Hd].
    unfold strip_non_digits at 1. rewrite (filter_all_digits _ Hd).
    apply of_chars_chars. }
  split; [reflexivity|]. split; [exact H8|]. split.
  - apply String.eqb_neq. exact Hz.
  - split.
    + rewrite Hid, H8, Hz. reflexivity.
    + unfold is_cep8 in H8. apply andb_prop in H8 as [Hl _].
      unfold isValidCEP. rewrite Hid.
      destruct (strip_non_digits cep); [discriminate Hl | exact Hl].
Qed.

Lemma validateCEP_result_witness :
  "01001000" = strip_non_digits "01001-000"
  /\ is_cep8 "01001000" = true
  /\ "01001000" <> "00000000"
  /\ validateCEP "01001000" = Ok "01001000"
  /\ isValidCEP (Some "01001000") = true.
Proof.
  apply (validateCEP_result "01001-000" "01001000"). reflexivity.
Defined.

End ValidationProperties.
